(** * MAUDE Binary Columns Automator: a shallow embedding of
      [maude_binary_automator.py] and the properties of its pipeline.

    The development follows the layers of the script:
    - Python string operations used by the script ([in], [startswith],
      [endswith], [lower], [replace]);
    - cell values and data frames (the part of pandas the script uses);
    - the value extractor, the existing-indicator detector and the
      indicator builder;
    - the worksheet (the part of openpyxl the script uses), style capture,
      rewrite, restore and colour coding;
    - the file system, validation and per-file processing.

    Strings are sequences of bytes (UTF-8); every pattern the script
    searches for or replaces is ASCII, so byte-wise search and replacement
    agree with Python's code-point-wise ones; [lower] acts on ASCII
    letters.  Numbers in cells, row heights and column widths are integers.
    Console output ([print]) is not part of the model.

    The libraries are modelled as far as the script calls them.  Of pandas:
    a frame is its index length and its labelled columns; how a worksheet
    is parsed into a frame is a parameter of the pipeline.  A label read
    from a sheet is a text or a number; [pattern in col] raises on a
    number, and [df[cols]] raises on a label that is not in the frame.
    Of the file system: the files by path, and whether a path can be
    written; [book.save] raises where it cannot.  Of openpyxl:
    [ws.cell] creates a missing cell; [delete_rows] and [delete_cols] remove
    cells and move the later ones, and leave the row and column dimensions
    alone; [append] writes fresh cells below the last appended row;
    [max_row] and [max_column] are the extent of the cells. *)

From Stdlib Require Import ZArith Ascii String List Bool Lia.
From stdpp Require Import base decidable option list sorting countable
  strings gmap fin_maps fin_sets.


(* ===================================================================== *)
(** * Python string operations                                            *)
(* ===================================================================== *)

Module PyStr.

(** [s.startswith(p)] *)
Definition startswith (s p : string) : bool := String.prefix p s.

(** [p in s] for strings: [p] occurs in [s] as a contiguous substring. *)
Fixpoint contains (p s : string) : bool :=
  String.prefix p s ||
  match s with
  | EmptyString => false
  | String _ s' => contains p s'
  end.

(** [s.endswith(p)] *)
Fixpoint endswith (s p : string) : bool :=
  String.eqb s p ||
  match s with
  | EmptyString => false
  | String _ s' => endswith s' p
  end.

(** ASCII part of [str.lower]: bytes 'A'..'Z' are moved to 'a'..'z'. *)
Definition lower_ascii (c : ascii) : ascii :=
  let n := nat_of_ascii c in
  if (Nat.leb 65 n && Nat.leb n 90)%bool then ascii_of_nat (n + 32) else c.

Fixpoint lower (s : string) : string :=
  match s with
  | EmptyString => EmptyString
  | String c s' => String (lower_ascii c) (lower s')
  end.

(** [s.replace(old, new)] scans from the left and replaces every
    non-overlapping occurrence of [old].  [skip] counts the bytes of an
    occurrence that was just replaced and that remain to be dropped. *)
Fixpoint replace_go (old new : string) (skip : nat) (s : string) : string :=
  match s with
  | EmptyString => EmptyString
  | String c s' =>
      match skip with
      | S k => replace_go old new k s'
      | O =>
          if String.prefix old s
          then new +:+ replace_go old new (String.length old - 1) s'
          else String c (replace_go old new 0 s')
      end
  end.

(** With the empty pattern Python inserts [new] around every character. *)
Fixpoint replace_empty (new s : string) : string :=
  match s with
  | EmptyString => new
  | String c s' => new +:+ String c (replace_empty new s')
  end.

Definition replace (s old new : string) : string :=
  match old with
  | EmptyString => replace_empty new s
  | _ => replace_go old new 0 s
  end.

(** ASCII part of [str.upper]: bytes 'a'..'z' are moved to 'A'..'Z'. *)
Definition upper_ascii (c : ascii) : ascii :=
  let n := nat_of_ascii c in
  if (Nat.leb 97 n && Nat.leb n 122)%bool then ascii_of_nat (n - 32) else c.

Fixpoint upper (s : string) : string :=
  match s with
  | EmptyString => EmptyString
  | String c s' => String (upper_ascii c) (upper s')
  end.

(** Zero-padded decimal rendering used by [strftime]. *)
Definition digit (n : nat) : ascii := ascii_of_nat (48 + n mod 10).

Fixpoint digits (width : nat) (n : nat) : string :=
  match width with
  | O => EmptyString
  | S w => digits w (n / 10) +:+ String (digit n) EmptyString
  end.

End PyStr.

(* ===================================================================== *)
(** * Exceptions                                                          *)
(* ===================================================================== *)

Inductive exn : Type :=
| TypeError        (* '<' between str and a number, in [sorted] *)
| LabelTypeError   (* the TypeError of [pattern in col] on a label that is
                      not a str *)
| AttributeError   (* [.replace] on a value that is not a str *)
| KeyError         (* [df[cols]] with a label the frame does not have *)
| IOError          (* the file cannot be opened as a workbook *)
| OSError.         (* [book.save] cannot write to the path *)

Inductive result (A : Type) : Type :=
| Ok (a : A)
| Raise (e : exn).
Arguments Ok {A} a.
Arguments Raise {A} e.

Global Instance result_ret : MRet result := fun A a => Ok a.

Global Instance result_bind : MBind result := fun A B k r =>
  match r with
  | Ok a => k a
  | Raise e => Raise e
  end.

(* ===================================================================== *)
(** * Cell values and data frames                                         *)
(* ===================================================================== *)

(** A cell holds text, a number, or nothing ([NaN] in the frame, [None] in
    the sheet). *)
Inductive value : Type :=
| VNull
| VStr (s : string)
| VNum (n : Z).

Global Instance value_eq_dec : EqDecision value.
Proof. solve_decision. Defined.

Global Instance value_countable : Countable value.
Proof.
  refine (inj_countable'
    (fun v => match v with
              | VNull => inl tt
              | VStr s => inr (inl s)
              | VNum n => inr (inr n)
              end)
    (fun x => match x with
              | inl _ => VNull
              | inr (inl s) => VStr s
              | inr (inr n) => VNum n
              end) _).
  by intros [].
Defined.

(** Python's [==] on cell values; [NaN] equals nothing, itself included. *)
Definition py_eq (a b : value) : bool :=
  match a, b with
  | VStr s, VStr t => String.eqb s t
  | VNum m, VNum n => Z.eqb m n
  | _, _ => false
  end.

Definition notna (v : value) : bool :=
  match v with VNull => false | _ => true end.

Definition is_str (v : value) : bool :=
  match v with VStr _ => true | _ => false end.

Definition is_num (v : value) : bool :=
  match v with VNum _ => true | _ => false end.

(** The order [sorted] uses: code-point order on text, numeric order on
    numbers.  Across kinds Python has no order ([sorted] raises before the
    result depends on it); the relation is extended there only to make it
    total. *)
Definition value_leb (a b : value) : bool :=
  match a, b with
  | VNull, _ => true
  | _, VNull => false
  | VNum m, VNum n => Z.leb m n
  | VNum _, VStr _ => true
  | VStr _, VNum _ => false
  | VStr s, VStr t => String.leb s t
  end.

Definition value_le (a b : value) : Prop := value_leb a b = true.

Global Instance value_le_dec : RelDecision value_le.
Proof. intros a b. unfold value_le. apply _. Defined.

(** Values that [<] can compare with each other: all text, or all
    numbers. *)
Definition comparable (l : list value) : bool :=
  forallb is_str l || forallb is_num l.

(** [sorted(l)]: raises [TypeError] when it has to compare text with a
    number (or with [NaN], which [dropna] keeps away), which happens
    exactly when the list is not of one kind. *)
Definition sorted (l : list value) : result (list value) :=
  if comparable l then Ok (merge_sort value_le l) else Raise TypeError.

Definition Series : Type := list value.

(** A data frame whose labels are texts: the length of its index and its
    columns in order, each a label with the column's values.  A frame as
    it is read from a sheet can have numbers among its labels ([RawFrame]
    below); the first thing the script does with the labels of a frame it
    has read is [pattern in col] on each of them, which raises on a
    number, so every later step holds a frame of this type. *)
Record DataFrame : Type := mkFrame {
  frame_len : nat;
  frame_cols : list (string * Series)
}.

(** [df.columns] *)
Definition columns (df : DataFrame) : list string := map fst (frame_cols df).

Fixpoint assoc {A} (k : string) (l : list (string * A)) : option A :=
  match l with
  | [] => None
  | (k', a) :: l' => if String.eqb k k' then Some a else assoc k l'
  end.

(** [df[col]] for a label of the frame, which is how the script reads a
    single column: [col] is always taken from [df.columns].  (Selecting by
    a list of labels, which raises [KeyError] on a label that is not in the
    frame, is [indicator] below.) *)
Definition getitem (df : DataFrame) (col : string) : Series :=
  default [] (assoc col (frame_cols df)).

(** [df[col].iloc[i]]; a missing entry reads as [NaN]. *)
Definition at_row (s : Series) (i : nat) : value := nth i s VNull.

(** [s.dropna()] *)
Definition dropna (s : Series) : Series := List.filter notna s.

(** Every column is as long as the index, and labels are unique. *)
Definition frame_wf (df : DataFrame) : Prop :=
  NoDup (columns df) /\
  Forall (fun c => length (snd c) = frame_len df) (frame_cols df).

(** ** Frames as they are read *)

(** A column label as [pd.read_excel] takes it from the header row: the
    text of the header cell, or the number when the cell holds one. *)
Inductive label : Type :=
| LStr (s : string)
| LNum (n : Z).

(** The frame [pd.read_excel] returns. *)
Record RawFrame : Type := mkRaw {
  raw_len : nat;
  raw_cols : list (label * Series)
}.

(** [df.columns] of a frame as read. *)
Definition raw_labels (df : RawFrame) : list label := map fst (raw_cols df).

(** [pattern in col] for a label: on a number Python raises [TypeError]
    (argument of type 'int' is not iterable). *)
Definition label_contains (pattern : string) (col : label) : result bool :=
  match col with
  | LStr s => Ok (PyStr.contains pattern s)
  | LNum _ => Raise LabelTypeError
  end.

(** [[col for col in df.columns if pattern in col]] on the labels as read:
    the test is applied to every label in turn. *)
Fixpoint labels_matching (pattern : string) (labels : list label)
    : result (list label) :=
  match labels with
  | [] => Ok []
  | col :: rest =>
      found ← label_contains pattern col;
      cols ← labels_matching pattern rest;
      Ok (if found : bool then col :: cols else cols)
  end.

Definition is_text_label (col : label) : bool :=
  match col with LStr _ => true | LNum _ => false end.

(** The columns with their labels as texts; the [TypeError] of
    [pattern in col] at the first label that is a number. *)
Fixpoint text_cols (cols : list (label * Series))
    : result (list (string * Series)) :=
  match cols with
  | [] => Ok []
  | (LStr s, values) :: rest =>
      rest ← text_cols rest; Ok ((s, values) :: rest)
  | (LNum _, _) :: _ => Raise LabelTypeError
  end.

(** The frame as the pipeline holds it once [pattern in col] has passed
    over all its labels. *)
Definition text_labels (df : RawFrame) : result DataFrame :=
  cols ← text_cols (raw_cols df); Ok (mkFrame (raw_len df) cols).

(** A frame with text labels, as read. *)
Definition raw_of (df : DataFrame) : RawFrame :=
  mkRaw (frame_len df) (map (fun c => (LStr (fst c), snd c)) (frame_cols df)).

(* ===================================================================== *)
(** * Value extractor, existing-indicator detector, indicator builder     *)
(* ===================================================================== *)

(** [[col for col in df.columns if pattern in col]] *)
Definition cols_matching (df : DataFrame) (pattern : string) : list string :=
  List.filter (PyStr.contains pattern) (columns df).

(** The body of the loop over [column_patterns] in [get_unique_values],
    threading [unique_values] and [matching_cols]. *)
Definition collect_pattern (df : DataFrame)
    (acc : gset value * list string) (pattern : string)
    : gset value * list string :=
  let cols := cols_matching df pattern in
  (fold_left (fun u col => u ∪ list_to_set (dropna (getitem df col)))
             cols (fst acc),
   snd acc ++ cols).

Definition collect_patterns (df : DataFrame) (column_patterns : list string)
    : gset value * list string :=
  fold_left (collect_pattern df) column_patterns (∅, []).

Definition get_unique_values (df : DataFrame) (column_patterns : list string)
    : result (list value * list string) :=
  let '(unique_values, matching_cols) := collect_patterns df column_patterns in
  vs ← sorted (elements unique_values);
  Ok (vs, matching_cols).

Definition is_source_col (c : string) : bool :=
  PyStr.contains "Device Problem" c ||
  PyStr.contains "Patient Problem" c ||
  PyStr.contains "Patient Outcome" c.

Definition has_indicator_prefix (col : string) : bool :=
  PyStr.startswith col "Device_" ||
  PyStr.startswith col "Patient_" ||
  PyStr.startswith col "Outcome_".

Definition mem_str (x : string) (l : list string) : bool :=
  existsb (String.eqb x) l.

Definition check_existing_binary_columns (df : DataFrame) : list string :=
  List.filter
    (fun col =>
       has_indicator_prefix col &&
       negb (mem_str col (List.filter is_source_col (columns df))))
    (columns df).

(** The chain of [replace] calls that turns a value into a name suffix. *)
Definition sanitize (s : string) : string :=
  PyStr.replace
    (PyStr.replace
       (PyStr.replace
          (PyStr.replace (PyStr.replace s " " "_") "," "")
          "(" "")
       ")" "")
    "/" "_".

(** Replacement of one character [a] by [new], character by character. *)
Fixpoint subst_char (a : ascii) (new : string) (s : string) : string :=
  match s with
  | EmptyString => EmptyString
  | String c s' =>
      if Ascii.eqb c a then new +:+ subst_char a new s'
      else String c (subst_char a new s')
  end.

(** What the chain of [replace] calls does to one character: space and
    slash become an underscore; comma and parentheses go. *)
Definition sanitize_char (c : ascii) : string :=
  if Ascii.eqb c " " || Ascii.eqb c "/" then "_"
  else if Ascii.eqb c "," || Ascii.eqb c "(" || Ascii.eqb c ")" then ""
  else String c EmptyString.

Fixpoint sanitize_by_char (s : string) : string :=
  match s with
  | EmptyString => EmptyString
  | String c s' => sanitize_char c +:+ sanitize_by_char s'
  end.

(** The sanitizer as the specification words it: every space becomes an
    underscore; every parenthesis, comma and slash is removed. *)
Definition sanitize_char_as_specified (c : ascii) : string :=
  if Ascii.eqb c " " then "_"
  else if Ascii.eqb c "(" || Ascii.eqb c ")" || Ascii.eqb c "," || Ascii.eqb c "/"
  then ""
  else String c EmptyString.

Fixpoint sanitize_as_specified (s : string) : string :=
  match s with
  | EmptyString => EmptyString
  | String c s' => sanitize_char_as_specified c +:+ sanitize_as_specified s'
  end.

Fixpoint has_space (s : string) : bool :=
  match s with
  | EmptyString => false
  | String c s' => Ascii.eqb c " " || has_space s'
  end.

(** The character [a] occurs in [s]. *)
Fixpoint has_char (a : ascii) (s : string) : bool :=
  match s with
  | EmptyString => false
  | String c s' => Ascii.eqb c a || has_char a s'
  end.

(** [f"{prefix}{problem.replace(...)...}"]; [.replace] exists on text only. *)
Definition col_name_of (prefix : string) (v : value) : result string :=
  match v with
  | VStr s => Ok (prefix +:+ sanitize s)
  | _ => Raise AttributeError
  end.

(** [.eq(v).any(axis=1).astype(int)] on the columns of the frame under
    the labels [cols]. *)
Definition any_eq (df : DataFrame) (cols : list string) (v : value)
    : list Z :=
  map (fun i =>
         if existsb (fun c => py_eq (at_row (getitem df c) i) v) cols
         then 1%Z else 0%Z)
      (seq 0 (frame_len df)).

(** Every label of [cols] is a label of the frame. *)
Definition has_cols (df : DataFrame) (cols : list string) : bool :=
  forallb (fun c => mem_str c (columns df)) cols.

(** [df[cols].eq(v).any(axis=1).astype(int)]: the selection [df[cols]]
    raises [KeyError] when a label of [cols] is not in the frame. *)
Definition indicator (df : DataFrame) (cols : list string) (v : value)
    : result (list Z) :=
  if has_cols df cols then Ok (any_eq df cols v) else Raise KeyError.

(** A Python [dict] with text keys: insertion-ordered; assigning to a key
    that is present overwrites its value and keeps its position. *)
Definition dict (A : Type) : Type := list (string * A).

Fixpoint dict_set {A} (d : dict A) (k : string) (a : A) : dict A :=
  match d with
  | [] => [(k, a)]
  | (k', a') :: d' =>
      if String.eqb k k' then (k, a) :: d' else (k', a') :: dict_set d' k a
  end.

Definition dict_keys {A} (d : dict A) : list string := map fst d.

(** One of the three loops of [create_binary_columns]. *)
Fixpoint add_indicators (df : DataFrame) (prefix : string)
    (values : list value) (cols : list string)
    (existing_binary_cols : list string) (binary_data : dict (list Z))
    : result (dict (list Z)) :=
  match values with
  | [] => Ok binary_data
  | problem :: rest =>
      col_name ← col_name_of prefix problem;
      binary_data ←
        (if negb (mem_str col_name existing_binary_cols)
         then series ← indicator df cols problem;
              Ok (dict_set binary_data col_name series)
         else Ok binary_data);
      add_indicators df prefix rest cols existing_binary_cols binary_data
  end.

Definition create_binary_columns (df : DataFrame)
    (device_values patient_problem_values patient_outcome_values : list value)
    (device_cols patient_problem_cols patient_outcome_cols : list string)
    (existing_binary_cols : list string) : result (dict (list Z)) :=
  binary_data ← add_indicators df "Device_" device_values device_cols
                   existing_binary_cols [];
  binary_data ← add_indicators df "Patient_" patient_problem_values
                   patient_problem_cols existing_binary_cols binary_data;
  add_indicators df "Outcome_" patient_outcome_values patient_outcome_cols
    existing_binary_cols binary_data.

(** What lets a loop of the builder get past [df[cols]]: every label of
    [cols] is in the frame, or no value needs a column (an existing column
    has the name of each), so that the selection is never evaluated. *)
Definition can_select (df : DataFrame) (prefix : string)
    (values : list value) (cols existing_binary_cols : list string) : Prop :=
  has_cols df cols = true \/
  forall s, VStr s ∈ values -> prefix +:+ sanitize s ∈ existing_binary_cols.

(** The three prefixes, and the names the builder makes from them. *)
Definition indicator_prefixes : list string :=
  ["Device_"; "Patient_"; "Outcome_"].

Definition indicator_name (name : string) : Prop :=
  exists prefix s, prefix ∈ indicator_prefixes /\ name = prefix +:+ sanitize s.

(** [pd.concat([df, pd.DataFrame(binary_data)], axis=1)] *)
Definition concat_binary (df : DataFrame) (binary_data : dict (list Z))
    : DataFrame :=
  mkFrame (frame_len df)
          (frame_cols df ++ map (fun kv => (fst kv, map VNum (snd kv))) binary_data).

(** [dataframe_to_rows(df, index=False, header=True)]: the header, then
    one row per index entry. *)
Definition dataframe_to_rows (df : DataFrame) : list (list value) :=
  map VStr (columns df) ::
  map (fun i => map (fun col => at_row (snd col) i) (frame_cols df))
      (seq 0 (frame_len df)).

(* ===================================================================== *)
(** * Worksheets and styles                                               *)
(* ===================================================================== *)

Record Font : Type := mkFont {
  font_name : option string;
  font_size : option Z;
  font_bold : bool;
  font_italic : bool;
  font_color : option string
}.

Record PatternFill : Type := mkFill {
  fill_type : option string;
  start_color : string;
  end_color : string
}.

Record Alignment : Type := mkAlignment {
  horizontal : option string;
  vertical : option string;
  wrap_text : bool
}.

Record Border : Type := mkBorder {
  border_left : option string;
  border_right : option string;
  border_top : option string;
  border_bottom : option string
}.

(** What a fresh cell carries. *)
Definition default_font : Font := mkFont (Some "Calibri") (Some 11%Z) false false None.
Definition default_fill : PatternFill := mkFill None "00000000" "00000000".
Definition default_alignment : Alignment := mkAlignment None None false.
Definition default_border : Border := mkBorder None None None None.

(** [Font(bold=True)] *)
Definition bold_font : Font := mkFont None None true false None.

Definition green_fill : PatternFill := mkFill (Some "solid") "90EE90" "90EE90".
Definition red_fill : PatternFill := mkFill (Some "solid") "FFB6C1" "FFB6C1".

Record Cell : Type := mkCell {
  cell_value : value;
  cell_font : Font;
  cell_fill : PatternFill;
  cell_alignment : Alignment;
  cell_border : Border;
  cell_number_format : string
}.

(** [Cell(ws, row, column, value)] *)
Definition new_cell (v : value) : Cell :=
  mkCell v default_font default_fill default_alignment default_border "General".

(** The record kept per position by [capture_original_styling]. *)
Record Style : Type := mkStyle {
  style_font : Font;
  style_fill : PatternFill;
  style_alignment : Alignment;
  style_border : Border;
  style_number_format : string
}.

Definition style_of (c : Cell) : Style :=
  mkStyle (cell_font c) (cell_fill c) (cell_alignment c) (cell_border c)
          (cell_number_format c).

(** The five assignments of [restore_original_formatting]. *)
Definition apply_style (st : Style) (c : Cell) : Cell :=
  mkCell (cell_value c) (style_font st) (style_fill st) (style_alignment st)
         (style_border st) (style_number_format st).

Definition set_font (f : Font) (c : Cell) : Cell :=
  mkCell (cell_value c) f (cell_fill c) (cell_alignment c) (cell_border c)
         (cell_number_format c).

Definition set_fill (f : PatternFill) (c : Cell) : Cell :=
  mkCell (cell_value c) (cell_font c) f (cell_alignment c) (cell_border c)
         (cell_number_format c).

(** A worksheet: its cells by (row, column), both counted from 1; the
    heights of its row dimensions and the widths of its column dimensions
    (by column letter), each possibly unset; and the row [append] last
    wrote. *)
Record Worksheet : Type := mkSheet {
  ws_cells : gmap (nat * nat) Cell;
  row_dimensions : gmap nat (option Z);
  column_dimensions : gmap string (option Z);
  current_row : nat
}.

Definition with_cells (ws : Worksheet) (m : gmap (nat * nat) Cell) : Worksheet :=
  mkSheet m (row_dimensions ws) (column_dimensions ws) (current_row ws).

Definition with_row_dimensions (ws : Worksheet) (m : gmap nat (option Z))
    : Worksheet :=
  mkSheet (ws_cells ws) m (column_dimensions ws) (current_row ws).

Definition with_column_dimensions (ws : Worksheet)
    (m : gmap string (option Z)) : Worksheet :=
  mkSheet (ws_cells ws) (row_dimensions ws) m (current_row ws).

Definition with_current_row (ws : Worksheet) (n : nat) : Worksheet :=
  mkSheet (ws_cells ws) (row_dimensions ws) (column_dimensions ws) n.

(** Coordinates start at 1. *)
Definition sheet_wf (ws : Worksheet) : Prop :=
  forall r c, is_Some (ws_cells ws !! (r, c)) -> 1 <= r /\ 1 <= c.

(** [sheet_wf], as a test. *)
Definition sheet_wfb (ws : Worksheet) : bool :=
  forallb (fun kv => (1 <=? fst (fst kv)) && (1 <=? snd (fst kv)))
          (map_to_list (ws_cells ws)).

Definition cell_rows (m : gmap (nat * nat) Cell) : list nat :=
  map (fun kv => fst (fst kv)) (map_to_list m).

Definition cell_cols (m : gmap (nat * nat) Cell) : list nat :=
  map (fun kv => snd (fst kv)) (map_to_list m).

(** [ws.max_row], [ws.max_column]: 1 on a sheet without cells. *)
Definition max_row (ws : Worksheet) : nat :=
  Nat.max 1 (max_list (cell_rows (ws_cells ws))).

Definition max_column (ws : Worksheet) : nat :=
  Nat.max 1 (max_list (cell_cols (ws_cells ws))).

(** Reading [ws.cell(row, column)]: a cell that is not there yet is a
    fresh one without value. *)
Definition get_cell (ws : Worksheet) (row col : nat) : Cell :=
  default (new_cell VNull) (ws_cells ws !! (row, col)).

(** The effect of [ws.cell(row, column)] on the sheet: the cell is created
    when missing. *)
Definition touch (ws : Worksheet) (row col : nat) : Worksheet :=
  with_cells ws (<[(row, col) := get_cell ws row col]> (ws_cells ws)).

(** [ws.cell(row, column).attr = ...] *)
Definition update_cell (ws : Worksheet) (row col : nat) (f : Cell -> Cell)
    : Worksheet :=
  with_cells ws (<[(row, col) := f (get_cell ws row col)]> (ws_cells ws)).

(** [ws.row_dimensions[row].height]; the dimension is created when missing. *)
Definition row_height (ws : Worksheet) (row : nat) : option Z :=
  default None (row_dimensions ws !! row).

(** Truth value of a height or width: unset and zero are false. *)
Definition truthy (d : option Z) : bool :=
  match d with
  | Some z => negb (Z.eqb z 0)
  | None => false
  end.

(** ** [capture_original_styling] *)

Definition capture_cell (row : nat)
    (acc : Worksheet * gmap (nat * nat) Style) (col : nat)
    : Worksheet * gmap (nat * nat) Style :=
  let ws := touch (fst acc) row col in
  (ws, <[(row, col) := style_of (get_cell ws row col)]> (snd acc)).

Definition capture_row
    (acc : Worksheet * gmap (nat * nat) Style * gmap nat (option Z))
    (row : nat)
    : Worksheet * gmap (nat * nat) Style * gmap nat (option Z) :=
  let '(ws, original_styles, original_row_heights) := acc in
  let h := row_height ws row in
  let ws := with_row_dimensions ws (<[row := h]> (row_dimensions ws)) in
  let original_row_heights := <[row := h]> original_row_heights in
  let '(ws, original_styles) :=
    fold_left (capture_cell row) (seq 1 (max_column ws)) (ws, original_styles) in
  (ws, original_styles, original_row_heights).

(** Returns the sheet as the walk leaves it and the three captured maps. *)
Definition capture_original_styling (ws : Worksheet)
    : Worksheet *
      (gmap (nat * nat) Style * gmap nat (option Z) * gmap string (option Z)) :=
  let '(ws, original_styles, original_row_heights) :=
    fold_left capture_row (seq 1 (max_row ws)) (ws, ∅, ∅) in
  let original_col_widths := column_dimensions ws in
  (ws, (original_styles, original_row_heights, original_col_widths)).

(** ** Clearing and writing *)

Definition shift_row (idx amount : nat) (kv : (nat * nat) * Cell)
    : option ((nat * nat) * Cell) :=
  let r := fst (fst kv) in
  if r <? idx then Some kv
  else if r <? idx + amount then None
  else Some ((r - amount, snd (fst kv)), snd kv).

Definition shift_col (idx amount : nat) (kv : (nat * nat) * Cell)
    : option ((nat * nat) * Cell) :=
  let c := snd (fst kv) in
  if c <? idx then Some kv
  else if c <? idx + amount then None
  else Some ((fst (fst kv), c - amount), snd kv).

(** [ws.delete_rows(idx, amount)]: the rows [idx .. idx+amount-1] go, the
    rows below move up; the append position follows the last row left. *)
Definition delete_rows (ws : Worksheet) (idx amount : nat) : Worksheet :=
  let m : gmap (nat * nat) Cell :=
    list_to_map (omap (shift_row idx amount) (map_to_list (ws_cells ws))) in
  let ws := with_cells ws m in
  with_current_row ws (if decide (m = ∅) then 0 else max_row ws).

(** [ws.delete_cols(idx, amount)] *)
Definition delete_cols (ws : Worksheet) (idx amount : nat) : Worksheet :=
  with_cells ws
    (list_to_map (omap (shift_col idx amount) (map_to_list (ws_cells ws)))).

Fixpoint append_cells (row_idx col_idx : nat) (contents : list value)
    (m : gmap (nat * nat) Cell) : gmap (nat * nat) Cell :=
  match contents with
  | [] => m
  | content :: rest =>
      append_cells row_idx (S col_idx) rest
        (<[(row_idx, col_idx) := new_cell content]> m)
  end.

(** [ws.append(r)] *)
Definition append (ws : Worksheet) (r : list value) : Worksheet :=
  let row_idx := current_row ws + 1 in
  with_current_row (with_cells ws (append_cells row_idx 1 r (ws_cells ws)))
                   row_idx.

(** ** [restore_original_formatting] *)

Definition restore_cell (original_styles : gmap (nat * nat) Style)
    (row : nat) (ws : Worksheet) (col : nat) : Worksheet :=
  match original_styles !! (row, col) with
  | Some style => update_cell ws row col (apply_style style)
  | None => ws
  end.

Definition restore_row (original_styles : gmap (nat * nat) Style)
    (original_row_heights : gmap nat (option Z)) (original_col_count : nat)
    (ws : Worksheet) (row : nat) : Worksheet :=
  let ws :=
    match original_row_heights !! row with
    | Some h =>
        if truthy h
        then with_row_dimensions ws (<[row := h]> (row_dimensions ws))
        else ws
    | None => ws
    end in
  fold_left (restore_cell original_styles row) (seq 1 original_col_count) ws.

Definition restore_width (col_letter : string) (width : option Z)
    (dims : gmap string (option Z)) : gmap string (option Z) :=
  if truthy width then <[col_letter := width]> dims else dims.

Definition restore_original_formatting (ws : Worksheet)
    (original_styles : gmap (nat * nat) Style)
    (original_row_heights : gmap nat (option Z))
    (original_col_widths : gmap string (option Z))
    (original_col_count : nat) : Worksheet :=
  let ws :=
    fold_left (restore_row original_styles original_row_heights original_col_count)
              (seq 1 (max_row ws)) ws in
  with_column_dimensions ws
    (map_fold restore_width (column_dimensions ws) original_col_widths).

(** ** [apply_binary_formatting] *)

Definition format_data_cell (col_idx : nat) (ws : Worksheet) (row_idx : nat)
    : Worksheet :=
  let ws := touch ws row_idx col_idx in
  let v := cell_value (get_cell ws row_idx col_idx) in
  if py_eq v (VNum 1) then update_cell ws row_idx col_idx (set_fill green_fill)
  else if py_eq v (VNum 0) then update_cell ws row_idx col_idx (set_fill red_fill)
  else ws.

Definition format_binary_col (n_rows : nat) (ws : Worksheet) (col_idx : nat)
    : Worksheet :=
  let ws := update_cell ws 1 col_idx (set_font bold_font) in
  fold_left (format_data_cell col_idx) (seq 2 n_rows) ws.

Definition apply_binary_formatting (ws : Worksheet)
    (df_with_binary : DataFrame) (original_col_count : nat)
    (binary_data : dict (list Z)) : Worksheet :=
  let binary_start_col := original_col_count + 1 in
  let binary_cols := dict_keys binary_data in
  fold_left (format_binary_col (frame_len df_with_binary))
            (seq binary_start_col (length binary_cols)) ws.

(** The part of [process_maude_file] between the emptiness test of
    [binary_data] and the saves: clear the sheet, write the frame with its
    new columns, restore the captured formatting, colour the new columns. *)
Definition rewrite_sheet (ws : Worksheet) (df : DataFrame)
    (binary_data : dict (list Z))
    (original_styles : gmap (nat * nat) Style)
    (original_row_heights : gmap nat (option Z))
    (original_col_widths : gmap string (option Z)) : Worksheet :=
  let df_with_binary := concat_binary df binary_data in
  let ws := delete_rows ws 1 (max_row ws) in
  let ws := delete_cols ws 1 (max_column ws) in
  let ws := fold_left append (dataframe_to_rows df_with_binary) ws in
  let original_col_count := length (columns df) in
  let ws := restore_original_formatting ws original_styles original_row_heights
              original_col_widths original_col_count in
  apply_binary_formatting ws df_with_binary original_col_count binary_data.

(** ** What the written sheet holds *)

(** The value [append] puts at row [r], column [c] when the rows [rows]
    are appended to a sheet whose last appended row is [k]. *)
Definition written_value (rows : list (list value)) (k r c : nat)
    : option value :=
  if decide (k < r /\ 1 <= c)
  then rows !! (r - k - 1) ≫= (fun row => row !! (c - 1))
  else None.

(** The value of a frame at a sheet position: labels in row 1, the entry
    of index [i] in row [i + 2]. *)
Definition frame_value (df : DataFrame) (r c : nat) : option value :=
  if decide (1 <= c) then
    col ← frame_cols df !! (c - 1);
    if decide (r = 1) then Some (VStr (fst col))
    else if decide (2 <= r <= frame_len df + 1)
         then Some (at_row (snd col) (r - 2))
         else None
  else None.

(** The colouring of one data cell by [apply_binary_formatting]. *)
Definition paint (cell : Cell) : Cell :=
  if py_eq (cell_value cell) (VNum 1) then set_fill green_fill cell
  else if py_eq (cell_value cell) (VNum 0) then set_fill red_fill cell
  else cell.

(** What [apply_binary_formatting] does to the cell of row [r] of an
    indicator column, on a frame with [n] rows. *)
Definition formatted (n r : nat) (cell : Cell) : Cell :=
  if decide (r = 1) then set_font bold_font cell
  else if decide (2 <= r < 2 + n) then paint cell
  else cell.

(** What [restore_original_formatting] does to the cell at a position. *)
Definition restored (original_styles : gmap (nat * nat) Style)
    (r c : nat) (cell : Cell) : Cell :=
  match original_styles !! (r, c) with
  | Some style => apply_style style cell
  | None => cell
  end.

(** The height of a row dimension after [restore_original_formatting]
    has passed the row: the captured height when it is set and not zero. *)
Definition restored_height (original_row_heights : gmap nat (option Z))
    (r : nat) (old : option (option Z)) : option (option Z) :=
  match original_row_heights !! r with
  | Some h => if truthy h then Some h else old
  | None => old
  end.

(* ===================================================================== *)
(** * Files, the clock, and the per-file pipeline                         *)
(* ===================================================================== *)

(** A workbook: its sheets by title, in order. *)
Definition Workbook : Type := list (string * Worksheet).

(** [book[title] = ws] for a sheet that is there: the worksheet object is
    shared with the workbook, so what the script does to [ws] is what
    [book.save] writes. *)
Fixpoint set_sheet (book : Workbook) (title : string) (ws : Worksheet)
    : Workbook :=
  match book with
  | [] => []
  | (t, w) :: rest =>
      if String.eqb title t then (t, ws) :: rest
      else (t, w) :: set_sheet rest title ws
  end.

(** What a path holds: something that does not open as a workbook, or a
    workbook. *)
Inductive File : Type :=
| Unreadable
| Xlsx (book : Workbook).

Record DateTime : Type := mkDateTime {
  year : nat; month : nat; day : nat;
  hour : nat; minute : nat; second : nat
}.

(** [now.strftime("%Y%m%d_%H%M%S")] *)
Definition strftime (t : DateTime) : string :=
  PyStr.digits 4 (year t) +:+ PyStr.digits 2 (month t) +:+
  PyStr.digits 2 (day t) +:+ "_" +:+
  PyStr.digits 2 (hour t) +:+ PyStr.digits 2 (minute t) +:+
  PyStr.digits 2 (second t).

(** The world of the script: the files by path, whether the file system
    lets a file be written at a path (its directory exists and the write is
    permitted), and the clock. *)
Record World : Type := mkWorld {
  fs : gmap string File;
  writable : string -> bool;
  clock : DateTime
}.

(** Computations that read or write the world and may raise. *)
Definition IO (A : Type) : Type := World -> result A * World.

Global Instance IO_ret : MRet IO := fun A a w => (Ok a, w).

Global Instance IO_bind : MBind IO := fun A B k m w =>
  match m w with
  | (Ok a, w') => k a w'
  | (Raise e, w') => (Raise e, w')
  end.

Definition lift {A} (r : result A) : IO A := fun w => (r, w).

(** [try: body except Exception as e: handler(e)] *)
Definition try_except {A} (body : IO A) (handler : exn -> IO A) : IO A :=
  fun w =>
    match body w with
    | (Ok a, w') => (Ok a, w')
    | (Raise e, w') => handler e w'
    end.

(** [str(e)]: one message for each kind of exception of the model. *)
Definition exn_message (e : exn) : string :=
  match e with
  | TypeError => "'<' not supported between instances of 'str' and 'int'"
  | LabelTypeError => "argument of type 'int' is not iterable"
  | AttributeError => "'int' object has no attribute 'replace'"
  | KeyError => "not in index"
  | IOError => "File is not a zip file"
  | OSError => "No such file or directory"
  end.

Definition os_path_exists (path : string) : IO bool :=
  fun w => (Ok (bool_decide (is_Some (fs w !! path))), w).

(** [load_workbook(path)] *)
Definition load_workbook (path : string) : IO Workbook :=
  fun w =>
    match fs w !! path with
    | Some (Xlsx book) => (Ok book, w)
    | _ => (Raise IOError, w)
    end.

(** [book.save(path)]: writes the workbook, or raises when the file
    system does not let it and writes nothing. *)
Definition book_save (book : Workbook) (path : string) : IO unit :=
  fun w =>
    if writable w path
    then (Ok tt, mkWorld (<[path := Xlsx book]> (fs w)) (writable w) (clock w))
    else (Raise OSError, w).

(** [datetime.now()] *)
Definition datetime_now : IO DateTime := fun w => (Ok (clock w), w).

Section Pipeline.

(** How pandas parses a worksheet into a frame ([pd.read_excel] on one
    sheet): header row to labels, the rows below to values. *)
Variable read_sheet : Worksheet -> result RawFrame.

(** [pd.ExcelFile(path).sheet_names] *)
Definition excel_sheet_names (path : string) : IO (list string) :=
  book ← load_workbook path; mret (map fst book).

(** [pd.read_excel(path, sheet_name=title)] *)
Definition pd_read_excel (path title : string) : IO RawFrame :=
  book ← load_workbook path;
  match assoc title book with
  | Some ws => lift (read_sheet ws)
  | None => lift (Raise IOError)
  end.

Definition validate_maude_file (file_path : string) : IO (bool * string) :=
  try_except
    (file_exists ← os_path_exists file_path;
     if negb file_exists
     then mret (false, "File not found: " +:+ file_path)
     else if negb (PyStr.endswith (PyStr.lower file_path) ".xlsx")
     then mret (false, "Not an Excel file: " +:+ file_path)
     else
       sheet_names ← excel_sheet_names file_path;
       if negb (mem_str "Events" sheet_names)
       then mret (false, "No 'Events' sheet found in " +:+ file_path)
       else
         df ← pd_read_excel file_path "Events";
         device_cols ←
           lift (labels_matching "Device Problem" (raw_labels df));
         patient_problem_cols ←
           lift (labels_matching "Patient Problem" (raw_labels df));
         patient_outcome_cols ←
           lift (labels_matching "Patient Outcome" (raw_labels df));
         match device_cols, patient_problem_cols, patient_outcome_cols with
         | [], [], [] =>
             mret (false, "No problem/outcome columns found in " +:+ file_path)
         | _, _, _ => mret (true, "File validated successfully")
         end)
    (fun e => mret (false, "Error validating file: " +:+ exn_message e)).

(** The backup path of [process_maude_file]. *)
Definition backup_path_of (file_path timestamp : string) : string :=
  PyStr.replace file_path ".xlsx" ("_backup_" +:+ timestamp +:+ ".xlsx").

(** What [process_maude_file] computes from the frame between loading
    and the emptiness test: [None] stands for its [return False] when no
    value was found at all. *)
Definition plan_binary_columns (df : DataFrame)
    : result (option (dict (list Z))) :=
  '(device_values, device_cols) ← get_unique_values df ["Device Problem"];
  '(patient_problem_values, patient_problem_cols) ←
     get_unique_values df ["Patient Problem"];
  '(patient_outcome_values, patient_outcome_cols) ←
     get_unique_values df ["Patient Outcome"];
  match device_values, patient_problem_values, patient_outcome_values with
  | [], [], [] => mret None
  | _, _, _ =>
      let existing_binary_cols := check_existing_binary_columns df in
      binary_data ← create_binary_columns df device_values
        patient_problem_values patient_outcome_values device_cols
        patient_problem_cols patient_outcome_cols existing_binary_cols;
      mret (Some binary_data)
  end.

Definition process_maude_file (file_path : string) : IO bool :=
  '(is_valid, message) ← validate_maude_file file_path;
  if negb is_valid then mret false
  else
    try_except
      (df ← pd_read_excel file_path "Events";
       book ← load_workbook file_path;
       ws ← lift (match assoc "Events" book with
                  | Some ws => Ok ws
                  | None => Raise IOError
                  end);
       let '(ws, (original_styles, original_row_heights, original_col_widths)) :=
         capture_original_styling ws in
       (* [get_unique_values] starts with [pattern in col] on every label *)
       df ← lift (text_labels df);
       plan ← lift (plan_binary_columns df);
       match plan with
       | None => mret false
       | Some [] => mret true
       | Some binary_data =>
           let ws := rewrite_sheet ws df binary_data original_styles
                       original_row_heights original_col_widths in
           let book := set_sheet book "Events" ws in
           now ← datetime_now;
           let timestamp := strftime now in
           let backup_path := backup_path_of file_path timestamp in
           book_save book backup_path;;
           book_save book file_path;;
           mret true
       end)
      (fun e => mret false).

End Pipeline.

(** ** The conditions validation tests *)

Definition file_exists (w : World) (path : string) : Prop :=
  is_Some (fs w !! path).

Definition has_xlsx_extension (path : string) : Prop :=
  PyStr.endswith (PyStr.lower path) ".xlsx" = true.

Definition has_events_sheet (w : World) (path : string) : Prop :=
  exists book ws,
    fs w !! path = Some (Xlsx book) /\ assoc "Events" book = Some ws.

Definition has_category_column (read_sheet : Worksheet -> result RawFrame)
    (w : World) (path : string) : Prop :=
  exists book ws df col,
    fs w !! path = Some (Xlsx book) /\ assoc "Events" book = Some ws /\
    read_sheet ws = Ok df /\ LStr col ∈ raw_labels df /\
    is_source_col col = true.

(** Every label of the parsed Events sheet is a text. *)
Definition has_text_labels (read_sheet : Worksheet -> result RawFrame)
    (w : World) (path : string) : Prop :=
  exists book ws df,
    fs w !! path = Some (Xlsx book) /\ assoc "Events" book = Some ws /\
    read_sheet ws = Ok df /\
    Forall (fun col => is_text_label col = true) (raw_labels df).

(** The frame the Events sheet holds after [process_maude_file]: the frame
    with its new columns when there are any to add; the frame as it was
    when the run stops early or raises.  (A sheet written from a frame is
    taken to read back as that frame.) *)
Definition frame_after_run (df : DataFrame) : DataFrame :=
  match plan_binary_columns df with
  | Ok (Some binary_data) => concat_binary df binary_data
  | _ => df
  end.

(* ===================================================================== *)
(** * Discovery and the batch run                                         *)
(* ===================================================================== *)

(** [glob.glob("*.xlsx")]: the files of the current directory whose name
    ends in [.xlsx] and does not start with a dot.  Paths are taken as
    written: a name without a separator is a file of the current
    directory.  The order of the result is that of the directory listing. *)
Definition glob_xlsx (w : World) : list string :=
  List.filter
    (fun f =>
       negb (PyStr.contains "/" f) && PyStr.endswith f ".xlsx" &&
       negb (PyStr.startswith f "."))
    (map fst (map_to_list (fs w))).

Definition find_maude_files (w : World) : list string :=
  List.filter (fun f => PyStr.contains "MAUDE" (PyStr.upper f)) (glob_xlsx w).

Section Orchestrator.

Variable read_sheet : Worksheet -> result RawFrame.



End Orchestrator.

(* ===================================================================== *)
(** * Sample data                                                         *)
(* ===================================================================== *)

Module Sample.

(** The scenario of the specification: one source column, two rows. *)
Definition events : DataFrame :=
  mkFrame 2 [("Report", [VNum 101; VNum 102]);
             ("Device Problem 1", [VStr "Fracture"; VStr "Corrosion"])].

(** Two values that differ only in a character the sanitizer maps to
    the same underscore. *)
Definition colliding : DataFrame :=
  mkFrame 2 [("Device Problem 1", [VStr "Leak/Splash"; VStr "Leak Splash"])].

(** A source column that holds a text and a number. *)
Definition mixed : DataFrame :=
  mkFrame 2 [("Device Problem 1", [VStr "Fracture"; VNum 7])].

(** A sheet whose header is bold and whose first data row is taller. *)
Definition sheet : Worksheet :=
  mkSheet
    (list_to_map
       [((1, 1), set_font bold_font (new_cell (VStr "Report")));
        ((1, 2), set_font bold_font (new_cell (VStr "Device Problem 1")));
        ((2, 1), new_cell (VNum 101));
        ((2, 2), set_fill red_fill (new_cell (VStr "Fracture")));
        ((3, 1), new_cell (VNum 102));
        ((3, 2), new_cell (VStr "Corrosion"))])
    {[ 2 := Some 30%Z ]}
    {[ "A" := Some 13%Z; "B" := None ]}
    3.

(** A plain reader: the first row gives the labels (a text or a number;
    an empty header cell is named), the rows below the values. *)
Definition read_plain (ws : Worksheet) : result RawFrame :=
  let n := max_row ws - 1 in
  Ok (mkRaw n
        (map (fun c =>
                (match cell_value (get_cell ws 1 c) with
                 | VStr s => LStr s
                 | VNum k => LNum k
                 | VNull => LStr "Unnamed"
                 end,
                 map (fun r => cell_value (get_cell ws r c)) (seq 2 n)))
             (seq 1 (max_column ws)))).

Definition noon : DateTime := mkDateTime 2026 11 3 12 0 0.

(** A directory that holds the scenario's workbook and accepts every
    write. *)
Definition world (path : string) : World :=
  mkWorld {[ path := Xlsx [("Events", sheet)] ]} (fun _ => true) noon.

(** A sheet whose first header cell holds the number 2024, beside a
    device-problem column. *)
Definition numbered : Worksheet :=
  mkSheet
    (list_to_map
       [((1, 1), new_cell (VNum 2024));
        ((1, 2), new_cell (VStr "Device Problem 1"));
        ((2, 1), new_cell (VNum 7));
        ((2, 2), new_cell (VStr "Fracture"))])
    ∅ ∅ 2.


Definition numbered_world : World :=
  mkWorld {[ "MAUDE_2024.xlsx" := Xlsx [("Events", numbered)] ]}
          (fun _ => true) noon.





(** The columns the scenario's frame gains. *)
Definition new_columns : dict (list Z) :=
  [("Device_Corrosion", [0; 1]%Z); ("Device_Fracture", [1; 0]%Z)].

(** The world after processing the file at [path]. *)
Definition processed (path : string) : World :=
  snd (process_maude_file read_plain path (world path)).

End Sample.

(** Case analysis on every [decide] of the goal, with arithmetic closing
    the impossible cases; an inequality of positions is first turned into
    an inequality of a coordinate. *)
Ltac cases :=
  repeat case_decide; simplify_eq;
  repeat match goal with
         | H : (?a, ?b) <> (?c, ?d) |- _ =>
             assert (a <> c \/ b <> d)
               by (destruct (decide (a = c)); [right; congruence | by left]);
             clear H
         end;
  try done; try lia.


(* ===================================================================== *)
(** * Facts about the string operations                                   *)
(* ===================================================================== *)

Section StringFacts.

Lemma append_cons (x : ascii) (a b : string) :
  String x a +:+ b = String x (a +:+ b).
Proof. reflexivity. Qed.

Lemma append_nil (b : string) : "" +:+ b = b.
Proof. reflexivity. Qed.

Lemma append_assoc (a b c : string) : (a +:+ b) +:+ c = a +:+ (b +:+ c).
Proof.
  induction a as [|x a IH]; [done |].
  rewrite !append_cons. by f_equal.
Qed.

Lemma prefix_append (p s : string) : String.prefix p (p +:+ s) = true.
Proof.
  induction p as [|x p IH]; [by destruct s |].
  rewrite append_cons. simpl.
  destruct (ascii_dec x x); [done | congruence].
Qed.

Lemma prefix_empty (s : string) : String.prefix "" s = true.
Proof. by destruct s. Qed.

(** A single-character pattern is replaced character by character. *)
Lemma replace_single (a : ascii) (new s : string) :
  PyStr.replace s (String a EmptyString) new = subst_char a new s.
Proof.
  unfold PyStr.replace.
  induction s as [|c s IH]; simpl; [done |].
  destruct (ascii_dec a c) as [->|Hne].
  - rewrite Ascii.eqb_refl, prefix_empty. by rewrite IH.
  - destruct (Ascii.eqb_spec c a) as [->|_]; [done | by rewrite IH].
Qed.

Lemma subst_char_append (a : ascii) (new x y : string) :
  subst_char a new (x +:+ y) = subst_char a new x +:+ subst_char a new y.
Proof.
  induction x as [|c x IH]; [done |].
  rewrite append_cons. simpl.
  destruct (Ascii.eqb c a); rewrite IH;
    [by rewrite append_assoc | by rewrite append_cons].
Qed.

Lemma sanitize_subst (s : string) :
  sanitize s =
  subst_char "/" "_" (subst_char ")" "" (subst_char "(" ""
    (subst_char "," "" (subst_char " " "_" s)))).
Proof. unfold sanitize. by rewrite !replace_single. Qed.

Lemma sanitize_cons (c : ascii) (s : string) :
  sanitize (String c s) = sanitize_char c +:+ sanitize s.
Proof.
  change (String c s) with (String c "" +:+ s).
  rewrite !sanitize_subst, !subst_char_append. f_equal.
  destruct c as [[] [] [] [] [] [] [] []]; reflexivity.
Qed.

(** The chain of replacements acts on each character on its own. *)
Lemma sanitize_by_char_eq (s : string) : sanitize s = sanitize_by_char s.
Proof.
  induction s as [|c s IH]; [done |].
  rewrite sanitize_cons, IH. done.
Qed.

Lemma has_space_append (a b : string) :
  has_space (a +:+ b) = has_space a || has_space b.
Proof.
  induction a as [|x a IH]; [done |].
  rewrite append_cons. simpl. by rewrite IH, orb_assoc.
Qed.

Lemma has_space_sanitize (s : string) : has_space (sanitize s) = false.
Proof.
  rewrite sanitize_by_char_eq.
  induction s as [|c s IH]; [done |].
  simpl. rewrite has_space_append, IH, orb_false_r.
  destruct c as [[] [] [] [] [] [] [] []]; reflexivity.
Qed.

Lemma prefix_has_space (p s : string) :
  String.prefix p s = true -> has_space p = true -> has_space s = true.
Proof.
  revert s. induction p as [|x p IH]; intros [|y s]; simpl; try done.
  destruct (ascii_dec x y) as [->|]; [|done].
  intros Hp [H|H]%orb_true_iff; apply orb_true_iff; [by left | right; eauto].
Qed.

Lemma contains_has_space (p s : string) :
  PyStr.contains p s = true -> has_space p = true -> has_space s = true.
Proof.
  intros Hc Hp. induction s as [|y s IH].
  - simpl in Hc. rewrite orb_false_r in Hc. eauto using prefix_has_space.
  - cbn [PyStr.contains] in Hc. apply orb_true_iff in Hc as [Hc|Hc].
    + eauto using prefix_has_space.
    + simpl. rewrite (IH Hc). apply orb_true_r.
Qed.

(** A name without a space is never one of the category source columns,
    whose patterns all contain one. *)
Lemma no_space_not_source (c : string) :
  has_space c = false -> is_source_col c = false.
Proof.
  intros Hc. unfold is_source_col.
  repeat (apply orb_false_iff; split);
    (apply not_true_is_false; intros H;
     apply contains_has_space in H; [congruence | reflexivity]).
Qed.

End StringFacts.

(* ===================================================================== *)
(** * Facts about dictionaries and the indicator builder                  *)
(* ===================================================================== *)

Section BuilderFacts.

Lemma mem_str_elem_of (x : string) (l : list string) :
  mem_str x l = true <-> x ∈ l.
Proof.
  unfold mem_str. rewrite existsb_exists. split.
  - intros (y & Hy & ->%String.eqb_eq). by apply list_elem_of_In.
  - intros H. exists x. split; [by apply list_elem_of_In | apply String.eqb_refl].
Qed.

Lemma mem_str_false (x : string) (l : list string) :
  mem_str x l = false <-> x ∉ l.
Proof.
  rewrite <- mem_str_elem_of. destruct (mem_str x l); naive_solver.
Qed.

Lemma dict_keys_set {A} (d : dict A) (k : string) (a : A) (x : string) :
  x ∈ dict_keys (dict_set d k a) <-> x = k \/ x ∈ dict_keys d.
Proof.
  unfold dict_keys. induction d as [|[k' a'] d IH]; simpl.
  - rewrite list_elem_of_singleton. set_solver.
  - destruct (String.eqb_spec k k') as [->|Hne]; simpl.
    + set_solver.
    + rewrite !elem_of_cons, IH. naive_solver.
Qed.

Lemma dict_set_NoDup {A} (d : dict A) (k : string) (a : A) :
  NoDup (dict_keys d) -> NoDup (dict_keys (dict_set d k a)).
Proof.
  unfold dict_keys. induction d as [|[k' a'] d IH]; simpl; intros Hd.
  - apply NoDup_singleton.
  - destruct (String.eqb_spec k k') as [->|Hne]; simpl; [done |].
    apply NoDup_cons in Hd as [Hk Hd]. apply NoDup_cons. split; [|auto].
    intros [?| ?]%(dict_keys_set d k a k'); [congruence | done].
Qed.

Lemma assoc_dict_set_eq {A} (d : dict A) (k : string) (a : A) :
  assoc k (dict_set d k a) = Some a.
Proof.
  induction d as [|[k' a'] d IH]; simpl.
  - by rewrite String.eqb_refl.
  - destruct (String.eqb_spec k k') as [->|Hne]; simpl.
    + by rewrite String.eqb_refl.
    + by destruct (String.eqb_spec k k').
Qed.

Lemma assoc_dict_set_ne {A} (d : dict A) (k k' : string) (a : A) :
  k <> k' -> assoc k' (dict_set d k a) = assoc k' d.
Proof.
  intros Hne. induction d as [|[k0 a0] d IH]; simpl.
  - by destruct (String.eqb_spec k' k); [congruence |].
  - destruct (String.eqb_spec k k0) as [->|Hne0]; simpl.
    + by destruct (String.eqb_spec k' k0); [congruence |].
    + by rewrite IH.
Qed.

Lemma assoc_Some_key {A} (d : dict A) (k : string) (a : A) :
  assoc k d = Some a -> k ∈ dict_keys d.
Proof.
  unfold dict_keys. induction d as [|[k' a'] d IH]; simpl; [done |].
  destruct (String.eqb_spec k k') as [->|Hne]; set_solver.
Qed.

Context (df : DataFrame) (prefix : string) (cols existing : list string).

(** One turn of the loop on a text value: the value is skipped when an
    existing column has its name; otherwise its column is computed, which
    needs every source column to be in the frame. *)
Lemma add_indicators_step (s : string) (rest : list value)
    (d : dict (list Z)) :
  add_indicators df prefix (VStr s :: rest) cols existing d =
  if mem_str (prefix +:+ sanitize s) existing
  then add_indicators df prefix rest cols existing d
  else if has_cols df cols
       then add_indicators df prefix rest cols existing
              (dict_set d (prefix +:+ sanitize s) (any_eq df cols (VStr s)))
       else Raise KeyError.
Proof.
  simpl. unfold indicator.
  destruct (mem_str _ existing); [done |]. by destruct (has_cols df cols).
Qed.

(** With its source columns in the frame, the loop succeeds on text
    values. *)
Lemma add_indicators_total (values : list value) (d : dict (list Z)) :
  has_cols df cols = true ->
  Forall (fun v => is_str v = true) values ->
  exists d', add_indicators df prefix values cols existing d = Ok d'.
Proof.
  intros Hcols Hv. revert d. induction Hv as [|v values Hs _ IH]; intros d.
  - by eexists.
  - destruct v as [|s|n]; try done. rewrite add_indicators_step, Hcols.
    destruct (mem_str _ existing); apply IH.
Qed.

Lemma add_indicators_text (values : list value) (d d' : dict (list Z)) :
  add_indicators df prefix values cols existing d = Ok d' ->
  Forall (fun v => is_str v = true) values.
Proof.
  revert d. induction values as [|v values IH]; intros d; [by constructor |].
  destruct v as [|s|n]; try done. rewrite add_indicators_step.
  intros H. constructor; [done |].
  destruct (mem_str _ existing); [eauto |].
  destruct (has_cols df cols); [eauto | done].
Qed.

(** The turn of a value whose column is computed, read off a run of the
    loop that returns. *)
Lemma add_indicators_step_inv (s : string) (rest : list value)
    (d d' : dict (list Z)) :
  add_indicators df prefix (VStr s :: rest) cols existing d = Ok d' ->
  add_indicators df prefix rest cols existing
    (if negb (mem_str (prefix +:+ sanitize s) existing)
     then dict_set d (prefix +:+ sanitize s) (any_eq df cols (VStr s))
     else d)
  = Ok d'.
Proof.
  rewrite add_indicators_step.
  destruct (mem_str _ existing); [done |]. by destruct (has_cols df cols).
Qed.

(** Every key of the result was there before or is the name of a value
    that the existing columns do not cover. *)
Lemma add_indicators_keys (values : list value) (d d' : dict (list Z)) :
  add_indicators df prefix values cols existing d = Ok d' ->
  forall name, name ∈ dict_keys d' ->
    name ∈ dict_keys d \/
    exists s, VStr s ∈ values /\ name = prefix +:+ sanitize s /\
              name ∉ existing.
Proof.
  revert d. induction values as [|v values IH]; intros d; simpl.
  - intros [= <-] name Hn. by left.
  - destruct v as [|s|n]; try done. intros H%add_indicators_step_inv name Hn.
    destruct (IH _ H name Hn) as [Hd|(s' & Hs' & -> & Hex)].
    + destruct (mem_str (prefix +:+ sanitize s) existing) eqn:Hm; simpl in Hd;
        [by left |].
      apply dict_keys_set in Hd as [->|Hd]; [|by left].
      right. exists s. split_and!; [set_solver | done | by apply mem_str_false].
    + right. exists s'. split_and!; [set_solver | done | done].
Qed.

(** Keys are never removed, and every value is covered afterwards, by an
    existing column or by a key. *)
Lemma add_indicators_mono (values : list value) (d d' : dict (list Z)) :
  add_indicators df prefix values cols existing d = Ok d' ->
  forall name, name ∈ dict_keys d -> name ∈ dict_keys d'.
Proof.
  revert d. induction values as [|v values IH]; intros d; simpl.
  - by intros [= <-].
  - destruct v as [|s|n]; try done. intros H%add_indicators_step_inv name Hn.
    apply (IH _ H).
    destruct (mem_str (prefix +:+ sanitize s) existing); simpl; [done |].
    apply dict_keys_set. by right.
Qed.

Lemma add_indicators_covers (values : list value) (d d' : dict (list Z)) :
  add_indicators df prefix values cols existing d = Ok d' ->
  forall s, VStr s ∈ values ->
    prefix +:+ sanitize s ∈ existing \/
    prefix +:+ sanitize s ∈ dict_keys d'.
Proof.
  revert d. induction values as [|v values IH]; intros d; simpl.
  - intros _ s Hs. by apply elem_of_nil in Hs.
  - destruct v as [|s0|n]; try done. intros H%add_indicators_step_inv s Hs.
    apply elem_of_cons in Hs as [[= ->]|Hs]; [|eauto].
    destruct (mem_str (prefix +:+ sanitize s0) existing) eqn:Hm; simpl in H.
    + left. by apply mem_str_elem_of.
    + right. apply (add_indicators_mono _ _ _ H), dict_keys_set. by left.
Qed.

Lemma add_indicators_NoDup (values : list value) (d d' : dict (list Z)) :
  add_indicators df prefix values cols existing d = Ok d' ->
  NoDup (dict_keys d) -> NoDup (dict_keys d').
Proof.
  revert d. induction values as [|v values IH]; intros d; simpl.
  - by intros [= <-].
  - destruct v as [|s|n]; try done. intros H%add_indicators_step_inv Hd.
    apply (IH _ H).
    destruct (mem_str _ existing); simpl; [done | by apply dict_set_NoDup].
Qed.

(** A key that is the name of none of the values keeps its column. *)
Lemma add_indicators_other (values : list value) (d d' : dict (list Z))
    (k : string) :
  add_indicators df prefix values cols existing d = Ok d' ->
  (forall s, VStr s ∈ values -> prefix +:+ sanitize s <> k) ->
  assoc k d' = assoc k d.
Proof.
  revert d. induction values as [|v values IH]; intros d; simpl.
  - by intros [= <-].
  - destruct v as [|s|n]; try done. intros H%add_indicators_step_inv Hk.
    rewrite (IH _ H); [|set_solver].
    destruct (mem_str _ existing); simpl; [done |].
    apply assoc_dict_set_ne, Hk. set_solver.
Qed.

(** When the name of a value is shared with no other value of the list
    and no existing column has it, the value gets its any-of column. *)
Lemma add_indicators_column (values : list value) (d d' : dict (list Z))
    (s : string) :
  add_indicators df prefix values cols existing d = Ok d' ->
  VStr s ∈ values ->
  prefix +:+ sanitize s ∉ existing ->
  (forall s', VStr s' ∈ values -> sanitize s' = sanitize s -> s' = s) ->
  assoc (prefix +:+ sanitize s) d' = Some (any_eq df cols (VStr s)).
Proof.
  revert d. induction values as [|v values IH]; intros d; simpl.
  - intros _ Hs. by apply elem_of_nil in Hs.
  - destruct v as [|s0|n]; try done.
    intros H%add_indicators_step_inv Hs Hex Hinj.
    destruct (decide (s0 = s)) as [->|Hne]; [|apply (IH _ H); set_solver].
    destruct (decide (VStr s ∈ values)) as [Hin|Hnin].
    { apply (IH _ H); set_solver. }
    apply mem_str_false in Hex. rewrite Hex in H. simpl in H.
    rewrite (add_indicators_other _ _ _ _ H).
    { apply assoc_dict_set_eq. }
    intros s' Hs' Heq. apply String.app_inj in Heq.
    assert (s' = s) as -> by (apply Hinj; set_solver). done.
Qed.

End BuilderFacts.

(* ===================================================================== *)
(** * Indicator names, and frames extended with indicator columns         *)
(* ===================================================================== *)

Section IndicatorNames.

Lemma indicator_name_no_space (name : string) :
  indicator_name name -> has_space name = false.
Proof.
  intros (prefix & s & Hp & ->).
  rewrite has_space_append, has_space_sanitize, orb_false_r.
  repeat (apply elem_of_cons in Hp as [->|Hp]; [reflexivity |]).
  by apply elem_of_nil in Hp.
Qed.

Lemma indicator_name_prefix (name : string) :
  indicator_name name -> has_indicator_prefix name = true.
Proof.
  intros (prefix & s & Hp & ->). unfold has_indicator_prefix, PyStr.startswith.
  repeat (apply elem_of_cons in Hp as [->|Hp];
          [rewrite prefix_append; by rewrite ?orb_true_r |]).
  by apply elem_of_nil in Hp.
Qed.

Lemma indicator_name_not_source (name : string) :
  indicator_name name -> is_source_col name = false.
Proof. intros H. by apply no_space_not_source, indicator_name_no_space. Qed.

Lemma add_indicators_names (df : DataFrame) (prefix : string)
    (values : list value) (cols existing : list string)
    (d d' : dict (list Z)) :
  prefix ∈ indicator_prefixes ->
  add_indicators df prefix values cols existing d = Ok d' ->
  Forall indicator_name (dict_keys d) -> Forall indicator_name (dict_keys d').
Proof.
  intros Hp H Hd. apply Forall_forall. intros name Hn.
  destruct (add_indicators_keys _ _ _ _ _ _ _ H name Hn) as [Hin|(s & _ & -> & _)].
  - by eapply Forall_forall in Hd.
  - by exists prefix, s.
Qed.

Lemma create_binary_columns_names df dv pv ov dc pc oc existing bd :
  create_binary_columns df dv pv ov dc pc oc existing = Ok bd ->
  Forall indicator_name (dict_keys bd).
Proof.
  unfold create_binary_columns. intros H.
  destruct (add_indicators df "Device_" dv dc existing []) as [d1|] eqn:H1;
    [|done].
  simpl in H.
  destruct (add_indicators df "Patient_" pv pc existing d1) as [d2|] eqn:H2;
    [|done].
  simpl in H.
  eapply add_indicators_names in H1; [| set_solver | by constructor].
  eapply add_indicators_names in H2; [| set_solver | done].
  eapply add_indicators_names in H; [done | set_solver | done].
Qed.

End IndicatorNames.

Section ExtendedFrame.

Context (df : DataFrame) (bd : dict (list Z)).
Hypothesis Hbd : Forall indicator_name (dict_keys bd).

Lemma columns_concat_binary :
  columns (concat_binary df bd) = columns df ++ dict_keys bd.
Proof.
  unfold columns, concat_binary, dict_keys. simpl.
  rewrite map_app, map_map. done.
Qed.

Lemma filter_none {A} (P : A -> Prop) (f : A -> bool) (l : list A) :
  (forall x, P x -> f x = false) -> Forall P l -> List.filter f l = [].
Proof.
  intros Hf. induction 1 as [|x xs Hx _ IH]; simpl; [done |].
  by rewrite (Hf _ Hx).
Qed.

Lemma contains_indicator_name (pattern name : string) :
  has_space pattern = true -> indicator_name name ->
  PyStr.contains pattern name = false.
Proof.
  intros Hp Hn%indicator_name_no_space. apply not_true_is_false. intros Hc.
  apply contains_has_space in Hc; congruence.
Qed.

(** The new columns match none of the category patterns. *)
Lemma cols_matching_concat_binary (pattern : string) :
  has_space pattern = true ->
  cols_matching (concat_binary df bd) pattern = cols_matching df pattern.
Proof.
  intros Hp. unfold cols_matching.
  rewrite columns_concat_binary, List.filter_app.
  rewrite (filter_none indicator_name _ _ (fun name => contains_indicator_name pattern name Hp) Hbd).
  by rewrite app_nil_r.
Qed.

Lemma assoc_app_l {A} (k : string) (l1 l2 : list (string * A)) :
  k ∈ map fst l1 -> assoc k (l1 ++ l2) = assoc k l1.
Proof.
  induction l1 as [|[k' a] l1 IH]; simpl; [by intros ?%elem_of_nil |].
  destruct (String.eqb_spec k k'); [done |]. intros ?%elem_of_cons. naive_solver.
Qed.

Lemma getitem_concat_binary (col : string) :
  col ∈ columns df -> getitem (concat_binary df bd) col = getitem df col.
Proof. intros H. unfold getitem. simpl. by rewrite assoc_app_l. Qed.

Lemma cols_matching_columns (d : DataFrame) (pattern col : string) :
  col ∈ cols_matching d pattern -> col ∈ columns d.
Proof.
  unfold cols_matching. rewrite list_elem_of_In, filter_In, <- list_elem_of_In.
  tauto.
Qed.

Lemma fold_left_ext_in {A B} (f g : A -> B -> A) (l : list B) (a : A) :
  (forall x b, b ∈ l -> f x b = g x b) -> fold_left f l a = fold_left g l a.
Proof.
  revert a. induction l as [|b l IH]; intros a Hfg; simpl; [done |].
  rewrite Hfg by set_solver. apply IH. intros. apply Hfg. set_solver.
Qed.

Lemma collect_pattern_concat_binary acc (pattern : string) :
  has_space pattern = true ->
  collect_pattern (concat_binary df bd) acc pattern =
  collect_pattern df acc pattern.
Proof.
  intros Hp. unfold collect_pattern.
  rewrite cols_matching_concat_binary by done. f_equal.
  apply fold_left_ext_in. intros u col Hcol.
  rewrite getitem_concat_binary; eauto using cols_matching_columns.
Qed.

(** The extractor sees the same values and the same source columns. *)
Lemma get_unique_values_concat_binary (pattern : string) :
  has_space pattern = true ->
  get_unique_values (concat_binary df bd) [pattern] =
  get_unique_values df [pattern].
Proof.
  intros Hp. unfold get_unique_values, collect_patterns. cbn [fold_left].
  by rewrite collect_pattern_concat_binary.
Qed.

Lemma mem_source_cols (cols : list string) (col : string) :
  mem_str col (List.filter is_source_col cols) = true <->
  col ∈ cols /\ is_source_col col = true.
Proof. by rewrite mem_str_elem_of, list_elem_of_In, filter_In, <- list_elem_of_In. Qed.

(** A column counts as an existing indicator when it has one of the three
    prefixes and is not itself a source column. *)
Lemma check_existing_alt (d : DataFrame) :
  check_existing_binary_columns d =
  List.filter (fun col => has_indicator_prefix col && negb (is_source_col col))
              (columns d).
Proof.
  unfold check_existing_binary_columns. apply filter_ext_in.
  intros col Hcol. apply list_elem_of_In in Hcol. f_equal. f_equal.
  destruct (is_source_col col) eqn:Hs.
  - apply mem_source_cols. done.
  - apply not_true_is_false. rewrite mem_source_cols. intros [_ ?]. congruence.
Qed.

Lemma filter_all {A} (f : A -> bool) (l : list A) :
  Forall (fun x => f x = true) l -> List.filter f l = l.
Proof. induction 1 as [|x l Hx _ IH]; simpl; [done | by rewrite Hx, IH]. Qed.

(** Every new column is detected as an existing indicator afterwards. *)
Lemma check_existing_concat_binary :
  check_existing_binary_columns (concat_binary df bd) =
  check_existing_binary_columns df ++ dict_keys bd.
Proof.
  rewrite !check_existing_alt, columns_concat_binary, List.filter_app. f_equal.
  apply filter_all. eapply Forall_impl; [exact Hbd |].
  intros name Hn. simpl.
  by rewrite indicator_name_prefix, indicator_name_not_source.
Qed.

End ExtendedFrame.

Section SecondRun.

(** Values whose names are all among the existing columns add nothing. *)
Lemma add_indicators_all_covered df prefix values cols existing d :
  Forall (fun v => is_str v = true) values ->
  (forall s, VStr s ∈ values -> prefix +:+ sanitize s ∈ existing) ->
  add_indicators df prefix values cols existing d = Ok d.
Proof.
  induction 1 as [|v values Hv _ IH]; intros Hcov; simpl; [done |].
  destruct v as [|s|]; try done. simpl.
  assert (mem_str (prefix +:+ sanitize s) existing = true) as ->.
  { apply mem_str_elem_of, Hcov. set_solver. }
  simpl. apply IH. intros. apply Hcov. set_solver.
Qed.

Lemma create_binary_columns_second_run df df' dv pv ov dc pc oc dc' pc' oc'
    existing bd :
  create_binary_columns df dv pv ov dc pc oc existing = Ok bd ->
  create_binary_columns df' dv pv ov dc' pc' oc' (existing ++ dict_keys bd)
  = Ok [].
Proof.
  unfold create_binary_columns. intros H.
  destruct (add_indicators df "Device_" dv dc existing []) as [d1|] eqn:H1;
    [|done].
  simpl in H.
  destruct (add_indicators df "Patient_" pv pc existing d1) as [d2|] eqn:H2;
    [|done].
  simpl in H. rename H into H3.
  pose proof (add_indicators_mono _ _ _ _ _ _ _ H2) as M2.
  pose proof (add_indicators_mono _ _ _ _ _ _ _ H3) as M3.
  rewrite add_indicators_all_covered; simpl.
  - rewrite add_indicators_all_covered; simpl.
    + apply add_indicators_all_covered; [by eapply add_indicators_text |].
      intros s Hs. apply elem_of_app.
      destruct (add_indicators_covers _ _ _ _ _ _ _ H3 s Hs); auto.
    + by eapply add_indicators_text.
    + intros s Hs. apply elem_of_app.
      destruct (add_indicators_covers _ _ _ _ _ _ _ H2 s Hs); auto.
  - by eapply add_indicators_text.
  - intros s Hs. apply elem_of_app.
    destruct (add_indicators_covers _ _ _ _ _ _ _ H1 s Hs); auto.
Qed.

End SecondRun.

(* ===================================================================== *)
(** * Column names (C3)                                                   *)
(* ===================================================================== *)

(** C3, as stated, fails: a slash is not removed.  The value "Leak/Splash"
    is named [Device_Leak_Splash], while removing the slash as the
    specification says would name it [Device_LeakSplash]. *)
Lemma slash_is_not_stripped :
  col_name_of "Device_" (VStr "Leak/Splash") = Ok "Device_Leak_Splash" /\
  col_name_of "Device_" (VStr "Leak/Splash")
    <> Ok ("Device_" +:+ sanitize_as_specified "Leak/Splash").
Proof. split; [reflexivity | discriminate]. Qed.

(** C3, amended: the name of the indicator column of a text value [s] is
    the category's prefix followed by [s] in which every space and every
    slash has become an underscore and every comma and parenthesis has been
    removed, all other characters kept; and every column the builder
    returns has such a name, with [Device_] for a device-problem value,
    [Patient_] for a patient-problem value and [Outcome_] for a
    patient-outcome value. *)
Theorem indicator_column_name :
  (forall prefix s,
     col_name_of prefix (VStr s) = Ok (prefix +:+ sanitize_by_char s)) /\
  (forall df dv pv ov dc pc oc existing bd,
     create_binary_columns df dv pv ov dc pc oc existing = Ok bd ->
     forall name, name ∈ dict_keys bd ->
       (exists s, VStr s ∈ dv /\ name = "Device_" +:+ sanitize_by_char s) \/
       (exists s, VStr s ∈ pv /\ name = "Patient_" +:+ sanitize_by_char s) \/
       (exists s, VStr s ∈ ov /\ name = "Outcome_" +:+ sanitize_by_char s)).
Proof.
  split.
  - intros prefix s. simpl. by rewrite sanitize_by_char_eq.
  - intros df dv pv ov dc pc oc existing bd H name Hn.
    unfold create_binary_columns in H.
    destruct (add_indicators df "Device_" dv dc existing []) as [d1|] eqn:H1;
      [|done].
    simpl in H.
    destruct (add_indicators df "Patient_" pv pc existing d1) as [d2|] eqn:H2;
      [|done].
    simpl in H.
    destruct (add_indicators_keys _ _ _ _ _ _ _ H name Hn)
      as [Hn2|(s & Hs & -> & _)].
    2: { right; right. exists s. by rewrite sanitize_by_char_eq. }
    destruct (add_indicators_keys _ _ _ _ _ _ _ H2 name Hn2)
      as [Hn1|(s & Hs & -> & _)].
    2: { right; left. exists s. by rewrite sanitize_by_char_eq. }
    destruct (add_indicators_keys _ _ _ _ _ _ _ H1 name Hn1)
      as [Hn0|(s & Hs & -> & _)].
    { by apply elem_of_nil in Hn0. }
    left. exists s. by rewrite sanitize_by_char_eq.
Qed.

Lemma indicator_column_name_witness :
  col_name_of "Outcome_" (VStr "Death (in hospital), sudden/other")
    = Ok "Outcome_Death_in_hospital_sudden_other" /\
  ((exists s, VStr s ∈ [VStr "Corrosion"; VStr "Fracture"] /\
      "Device_Fracture" = "Device_" +:+ sanitize_by_char s) \/
   (exists s, VStr s ∈ @nil value /\
      "Device_Fracture" = "Patient_" +:+ sanitize_by_char s) \/
   (exists s, VStr s ∈ @nil value /\
      "Device_Fracture" = "Outcome_" +:+ sanitize_by_char s)).
Proof.
  split.
  - exact (proj1 indicator_column_name "Outcome_"
             "Death (in hospital), sudden/other").
  - apply (proj2 indicator_column_name Sample.events
             [VStr "Corrosion"; VStr "Fracture"] [] [] ["Device Problem 1"] [] [] []
             [("Device_Corrosion", [0; 1]%Z); ("Device_Fracture", [1; 0]%Z)]).
    + reflexivity.
    + unfold dict_keys. simpl. apply elem_of_cons. right. apply elem_of_cons. by left.
Defined.

(* ===================================================================== *)
(** * The indicator builder (C1)                                          *)
(* ===================================================================== *)

Lemma py_eq_text (x : value) (s : string) :
  py_eq x (VStr s) = true <-> x = VStr s.
Proof.
  destruct x as [|t|n]; simpl; try (split; discriminate).
  rewrite String.eqb_eq. split; congruence.
Qed.

(** Row [i] of an any-of column is 1 exactly when one of the source
    columns holds the value in that row, and 0 otherwise. *)
Lemma any_eq_row (df : DataFrame) (cols : list string) (s : string) (i : nat) :
  i < frame_len df ->
  exists b : Z,
    any_eq df cols (VStr s) !! i = Some b /\ (b = 1%Z \/ b = 0%Z) /\
    (b = 1%Z <-> exists c, c ∈ cols /\ at_row (getitem df c) i = VStr s).
Proof.
  intros Hi. unfold any_eq.
  set (f := fun c => py_eq (at_row (getitem df c) i) (VStr s)).
  exists (if existsb f cols then 1%Z else 0%Z). split_and!.
  - rewrite list_lookup_fmap, lookup_seq_lt by done. done.
  - destruct (existsb f cols); auto.
  - destruct (existsb f cols) eqn:He.
    + split; [intros _ | done]. apply existsb_exists in He as (c & Hc & Hf).
      exists c. split; [by apply list_elem_of_In | by apply py_eq_text].
    + split; [done |]. intros (c & Hc & Hf). exfalso.
      assert (existsb f cols = true); [|congruence].
      apply existsb_exists. exists c.
      split; [by apply list_elem_of_In | by apply py_eq_text].
Qed.

Lemma indicator_prefix_distinct (p q : string) (x y : string) :
  p ∈ indicator_prefixes -> q ∈ indicator_prefixes -> p <> q ->
  p +:+ x <> q +:+ y.
Proof.
  intros Hp Hq Hne.
  repeat (apply elem_of_cons in Hp as [->|Hp]);
    repeat (apply elem_of_cons in Hq as [->|Hq]);
    try done; try (by apply elem_of_nil in Hp); try (by apply elem_of_nil in Hq).
Qed.

(** The builder on values whose names do not collide: a text value of a
    category whose name no existing indicator has, and no other value of
    the category shares, gets the any-of column of its category's source
    columns; and no name is used for two columns. *)
Lemma create_binary_columns_any_of df dv pv ov dc pc oc existing bd :
  create_binary_columns df dv pv ov dc pc oc existing = Ok bd ->
  NoDup (dict_keys bd) /\
  forall prefix values cols s,
    (prefix, values, cols) ∈
      [("Device_", dv, dc); ("Patient_", pv, pc); ("Outcome_", ov, oc)] ->
    VStr s ∈ values ->
    prefix +:+ sanitize s ∉ existing ->
    (forall s', VStr s' ∈ values -> sanitize s' = sanitize s -> s' = s) ->
    assoc (prefix +:+ sanitize s) bd = Some (any_eq df cols (VStr s)).
Proof.
  unfold create_binary_columns. intros H.
  destruct (add_indicators df "Device_" dv dc existing []) as [d1|] eqn:H1;
    [|done].
  simpl in H.
  destruct (add_indicators df "Patient_" pv pc existing d1) as [d2|] eqn:H2;
    [|done].
  simpl in H. rename H into H3. split.
  - eapply add_indicators_NoDup; [exact H3 |].
    eapply add_indicators_NoDup; [exact H2 |].
    eapply add_indicators_NoDup; [exact H1 | constructor].
  - intros prefix values cols s Hcat Hs Hex Hinj.
    repeat (apply elem_of_cons in Hcat as [[= -> -> ->]|Hcat]).
    + rewrite (add_indicators_other _ _ _ _ _ _ _ _ H3).
      2: { intros. apply indicator_prefix_distinct; set_solver. }
      rewrite (add_indicators_other _ _ _ _ _ _ _ _ H2).
      2: { intros. apply indicator_prefix_distinct; set_solver. }
      by apply (add_indicators_column _ _ _ _ _ _ _ _ H1).
    + rewrite (add_indicators_other _ _ _ _ _ _ _ _ H3).
      2: { intros. apply indicator_prefix_distinct; set_solver. }
      by apply (add_indicators_column _ _ _ _ _ _ _ _ H2).
    + by apply (add_indicators_column _ _ _ _ _ _ _ _ H3).
    + by apply elem_of_nil in Hcat.
Qed.

(** C1 on the code: the values "Leak Splash" and "Leak/Splash" of one
    source column are both named [Device_Leak_Splash]; the builder returns
    a single column under that name, the any-of column of "Leak/Splash",
    which is 0 in the row that holds "Leak Splash".  The any-of column of
    "Leak Splash" is not produced. *)
Theorem colliding_values_share_one_column :
  plan_binary_columns Sample.colliding
    = Ok (Some [("Device_Leak_Splash", [1; 0]%Z)]) /\
  col_name_of "Device_" (VStr "Leak Splash") = Ok "Device_Leak_Splash" /\
  at_row (getitem Sample.colliding "Device Problem 1") 1 = VStr "Leak Splash" /\
  any_eq Sample.colliding ["Device Problem 1"] (VStr "Leak Splash")
    = [0; 1]%Z.
Proof. by vm_compute. Qed.

(* ===================================================================== *)
(** * Running twice (C2)                                                  *)
(* ===================================================================== *)

Lemma bind_Ok_inv {A B} (r : result A) (f : A -> B) (b : B) :
  r ≫= (fun a => mret (f a)) = Ok b -> exists a, r = Ok a /\ f a = b.
Proof. destruct r as [a|]; [|done]. intros [= <-]. by exists a. Qed.

Lemma plan_binary_columns_inv (df : DataFrame) (bd : dict (list Z)) :
  plan_binary_columns df = Ok (Some bd) ->
  exists dv dc pv pc ov oc,
    get_unique_values df ["Device Problem"] = Ok (dv, dc) /\
    get_unique_values df ["Patient Problem"] = Ok (pv, pc) /\
    get_unique_values df ["Patient Outcome"] = Ok (ov, oc) /\
    (dv <> [] \/ pv <> [] \/ ov <> []) /\
    create_binary_columns df dv pv ov dc pc oc
      (check_existing_binary_columns df) = Ok bd.
Proof.
  unfold plan_binary_columns. intros H.
  destruct (get_unique_values df ["Device Problem"]) as [[dv dc]|]; [|done].
  destruct (get_unique_values df ["Patient Problem"]) as [[pv pc]|]; [|done].
  destruct (get_unique_values df ["Patient Outcome"]) as [[ov oc]|]; [|done].
  simpl in H.
  exists dv, dc, pv, pc, ov, oc. split_and!; try done.
  - destruct dv, pv, ov; try done; auto.
  - destruct dv, pv, ov; try done;
      apply bind_Ok_inv in H as (bd0 & ? & ?); congruence.
Qed.

Lemma plan_binary_columns_names (df : DataFrame) (bd : dict (list Z)) :
  plan_binary_columns df = Ok (Some bd) -> Forall indicator_name (dict_keys bd).
Proof.
  intros (dv & dc & pv & pc & ov & oc & _ & _ & _ & _ & Hc)%plan_binary_columns_inv.
  by eapply create_binary_columns_names.
Qed.

(** What a second run computes on the frame the first run wrote. *)
Lemma plan_after_run (df : DataFrame) (bd : dict (list Z)) :
  plan_binary_columns df = Ok (Some bd) ->
  plan_binary_columns (concat_binary df bd) = Ok (Some []).
Proof.
  intros H. pose proof (plan_binary_columns_names _ _ H) as Hnames.
  apply plan_binary_columns_inv in H
    as (dv & dc & pv & pc & ov & oc & Hd & Hp & Ho & Hne & Hc).
  unfold plan_binary_columns.
  rewrite !get_unique_values_concat_binary, Hd, Hp, Ho by done. simpl.
  rewrite check_existing_concat_binary by done.
  rewrite (create_binary_columns_second_run _ _ _ _ _ _ _ _ _ _ _ _ _ Hc).
  destruct dv, pv, ov; try done. naive_solver.
Qed.

(** C2: a value whose column name is among the existing indicator columns
    is passed over by the builder without any other effect; on the frame
    that a run wrote, every name is among them, the new-column mapping is
    empty, and the frame a second run leaves is the frame the first run
    left, with the same columns. *)
Theorem second_run_adds_no_columns :
  (forall df prefix v rest cols existing binary_data name,
     col_name_of prefix v = Ok name -> name ∈ existing ->
     add_indicators df prefix (v :: rest) cols existing binary_data
     = add_indicators df prefix rest cols existing binary_data) /\
  (forall df bd,
     plan_binary_columns df = Ok (Some bd) ->
     (forall name, name ∈ dict_keys bd ->
        name ∈ check_existing_binary_columns (concat_binary df bd)) /\
     plan_binary_columns (concat_binary df bd) = Ok (Some [])) /\
  (forall df,
     frame_after_run (frame_after_run df) = frame_after_run df /\
     columns (frame_after_run (frame_after_run df))
     = columns (frame_after_run df)).
Proof.
  split_and!.
  - intros df prefix v rest cols existing d name Hn Hex. simpl. rewrite Hn. simpl.
    apply mem_str_elem_of in Hex. by rewrite Hex.
  - intros df bd H. split; [|by apply plan_after_run].
    intros name Hn.
    pose proof (plan_binary_columns_names _ _ H) as Hnames.
    rewrite check_existing_concat_binary by done. apply elem_of_app. by right.
  - intros df.
    assert (frame_after_run (frame_after_run df) = frame_after_run df) as Hrun;
      [|by rewrite Hrun].
    unfold frame_after_run at 2 3.
    destruct (plan_binary_columns df) as [[bd|]|] eqn:Hplan.
    + unfold frame_after_run. rewrite (plan_after_run _ _ Hplan).
      unfold concat_binary. simpl. by rewrite app_nil_r.
    + unfold frame_after_run. by rewrite Hplan.
    + unfold frame_after_run. by rewrite Hplan.
Qed.

Lemma second_run_adds_no_columns_witness :
  add_indicators Sample.events "Device_" [VStr "Fracture"]
    ["Device Problem 1"] ["Device_Fracture"] []
  = add_indicators Sample.events "Device_" []
      ["Device Problem 1"] ["Device_Fracture"] [] /\
  plan_binary_columns
    (concat_binary Sample.events
       [("Device_Corrosion", [0; 1]%Z); ("Device_Fracture", [1; 0]%Z)])
  = Ok (Some []).
Proof.
  split.
  - apply (proj1 second_run_adds_no_columns Sample.events "Device_"
             (VStr "Fracture") [] ["Device Problem 1"] ["Device_Fracture"] []
             "Device_Fracture").
    + reflexivity.
    + apply elem_of_cons. by left.
  - apply (proj1 (proj2 second_run_adds_no_columns) Sample.events
             [("Device_Corrosion", [0; 1]%Z); ("Device_Fracture", [1; 0]%Z)]).
    vm_compute. reflexivity.
Defined.

(* ===================================================================== *)
(** * The value extractor (C9)                                            *)
(* ===================================================================== *)

Section ValueOrder.

Lemma value_le_text (s t : string) :
  value_le (VStr s) (VStr t) <-> String.le s t.
Proof. unfold value_le, String.le. simpl. by rewrite Is_true_true. Qed.

Lemma value_le_num (m n : Z) : value_le (VNum m) (VNum n) <-> (m <= n)%Z.
Proof. unfold value_le. simpl. by rewrite Z.leb_le. Qed.

Global Instance value_le_trans : Transitive value_le.
Proof.
  intros [|s1|n1] [|s2|n2] [|s3|n3]; try done.
  - rewrite !value_le_text. apply transitivity.
  - rewrite !value_le_num. lia.
Qed.

Global Instance value_le_total : Total value_le.
Proof.
  intros [|s1|n1] [|s2|n2]; try (by left); try (by right).
  - rewrite !value_le_text. apply total, _.
  - rewrite !value_le_num. lia.
Qed.

Global Instance value_le_antisym : AntiSymm (=) value_le.
Proof.
  intros [|s1|n1] [|s2|n2]; try done.
  - rewrite !value_le_text. intros H1 H2. f_equal. by apply (anti_symm String.le).
  - rewrite !value_le_num. intros. f_equal. lia.
Qed.

Lemma forallb_Forall {A} (f : A -> bool) (l : list A) :
  forallb f l = true <-> Forall (fun x => f x = true) l.
Proof.
  induction l as [|x l IH]; simpl.
  - split; [constructor | done].
  - rewrite andb_true_iff, IH, Forall_cons. done.
Qed.

Lemma comparable_spec (l : list value) :
  comparable l = true <->
  Forall (fun v => is_str v = true) l \/ Forall (fun v => is_num v = true) l.
Proof. unfold comparable. by rewrite orb_true_iff, !forallb_Forall. Qed.

Lemma merge_sort_sorted (l : list value) :
  StronglySorted value_le (merge_sort value_le l).
Proof. apply StronglySorted_merge_sort; apply _. Qed.

End ValueOrder.
Section Extractor.

Context (df : DataFrame).

Lemma elem_of_dropna (s : Series) (v : value) :
  v ∈ dropna s <-> v ∈ s /\ v <> VNull.
Proof.
  unfold dropna. rewrite !list_elem_of_In, filter_In.
  destruct v; simpl; naive_solver.
Qed.

Lemma elem_of_collect_cols (cols : list string) (u : gset value) (v : value) :
  v ∈ fold_left (fun u col => u ∪ list_to_set (dropna (getitem df col))) cols u
  <-> v ∈ u \/ exists col, col ∈ cols /\ v ∈ dropna (getitem df col).
Proof.
  revert u. induction cols as [|c cols IH]; intros u; simpl.
  - set_solver.
  - rewrite IH, elem_of_union, elem_of_list_to_set. set_solver.
Qed.

Lemma elem_of_cols_matching (pattern col : string) :
  col ∈ cols_matching df pattern <->
  col ∈ columns df /\ PyStr.contains pattern col = true.
Proof. unfold cols_matching. by rewrite !list_elem_of_In, filter_In. Qed.

Lemma collect_patterns_fold (patterns : list string) acc :
  let r := fold_left (collect_pattern df) patterns acc in
  (forall v, v ∈ fst r <->
     v ∈ fst acc \/
     exists pattern col, pattern ∈ patterns /\ col ∈ cols_matching df pattern /\
                         v ∈ dropna (getitem df col)) /\
  snd r = snd acc ++ concat (map (cols_matching df) patterns).
Proof.
  revert acc. induction patterns as [|p patterns IH]; intros acc; simpl.
  - split; [set_solver | by rewrite app_nil_r].
  - destruct (IH (collect_pattern df acc p)) as [IH1 IH2]. split.
    + intros v. rewrite IH1. unfold collect_pattern at 1. simpl.
      rewrite elem_of_collect_cols. set_solver.
    + rewrite IH2. unfold collect_pattern. simpl. by rewrite <- app_assoc.
Qed.

(** What the loop over the patterns collects. *)
Lemma collect_patterns_spec (patterns : list string) :
  (forall v, v ∈ fst (collect_patterns df patterns) <->
     v <> VNull /\
     exists pattern col, pattern ∈ patterns /\ col ∈ columns df /\
       PyStr.contains pattern col = true /\ v ∈ getitem df col) /\
  snd (collect_patterns df patterns)
  = concat (map (cols_matching df) patterns).
Proof.
  destruct (collect_patterns_fold patterns (∅, [])) as [H1 H2]. split; [|done].
  intros v. unfold collect_patterns. rewrite H1. simpl. split.
  - intros [?|(p & col & Hp & Hc & Hv)]; [set_solver |].
    apply elem_of_cols_matching in Hc as [? ?].
    apply elem_of_dropna in Hv as [? ?]. naive_solver.
  - intros (Hv & p & col & ? & ? & ? & ?). right. exists p, col.
    split_and!; [done | by apply elem_of_cols_matching | by apply elem_of_dropna].
Qed.

End Extractor.

(** C9, as stated, fails: on a source column that holds the text
    "Fracture" and the number 7 the extractor raises [TypeError] and
    returns nothing. *)
Lemma mixed_values_raise :
  get_unique_values Sample.mixed ["Device Problem"] = Raise TypeError /\
  forall r, get_unique_values Sample.mixed ["Device Problem"] <> Ok r.
Proof. split; [by vm_compute | intros r; by vm_compute]. Qed.

(** C9, amended: the extractor collects the non-null values of every
    column whose name contains one of the substrings.  When these values
    are all text or all numbers it returns them sorted (text by code point,
    numbers by value) and without repetition, together with the matching
    column names, pattern by pattern in column order; the returned list is
    the only sorted repetition-free list of these values, so it does not
    depend on the order in which the set is walked.  When text and numbers
    are mixed it raises [TypeError]. *)
Theorem get_unique_values_sorted (df : DataFrame) (patterns : list string) :
  let unique_values := fst (collect_patterns df patterns) in
  let matching_cols := concat (map (cols_matching df) patterns) in
  (forall v, v ∈ unique_values <->
     v <> VNull /\
     exists pattern col, pattern ∈ patterns /\ col ∈ columns df /\
       PyStr.contains pattern col = true /\ v ∈ getitem df col) /\
  (comparable (elements unique_values) = true ->
   exists vs,
     get_unique_values df patterns = Ok (vs, matching_cols) /\
     StronglySorted value_le vs /\ NoDup vs /\
     (forall v, v ∈ vs <-> v ∈ unique_values) /\
     (forall vs', StronglySorted value_le vs' -> NoDup vs' ->
        (forall v, v ∈ vs' <-> v ∈ unique_values) -> vs' = vs)) /\
  (comparable (elements unique_values) = false ->
   get_unique_values df patterns = Raise TypeError).
Proof.
  intros u m. destruct (collect_patterns_spec df patterns) as [Hu Hm].
  split_and!; [exact Hu | |].
  - intros Hc. exists (merge_sort value_le (elements u)).
    assert (merge_sort value_le (elements u) ≡ₚ elements u) as Hperm
      by apply merge_sort_Permutation.
    assert (forall v, v ∈ merge_sort value_le (elements u) <-> v ∈ u) as Hmem.
    { intros v. by rewrite Hperm, elem_of_elements. }
    assert (NoDup (merge_sort value_le (elements u))) as Hnd.
    { rewrite Hperm. apply NoDup_elements. }
    split_and!; [| apply merge_sort_sorted | done | done |].
    + unfold get_unique_values, u, m in *.
      destruct (collect_patterns df patterns) as [u0 m0]. simpl in *.
      unfold sorted. rewrite Hc. simpl. by rewrite Hm.
    + intros vs' Hs' Hnd' Hmem'.
      eapply StronglySorted_unique; [apply _ | done | apply merge_sort_sorted |].
      apply NoDup_Permutation; [done | done |].
      intros v. by rewrite Hmem, Hmem'.
  - intros Hc. unfold get_unique_values, u in *.
    destruct (collect_patterns df patterns) as [u0 m0]. simpl in *.
    unfold sorted. by rewrite Hc.
Qed.

Lemma get_unique_values_sorted_witness :
  exists vs,
    get_unique_values Sample.events ["Device Problem"]
      = Ok (vs, concat (map (cols_matching Sample.events) ["Device Problem"])) /\
    StronglySorted value_le vs /\ NoDup vs /\
    (forall v, v ∈ vs <-> v ∈ fst (collect_patterns Sample.events ["Device Problem"])) /\
    (forall vs', StronglySorted value_le vs' -> NoDup vs' ->
       (forall v, v ∈ vs' <-> v ∈ fst (collect_patterns Sample.events ["Device Problem"])) ->
       vs' = vs).
Proof.
  apply (proj1 (proj2 (get_unique_values_sorted Sample.events ["Device Problem"]))).
  vm_compute. reflexivity.
Defined.

(* ===================================================================== *)
(** * Validation (C8)                                                     *)
(* ===================================================================== *)

Section Validation.

Context (read_sheet : Worksheet -> result RawFrame).

Lemma mem_str_assoc {A} (k : string) (l : list (string * A)) :
  mem_str k (map fst l) = true <-> is_Some (assoc k l).
Proof.
  induction l as [|[k' a] l IH]; simpl.
  - split; [done | by intros [? ?]].
  - destruct (String.eqb_spec k k'); simpl; [by split; eauto | done].
Qed.

Lemma no_category_columns (df : DataFrame) :
  (cols_matching df "Device Problem" = [] /\
   cols_matching df "Patient Problem" = [] /\
   cols_matching df "Patient Outcome" = []) <->
  forall col, col ∈ columns df -> is_source_col col = false.
Proof.
  unfold cols_matching, is_source_col. split.
  - intros (H1 & H2 & H3) col Hcol.
    repeat (apply orb_false_iff; split); apply not_true_is_false; intros Hc.
    + assert (col ∈ @nil string) as H; [|by apply elem_of_nil in H].
      rewrite <- H1. apply list_elem_of_In, filter_In. by rewrite <- list_elem_of_In.
    + assert (col ∈ @nil string) as H; [|by apply elem_of_nil in H].
      rewrite <- H2. apply list_elem_of_In, filter_In. by rewrite <- list_elem_of_In.
    + assert (col ∈ @nil string) as H; [|by apply elem_of_nil in H].
      rewrite <- H3. apply list_elem_of_In, filter_In. by rewrite <- list_elem_of_In.
  - intros H. split_and!;
      (apply (filter_none (fun col => col ∈ columns df));
       [ intros col Hcol; specialize (H col Hcol);
         apply orb_false_iff in H as [[? ?]%orb_false_iff ?]; done
       | apply Forall_forall; auto ]).
Qed.

Lemma raw_labels_raw_of (df : DataFrame) :
  raw_labels (raw_of df) = map LStr (columns df).
Proof.
  unfold raw_labels, raw_of, columns. simpl. by rewrite !map_map.
Qed.

Lemma text_cols_raw_of (cols : list (string * Series)) :
  text_cols (map (fun c => (LStr (fst c), snd c)) cols) = Ok cols.
Proof.
  induction cols as [|[s x] cols IH]; [done |]. simpl. by rewrite IH.
Qed.

(** A frame with text labels passes the label test as itself. *)
Lemma text_labels_raw_of (df : DataFrame) : text_labels (raw_of df) = Ok df.
Proof.
  unfold text_labels, raw_of. simpl. rewrite text_cols_raw_of. simpl.
  by destruct df.
Qed.

Lemma text_cols_Ok (cols : list (label * Series)) tc :
  text_cols cols = Ok tc ->
  cols = map (fun c => (LStr (fst c), snd c)) tc.
Proof.
  revert tc. induction cols as [|[[s|n] x] cols IH]; intros tc; simpl.
  - by intros [= <-].
  - destruct (text_cols cols) as [tc'|] eqn:E; [|done]. simpl.
    intros [= <-]. simpl. f_equal. by apply IH.
  - done.
Qed.

(** The label test passes on the frames that have text labels only, and
    raises the [TypeError] of [pattern in col] on the others. *)
Lemma text_labels_Ok (raw : RawFrame) (df : DataFrame) :
  text_labels raw = Ok df <-> raw = raw_of df.
Proof.
  split; [|intros ->; apply text_labels_raw_of].
  unfold text_labels, raw_of.
  destruct (text_cols (raw_cols raw)) as [tc|] eqn:E; [|done]. simpl.
  intros [= <-]. simpl. apply text_cols_Ok in E. destruct raw. simpl in *.
  by subst.
Qed.

Lemma text_cols_spec (cols : list (label * Series)) :
  match text_cols cols with
  | Ok _ => Forall (fun col => is_text_label col = true) (map fst cols)
  | Raise e =>
      e = LabelTypeError /\
      ~ Forall (fun col => is_text_label col = true) (map fst cols)
  end.
Proof.
  induction cols as [|[[s|n] x] cols IH]; simpl.
  - constructor.
  - destruct (text_cols cols) as [tc|e]; simpl.
    + by constructor.
    + destruct IH as [-> IH]. split; [done |].
      intros Hall. apply IH. by inversion Hall.
  - split; [done |]. intros Hall. by inversion Hall.
Qed.

Lemma text_labels_spec (raw : RawFrame) :
  (Forall (fun col => is_text_label col = true) (raw_labels raw) ->
   exists df, text_labels raw = Ok df) /\
  (~ Forall (fun col => is_text_label col = true) (raw_labels raw) ->
   text_labels raw = Raise LabelTypeError).
Proof.
  unfold text_labels, raw_labels.
  pose proof (text_cols_spec (raw_cols raw)) as H.
  destruct (text_cols (raw_cols raw)) as [tc|e]; simpl.
  - split; [eauto | done].
  - destruct H as [-> H]. split; [done | done].
Qed.

(** The comprehension over the labels as read: the matching labels of the
    frame when all labels are texts, the [TypeError] otherwise. *)
Lemma labels_matching_text_cols (pattern : string)
    (cols : list (label * Series)) :
  labels_matching pattern (map fst cols) =
  match text_cols cols with
  | Ok tc => Ok (map LStr (List.filter (PyStr.contains pattern) (map fst tc)))
  | Raise e => Raise e
  end.
Proof.
  induction cols as [|[[s|n] x] cols IH]; simpl; [done | | done].
  rewrite IH. destruct (text_cols cols) as [tc|e]; simpl; [|done].
  by destruct (PyStr.contains pattern s).
Qed.

Lemma labels_matching_text_labels (pattern : string) (raw : RawFrame) :
  labels_matching pattern (raw_labels raw) =
  match text_labels raw with
  | Ok df => Ok (map LStr (cols_matching df pattern))
  | Raise e => Raise e
  end.
Proof.
  unfold raw_labels, text_labels. rewrite labels_matching_text_cols.
  by destruct (text_cols (raw_cols raw)).
Qed.

(** The verdict on a readable workbook with an Events sheet that parses. *)
Lemma validate_read (path : string) (w : World) book ws raw :
  fs w !! path = Some (Xlsx book) ->
  has_xlsx_extension path ->
  assoc "Events" book = Some ws ->
  read_sheet ws = Ok raw ->
  validate_maude_file read_sheet path w =
  (Ok (match text_labels raw with
       | Ok df =>
           if forallb (fun col => negb (is_source_col col)) (columns df)
           then (false, "No problem/outcome columns found in " +:+ path)
           else (true, "File validated successfully")
       | Raise e => (false, "Error validating file: " +:+ exn_message e)
       end), w).
Proof.
  intros Hf Hext Hws Hdf.
  unfold validate_maude_file, try_except, os_path_exists, excel_sheet_names,
    pd_read_excel, load_workbook, lift, mbind, IO_bind, mret, IO_ret.
  rewrite Hf. rewrite bool_decide_eq_true_2 by eauto. simpl.
  rewrite Hext. simpl. rewrite Hf.
  rewrite (proj2 (mem_str_assoc "Events" book)) by eauto. simpl.
  rewrite Hf, Hws, Hdf. rewrite !labels_matching_text_labels.
  destruct (text_labels raw) as [df|e]; [|done].
  destruct (forallb _ (columns df)) eqn:Hall.
  - assert (forall col, col ∈ columns df -> is_source_col col = false) as Hno.
    { intros col Hcol. rewrite forallb_forall in Hall.
      apply negb_true_iff, Hall. by apply list_elem_of_In. }
    apply no_category_columns in Hno as (-> & -> & ->). done.
  - destruct (cols_matching df "Device Problem") eqn:H1;
      destruct (cols_matching df "Patient Problem") eqn:H2;
      destruct (cols_matching df "Patient Outcome") eqn:H3; try done.
    exfalso.
    assert (forall col, col ∈ columns df -> is_source_col col = false) as Hno
      by (by apply no_category_columns).
    assert (forallb (fun col => negb (is_source_col col)) (columns df) = true);
      [|congruence].
    apply forallb_forall. intros col Hcol. apply negb_true_iff, Hno.
    by apply list_elem_of_In.
Qed.

(** The verdict when the parsed frame has text labels only. *)
Lemma validate_parsed (path : string) (w : World) book ws df :
  fs w !! path = Some (Xlsx book) ->
  has_xlsx_extension path ->
  assoc "Events" book = Some ws ->
  read_sheet ws = Ok (raw_of df) ->
  validate_maude_file read_sheet path w =
  (Ok (if forallb (fun col => negb (is_source_col col)) (columns df)
       then (false, "No problem/outcome columns found in " +:+ path)
       else (true, "File validated successfully")), w).
Proof.
  intros Hf Hext Hws Hdf.
  rewrite (validate_read path w book ws (raw_of df)) by done.
  by rewrite text_labels_raw_of.
Qed.

Lemma validate_missing (path : string) (w : World) :
  fs w !! path = None ->
  validate_maude_file read_sheet path w
  = (Ok (false, "File not found: " +:+ path), w).
Proof.
  intros Hf.
  unfold validate_maude_file, try_except, os_path_exists, mbind, IO_bind,
    mret, IO_ret.
  rewrite Hf. rewrite bool_decide_eq_false_2 by (by intros [? ?]). done.
Qed.

Lemma validate_wrong_extension (path : string) (w : World) :
  file_exists w path -> ~ has_xlsx_extension path ->
  validate_maude_file read_sheet path w
  = (Ok (false, "Not an Excel file: " +:+ path), w).
Proof.
  intros Hf Hext%not_true_is_false.
  unfold validate_maude_file, try_except, os_path_exists, mbind, IO_bind,
    mret, IO_ret.
  rewrite bool_decide_eq_true_2 by done. simpl. by rewrite Hext.
Qed.

Lemma validate_unreadable (path : string) (w : World) :
  fs w !! path = Some Unreadable -> has_xlsx_extension path ->
  validate_maude_file read_sheet path w
  = (Ok (false, "Error validating file: " +:+ exn_message IOError), w).
Proof.
  intros Hf Hext.
  unfold validate_maude_file, try_except, os_path_exists, excel_sheet_names,
    load_workbook, mbind, IO_bind, mret, IO_ret.
  rewrite Hf. rewrite bool_decide_eq_true_2 by eauto. simpl.
  rewrite Hext. simpl. by rewrite Hf.
Qed.

Lemma validate_no_sheet (path : string) (w : World) book :
  fs w !! path = Some (Xlsx book) -> has_xlsx_extension path ->
  assoc "Events" book = None ->
  validate_maude_file read_sheet path w
  = (Ok (false, "No 'Events' sheet found in " +:+ path), w).
Proof.
  intros Hf Hext Hws.
  unfold validate_maude_file, try_except, os_path_exists, excel_sheet_names,
    load_workbook, mbind, IO_bind, mret, IO_ret.
  rewrite Hf. rewrite bool_decide_eq_true_2 by eauto. simpl.
  rewrite Hext. simpl. rewrite Hf.
  assert (mem_str "Events" (map fst book) = false) as ->; [|done].
  apply not_true_is_false. rewrite mem_str_assoc, Hws. by intros [? ?].
Qed.

Lemma validate_unparsed (path : string) (w : World) book ws e :
  fs w !! path = Some (Xlsx book) -> has_xlsx_extension path ->
  assoc "Events" book = Some ws -> read_sheet ws = Raise e ->
  validate_maude_file read_sheet path w
  = (Ok (false, "Error validating file: " +:+ exn_message e), w).
Proof.
  intros Hf Hext Hws Hdf.
  unfold validate_maude_file, try_except, os_path_exists, excel_sheet_names,
    pd_read_excel, load_workbook, lift, mbind, IO_bind, mret, IO_ret.
  rewrite Hf. rewrite bool_decide_eq_true_2 by eauto. simpl.
  rewrite Hext. simpl. rewrite Hf.
  rewrite (proj2 (mem_str_assoc "Events" book)) by eauto. simpl.
  by rewrite Hf, Hws, Hdf.
Qed.

Lemma some_category_column (df : DataFrame) :
  forallb (fun col => negb (is_source_col col)) (columns df) = false <->
  exists col, col ∈ columns df /\ is_source_col col = true.
Proof.
  induction (columns df) as [|c cols IH]; simpl.
  - split; [done | by intros (? & ?%elem_of_nil & _)].
  - rewrite andb_false_iff, IH, negb_false_iff. split.
    + intros [?|(col & ? & ?)]; [exists c | exists col]; set_solver.
    + intros (col & [->|?]%elem_of_cons & ?); eauto.
Qed.

(** What a pass tells about the file. *)
Lemma validate_pass (path : string) (w w' : World) (reason : string) :
  validate_maude_file read_sheet path w = (Ok (true, reason), w') ->
  has_xlsx_extension path /\
  exists book ws df col,
    fs w !! path = Some (Xlsx book) /\ assoc "Events" book = Some ws /\
    read_sheet ws = Ok (raw_of df) /\ col ∈ columns df /\
    is_source_col col = true.
Proof.
  intros Hval.
  destruct (fs w !! path) as [f|] eqn:Hf.
  2: { by rewrite validate_missing in Hval. }
  assert (file_exists w path) as Hex by (unfold file_exists; eauto).
  destruct (PyStr.endswith (PyStr.lower path) ".xlsx") eqn:Hext.
  2: { rewrite validate_wrong_extension in Hval; [done | done |].
       unfold has_xlsx_extension. congruence. }
  destruct f as [|book].
  { by rewrite validate_unreadable in Hval. }
  destruct (assoc "Events" book) as [ws|] eqn:Hws.
  2: { by rewrite (validate_no_sheet _ _ book) in Hval. }
  destruct (read_sheet ws) as [raw|e] eqn:Hdf.
  2: { by rewrite (validate_unparsed _ _ book ws e) in Hval. }
  rewrite (validate_read _ _ book ws raw) in Hval by done.
  destruct (text_labels raw) as [df|e] eqn:Htext; [|done].
  apply text_labels_Ok in Htext. subst raw.
  destruct (forallb _ (columns df)) eqn:Hall; [done |].
  apply some_category_column in Hall as (col & Hcol & Hsrc).
  split; [done |]. by exists book, ws, df, col.
Qed.

(** The labels of a frame as read that are texts of a category. *)
Lemma raw_category_column (df : DataFrame) :
  (exists col, LStr col ∈ raw_labels (raw_of df) /\ is_source_col col = true)
  <-> exists col, col ∈ columns df /\ is_source_col col = true.
Proof.
  rewrite raw_labels_raw_of. split; intros (col & Hcol & Hsrc); exists col.
  - split; [|done].
    apply list_elem_of_fmap in Hcol as (c & [= ->] & Hc). done.
  - split; [|done]. apply list_elem_of_fmap. eauto.
Qed.

Lemma reasons_differ (p1 p2 p3 p4 m : string) :
  "File not found: " +:+ p1 <> "Not an Excel file: " +:+ p2 /\
  "File not found: " +:+ p1 <> "No 'Events' sheet found in " +:+ p3 /\
  "File not found: " +:+ p1 <> "No problem/outcome columns found in " +:+ p4 /\
  "Not an Excel file: " +:+ p2 <> "No 'Events' sheet found in " +:+ p3 /\
  "Not an Excel file: " +:+ p2 <> "No problem/outcome columns found in " +:+ p4 /\
  "No 'Events' sheet found in " +:+ p3
    <> "No problem/outcome columns found in " +:+ p4 /\
  "Error validating file: " +:+ m <> "File not found: " +:+ p1 /\
  "Error validating file: " +:+ m <> "Not an Excel file: " +:+ p2 /\
  "Error validating file: " +:+ m <> "No 'Events' sheet found in " +:+ p3 /\
  "Error validating file: " +:+ m
    <> "No problem/outcome columns found in " +:+ p4.
Proof. split_and!; discriminate. Qed.

End Validation.

(** C8, as stated, fails: a workbook that exists, is named [.xlsx], has an
    Events sheet and in it a column named [Device Problem 1] is refused
    when another header cell of the sheet holds the number 2024.  The test
    [pattern in col] raises on that label, and the handler turns the
    exception into a fail verdict with a fifth reason. *)
Lemma numeric_label_fails_validation :
  file_exists Sample.numbered_world "MAUDE_2024.xlsx" /\
  has_xlsx_extension "MAUDE_2024.xlsx" /\
  has_events_sheet Sample.numbered_world "MAUDE_2024.xlsx" /\
  has_category_column Sample.read_plain Sample.numbered_world
    "MAUDE_2024.xlsx" /\
  validate_maude_file Sample.read_plain "MAUDE_2024.xlsx"
    Sample.numbered_world
  = (Ok (false, "Error validating file: " +:+ exn_message LabelTypeError),
     Sample.numbered_world).
Proof.
  split_and!.
  - by eexists.
  - reflexivity.
  - by exists [("Events", Sample.numbered)], Sample.numbered.
  - eexists [("Events", Sample.numbered)], Sample.numbered, _,
      "Device Problem 1".
    split_and!; [reflexivity | reflexivity | by vm_compute | | reflexivity].
    vm_compute. apply elem_of_cons. right. apply elem_of_cons. by left.
  - by vm_compute.
Qed.

(** C8, amended: validation changes nothing and always returns a verdict
    with a reason.  The verdict is a pass if and only if the file exists,
    its name ends in [.xlsx] (in any letter case), it opens as a workbook
    with a sheet titled [Events], that sheet parses to a frame whose
    labels are all texts, and one of them contains one of the three
    category substrings.  The four failures of the specification are
    reported, in this order of testing, by four reasons; a file that does
    not open or parse, or a label that is not a text, is reported by a
    fifth, which carries the message of the exception.  The five reasons
    differ from each other whatever the paths and the message. *)
Theorem validate_maude_file_verdict
    (read_sheet : Worksheet -> result RawFrame) (path : string) (w : World) :
  exists verdict reason,
    validate_maude_file read_sheet path w = (Ok (verdict, reason), w) /\
    (verdict = true <->
       file_exists w path /\ has_xlsx_extension path /\
       has_events_sheet w path /\ has_text_labels read_sheet w path /\
       has_category_column read_sheet w path) /\
    (~ file_exists w path -> reason = "File not found: " +:+ path) /\
    (file_exists w path -> ~ has_xlsx_extension path ->
       reason = "Not an Excel file: " +:+ path) /\
    (forall book, fs w !! path = Some (Xlsx book) -> has_xlsx_extension path ->
       ~ has_events_sheet w path ->
       reason = "No 'Events' sheet found in " +:+ path) /\
    (forall book ws df, fs w !! path = Some (Xlsx book) ->
       has_xlsx_extension path -> assoc "Events" book = Some ws ->
       read_sheet ws = Ok df ->
       Forall (fun col => is_text_label col = true) (raw_labels df) ->
       ~ has_category_column read_sheet w path ->
       reason = "No problem/outcome columns found in " +:+ path) /\
    (forall book ws df, fs w !! path = Some (Xlsx book) ->
       has_xlsx_extension path -> assoc "Events" book = Some ws ->
       read_sheet ws = Ok df ->
       ~ Forall (fun col => is_text_label col = true) (raw_labels df) ->
       reason = "Error validating file: " +:+ exn_message LabelTypeError) /\
    (fs w !! path = Some Unreadable -> has_xlsx_extension path ->
       reason = "Error validating file: " +:+ exn_message IOError) /\
    (forall book ws e, fs w !! path = Some (Xlsx book) ->
       has_xlsx_extension path -> assoc "Events" book = Some ws ->
       read_sheet ws = Raise e ->
       reason = "Error validating file: " +:+ exn_message e) /\
    (forall p1 p2 p3 p4 m : string,
       "File not found: " +:+ p1 <> "Not an Excel file: " +:+ p2 /\
       "File not found: " +:+ p1 <> "No 'Events' sheet found in " +:+ p3 /\
       "File not found: " +:+ p1 <> "No problem/outcome columns found in " +:+ p4 /\
       "Not an Excel file: " +:+ p2 <> "No 'Events' sheet found in " +:+ p3 /\
       "Not an Excel file: " +:+ p2 <> "No problem/outcome columns found in " +:+ p4 /\
       "No 'Events' sheet found in " +:+ p3
         <> "No problem/outcome columns found in " +:+ p4 /\
       "Error validating file: " +:+ m <> "File not found: " +:+ p1 /\
       "Error validating file: " +:+ m <> "Not an Excel file: " +:+ p2 /\
       "Error validating file: " +:+ m <> "No 'Events' sheet found in " +:+ p3 /\
       "Error validating file: " +:+ m
         <> "No problem/outcome columns found in " +:+ p4).
Proof.
  destruct (fs w !! path) as [f|] eqn:Hf.
  2: { exists false, ("File not found: " +:+ path).
       rewrite validate_missing by done.
       assert (~ file_exists w path) as Hne.
       { unfold file_exists. rewrite Hf. by intros [? ?]. }
       split_and!; [done | | done | done | done.. | apply reasons_differ].
       split; [done | by intros (? & _)]. }
  assert (file_exists w path) as Hex by (unfold file_exists; eauto).
  destruct (PyStr.endswith (PyStr.lower path) ".xlsx") eqn:Hext.
  2: { exists false, ("Not an Excel file: " +:+ path).
       assert (~ has_xlsx_extension path) as Hne.
       { unfold has_xlsx_extension. congruence. }
       rewrite validate_wrong_extension by done.
       split_and!; [done | | done | done | done.. | apply reasons_differ].
       split; [done | by intros (_ & ? & _)]. }
  destruct f as [|book].
  { eexists false, _. rewrite validate_unreadable by done.
    split_and!; [done | | done | done | done.. | apply reasons_differ].
    split; [done |]. intros (_ & _ & (b & ws & ? & _) & _). congruence. }
  destruct (assoc "Events" book) as [ws|] eqn:Hws.
  2: { eexists false, _. rewrite (validate_no_sheet _ _ _ book) by done.
       assert (~ has_events_sheet w path) as Hne.
       { intros (b & ws & ? & ?). congruence. }
       split_and!; [done | | done | done | done | | | done | | apply reasons_differ].
       - split; [done | by intros (_ & _ & ? & _)].
       - intros b ws df ? ? ? ?. congruence.
       - intros b ws df ? ? ? ?. congruence.
       - intros b ws e ? ? ? ?. congruence. }
  assert (has_events_sheet w path) as Hsheet by (by exists book, ws).
  destruct (read_sheet ws) as [raw|e] eqn:Hdf.
  2: { eexists false, _. rewrite (validate_unparsed _ _ _ book ws e) by done.
       split_and!; [done | | done | done | done | | | done | | apply reasons_differ].
       - split; [done |].
         intros (_ & _ & _ & _ & (b & ws' & df & col & ? & ? & ? & _)).
         congruence.
       - intros b ws' df ? ? ? ?. congruence.
       - intros b ws' df ? ? ? ?. congruence.
       - intros b ws' e' ? ? ? ?. congruence. }
  rewrite (validate_read _ _ _ book ws raw) by done.
  destruct (text_labels_spec raw) as [Htext Hnum].
  destruct (decide (Forall (fun col => is_text_label col = true)
                      (raw_labels raw))) as [Hall|Hall].
  2: { rewrite (Hnum Hall). eexists false, _.
       split_and!; [done | | done | done | done | | | done | | apply reasons_differ].
       - split; [done |]. intros (_ & _ & _ & (b & ws' & df & ? & ? & ? & ?) & _).
         assert (df = raw) as -> by congruence. done.
       - intros b ws' df ? ? ? ? ?. assert (df = raw) as -> by congruence. done.
       - done.
       - intros b ws' e ? ? ? ?. congruence. }
  destruct (Htext Hall) as [df Hok]. rewrite Hok.
  apply text_labels_Ok in Hok. subst raw.
  assert (has_text_labels read_sheet w path) as Hlabels
    by (by exists book, ws, (raw_of df)).
  destruct (forallb _ (columns df)) eqn:Hcols.
  - eexists false, _.
    assert (~ has_category_column read_sheet w path) as Hne.
    { intros (b & ws' & raw & col & ? & ? & ? & Hcol & Hsrc).
      assert (raw = raw_of df) as -> by congruence.
      assert (exists c, c ∈ columns df /\ is_source_col c = true)
        as (c & Hc & Hcs) by (apply raw_category_column; eauto).
      rewrite forallb_forall in Hcols. apply list_elem_of_In in Hc.
      specialize (Hcols _ Hc). by rewrite Hcs in Hcols. }
    split_and!; [done | | done | done | done | done | | done | | apply reasons_differ].
    + split; [done | by intros (_ & _ & _ & _ & ?)].
    + intros b ws' raw ? ? ? ? Hn. assert (raw = raw_of df) as -> by congruence.
      done.
    + intros b ws' e ? ? ? ?. congruence.
  - eexists true, _.
    apply some_category_column in Hcols as (col & Hcol & Hsrc).
    assert (has_category_column read_sheet w path) as Hcat.
    { destruct (proj2 (raw_category_column df)) as (c & Hc & Hcs); [eauto |].
      by exists book, ws, (raw_of df), c. }
    split_and!; [done | | | | | | | | | apply reasons_differ].
    + split; [intros _; by split_and! | done].
    + intros Hn. by destruct Hn.
    + intros _ Hn. by destruct Hn.
    + intros b _ _ Hn. by destruct Hn.
    + intros b ws' raw _ _ _ _ _ Hn. by destruct Hn.
    + intros b ws' raw ? ? ? ? Hn. assert (raw = raw_of df) as -> by congruence.
      done.
    + intros ?. congruence.
    + intros b ws' e ? ? ? ?. congruence.
Qed.

(* ===================================================================== *)
(** * Per-file processing (C7, C10)                                       *)
(* ===================================================================== *)

Section Processing.

Context (read_sheet : Worksheet -> result RawFrame).

(** What [process_maude_file] does to a file that passes validation, by
    what the frame calls for and by what the file system lets it write:
    the backup is saved first, then the file; a save that is refused ends
    the run with [False], and what was saved before it stays. *)
Lemma process_valid_file (path : string) (w : World) book ws df col :
  fs w !! path = Some (Xlsx book) ->
  has_xlsx_extension path ->
  assoc "Events" book = Some ws ->
  read_sheet ws = Ok (raw_of df) ->
  col ∈ columns df -> is_source_col col = true ->
  process_maude_file read_sheet path w =
  match plan_binary_columns df with
  | Raise _ | Ok None => (Ok false, w)
  | Ok (Some []) => (Ok true, w)
  | Ok (Some binary_data) =>
      let '(ws1, (original_styles, original_row_heights, original_col_widths)) :=
        capture_original_styling ws in
      let book' :=
        set_sheet book "Events"
          (rewrite_sheet ws1 df binary_data original_styles
             original_row_heights original_col_widths) in
      let backup_path := backup_path_of path (strftime (clock w)) in
      if writable w backup_path
      then if writable w path
           then (Ok true,
                 mkWorld (<[path := Xlsx book']>
                            (<[backup_path := Xlsx book']> (fs w)))
                         (writable w) (clock w))
           else (Ok false,
                 mkWorld (<[backup_path := Xlsx book']> (fs w))
                         (writable w) (clock w))
      else (Ok false, w)
  end.
Proof.
  intros Hf Hext Hws Hdf Hcol Hsrc.
  unfold process_maude_file.
  unfold mbind at 1. unfold IO_bind.
  rewrite (validate_parsed read_sheet path w book ws df) by done.
  assert (forallb (fun c => negb (is_source_col c)) (columns df) = false) as ->.
  { apply some_category_column. eauto. }
  simpl.
  unfold try_except, pd_read_excel, load_workbook, lift, datetime_now,
    book_save, mbind, IO_bind, mret, IO_ret.
  rewrite Hf, Hws, Hdf. simpl. rewrite Hf. simpl. rewrite Hws.
  destruct (capture_original_styling ws) as [ws1 [[st hs] wd]].
  rewrite text_labels_raw_of.
  destruct (plan_binary_columns df) as [[[|kv bd]|]|e]; try done.
  simpl. destruct (writable w (backup_path_of path (strftime (clock w))));
    [|done].
  simpl. by destruct (writable w path).
Qed.

End Processing.

(** The mapping of new columns comes out empty exactly when every value is
    a text whose name one of the existing indicator columns has. *)
Lemma plan_empty_iff_covered (df : DataFrame) dv dc pv pc ov oc :
  get_unique_values df ["Device Problem"] = Ok (dv, dc) ->
  get_unique_values df ["Patient Problem"] = Ok (pv, pc) ->
  get_unique_values df ["Patient Outcome"] = Ok (ov, oc) ->
  dv <> [] \/ pv <> [] \/ ov <> [] ->
  plan_binary_columns df = Ok (Some []) <->
  Forall (fun v => is_str v = true) (dv ++ pv ++ ov) /\
  (forall s, VStr s ∈ dv ->
     "Device_" +:+ sanitize s ∈ check_existing_binary_columns df) /\
  (forall s, VStr s ∈ pv ->
     "Patient_" +:+ sanitize s ∈ check_existing_binary_columns df) /\
  (forall s, VStr s ∈ ov ->
     "Outcome_" +:+ sanitize s ∈ check_existing_binary_columns df).
Proof.
  intros Hd Hp Ho Hne. split.
  - intros (dv' & dc' & pv' & pc' & ov' & oc' & Hd' & Hp' & Ho' & _ & Hc)
      %plan_binary_columns_inv.
    rewrite Hd in Hd'. rewrite Hp in Hp'. rewrite Ho in Ho'. simplify_eq.
    unfold create_binary_columns in Hc.
    destruct (add_indicators df "Device_" dv' dc' _ []) as [d1|] eqn:H1;
      [|done].
    simpl in Hc.
    destruct (add_indicators df "Patient_" pv' pc' _ d1) as [d2|] eqn:H2;
      [|done].
    simpl in Hc. rename Hc into H3.
    pose proof (add_indicators_mono _ _ _ _ _ _ _ H2) as M2.
    pose proof (add_indicators_mono _ _ _ _ _ _ _ H3) as M3.
    split_and!.
    + rewrite !Forall_app. split_and!; eauto using add_indicators_text.
    + intros s Hs.
      destruct (add_indicators_covers _ _ _ _ _ _ _ H1 s Hs) as [?|Hk]; [done |].
      apply M2, M3 in Hk. by apply elem_of_nil in Hk.
    + intros s Hs.
      destruct (add_indicators_covers _ _ _ _ _ _ _ H2 s Hs) as [?|Hk]; [done |].
      apply M3 in Hk. by apply elem_of_nil in Hk.
    + intros s Hs.
      destruct (add_indicators_covers _ _ _ _ _ _ _ H3 s Hs) as [?|Hk]; [done |].
      by apply elem_of_nil in Hk.
  - intros (Ht & Hcd & Hcp & Hco).
    rewrite !Forall_app in Ht. destruct Ht as (Htd & Htp & Hto).
    unfold plan_binary_columns. rewrite Hd, Hp, Ho. simpl.
    assert (create_binary_columns df dv pv ov dc pc oc
              (check_existing_binary_columns df) = Ok []) as Hc.
    { unfold create_binary_columns.
      rewrite add_indicators_all_covered by done. simpl.
      rewrite add_indicators_all_covered by done. simpl.
      by apply add_indicators_all_covered. }
    rewrite Hc. destruct dv, pv, ov; try done. naive_solver.
Qed.

(** C10: on a file that passes validation and whose candidate names are
    all covered, so that the computed mapping of new columns is empty,
    processing returns success and leaves the world as it was: nothing is
    saved, no backup appears, and the file keeps its content. *)
Theorem process_nothing_to_add
    (read_sheet : Worksheet -> result RawFrame) (path : string) (w : World)
    (reason : string) (book : Workbook) (ws : Worksheet) (df : DataFrame) :
  validate_maude_file read_sheet path w = (Ok (true, reason), w) ->
  fs w !! path = Some (Xlsx book) ->
  assoc "Events" book = Some ws ->
  read_sheet ws = Ok (raw_of df) ->
  plan_binary_columns df = Ok (Some []) ->
  process_maude_file read_sheet path w = (Ok true, w).
Proof.
  intros Hval Hf Hws Hdf Hplan.
  destruct (validate_pass read_sheet path w w reason Hval)
    as (Hext & book' & ws' & df' & col & Hf' & Hws' & Hdf' & Hcol & Hsrc).
  assert (book' = book) as -> by congruence.
  assert (ws' = ws) as -> by congruence.
  assert (df' = df) as ->.
  { assert (raw_of df' = raw_of df) as Heq by congruence.
    apply (f_equal text_labels) in Heq.
    rewrite !text_labels_raw_of in Heq. congruence. }
  rewrite (process_valid_file read_sheet path w book ws df col) by done.
  by rewrite Hplan.
Qed.

Lemma process_nothing_to_add_witness :
  process_maude_file Sample.read_plain "MAUDE_2024.xlsx"
    (Sample.processed "MAUDE_2024.xlsx")
  = (Ok true, Sample.processed "MAUDE_2024.xlsx").
Proof.
  eapply (process_nothing_to_add Sample.read_plain "MAUDE_2024.xlsx"
            (Sample.processed "MAUDE_2024.xlsx") _ _ _
            (concat_binary Sample.events Sample.new_columns)).
  - vm_compute. reflexivity.
  - vm_compute. reflexivity.
  - vm_compute. reflexivity.
  - vm_compute. reflexivity.
  - vm_compute. reflexivity.
Defined.

(** A path in which [.xlsx] does not occur in lower case is its own backup
    path. *)
Lemma backup_path_without_match (path timestamp : string) :
  PyStr.contains ".xlsx" path = false ->
  backup_path_of path timestamp = path.
Proof.
  unfold backup_path_of, PyStr.replace.
  induction path as [|c path IH]; [done |].
  cbn [PyStr.contains]. intros [Hp Hc]%orb_false_iff.
  cbn [PyStr.replace_go]. rewrite Hp. f_equal. by apply IH.
Qed.

Lemma append_empty (a : string) : a +:+ "" = a.
Proof.
  induction a as [|x a IH]; [done |]. rewrite append_cons. by f_equal.
Qed.

Lemma prefix_cons (a b : ascii) (p s : string) :
  String.prefix (String a p) (String b s)
  = if ascii_dec a b then String.prefix p s else false.
Proof. reflexivity. Qed.

(** A name without a dot, followed by [.xlsx], gets the time stamp before
    the extension. *)
Lemma backup_path_plain_name (stem timestamp : string) :
  PyStr.contains "." stem = false ->
  backup_path_of (stem +:+ ".xlsx") timestamp
  = stem +:+ "_backup_" +:+ timestamp +:+ ".xlsx".
Proof.
  unfold backup_path_of, PyStr.replace.
  induction stem as [|c stem IH]; intros Hdot.
  - rewrite !append_nil. cbn. apply append_empty.
  - cbn [PyStr.contains] in Hdot. apply orb_false_iff in Hdot as [Hp Hc].
    rewrite !append_cons. cbn [PyStr.replace_go].
    assert (String.prefix ".xlsx" (String c (stem +:+ ".xlsx")) = false) as ->.
    { change "." with (String "." "") in Hp.
      change ".xlsx" with (String "." "xlsx").
      rewrite prefix_cons in Hp |- *. destruct (ascii_dec "." c); [|done].
      by rewrite prefix_empty in Hp. }
    f_equal. by apply IH.
Qed.

(** C7 on the code: a file named [MAUDE_2024.XLSX] passes validation, whose
    extension test ignores letter case, but the backup path is made by
    replacing the lower-case [.xlsx], which the name does not contain; the
    backup path is the file's own path, the file is overwritten with the new
    columns, and no backup exists afterwards. *)
Theorem uppercase_extension_leaves_no_backup :
  let path := "MAUDE_2024.XLSX" in
  let w := Sample.world path in
  validate_maude_file Sample.read_plain path w
    = (Ok (true, "File validated successfully"), w) /\
  backup_path_of path (strftime (clock w)) = path /\
  fst (process_maude_file Sample.read_plain path w) = Ok true /\
  (exists book ws,
     fs (Sample.processed path) !! path = Some (Xlsx book) /\
     assoc "Events" book = Some ws /\
     cell_value (get_cell ws 1 3) = VStr "Device_Corrosion") /\
  fs (Sample.processed path) !! "MAUDE_2024_backup_20261103_120000.XLSX" = None /\
  size (fs (Sample.processed path)) = 1.
Proof.
  split_and!; try (by vm_compute).
  eexists _, _. split_and!; by vm_compute.
Qed.

(* ===================================================================== *)
(** * Facts about worksheets                                              *)
(* ===================================================================== *)

Section SheetFacts.

Implicit Types (ws : Worksheet) (m : gmap (nat * nat) Cell).

Lemma cell_rows_elem m (r : nat) :
  r ∈ cell_rows m <-> exists c x, m !! (r, c) = Some x.
Proof.
  unfold cell_rows. rewrite list_elem_of_fmap. split.
  - intros ([[r' c] x] & -> & H%elem_of_map_to_list). by exists c, x.
  - intros (c & x & H). exists ((r, c), x). split; [done |].
    by apply elem_of_map_to_list.
Qed.

Lemma cell_cols_elem m (c : nat) :
  c ∈ cell_cols m <-> exists r x, m !! (r, c) = Some x.
Proof.
  unfold cell_cols. rewrite list_elem_of_fmap. split.
  - intros ([[r c'] x] & -> & H%elem_of_map_to_list). by exists r, x.
  - intros (r & x & H). exists ((r, c), x). split; [done |].
    by apply elem_of_map_to_list.
Qed.

Lemma max_list_le (l : list nat) (n : nat) :
  (forall x, x ∈ l -> x <= n) -> max_list l <= n.
Proof.
  induction l as [|x l IH]; simpl; intros H; [lia |].
  apply Nat.max_lub; [apply H; set_solver | apply IH; intros; apply H; set_solver].
Qed.

Lemma max_row_ge ws (r c : nat) (x : Cell) :
  ws_cells ws !! (r, c) = Some x -> r <= max_row ws.
Proof.
  intros H. unfold max_row.
  assert (r <= max_list (cell_rows (ws_cells ws))); [|lia].
  apply max_list_elem_of_le, cell_rows_elem. eauto.
Qed.

Lemma max_column_ge ws (r c : nat) (x : Cell) :
  ws_cells ws !! (r, c) = Some x -> c <= max_column ws.
Proof.
  intros H. unfold max_column.
  assert (c <= max_list (cell_cols (ws_cells ws))); [|lia].
  apply max_list_elem_of_le, cell_cols_elem. eauto.
Qed.

Lemma max_row_le ws (n : nat) :
  1 <= n -> (forall r c x, ws_cells ws !! (r, c) = Some x -> r <= n) ->
  max_row ws <= n.
Proof.
  intros Hn H. unfold max_row. apply Nat.max_lub; [done |].
  apply max_list_le. intros r (c & x & Hr)%cell_rows_elem. eauto.
Qed.

Lemma max_column_le ws (n : nat) :
  1 <= n -> (forall r c x, ws_cells ws !! (r, c) = Some x -> c <= n) ->
  max_column ws <= n.
Proof.
  intros Hn H. unfold max_column. apply Nat.max_lub; [done |].
  apply max_list_le. intros c (r & x & Hr)%cell_cols_elem. eauto.
Qed.

Lemma max_row_pos ws : 1 <= max_row ws.
Proof. unfold max_row. lia. Qed.

Lemma max_column_pos ws : 1 <= max_column ws.
Proof. unfold max_column. lia. Qed.

Lemma max_row_empty ws : ws_cells ws = ∅ -> max_row ws = 1.
Proof. intros H. unfold max_row, cell_rows. by rewrite H, map_to_list_empty. Qed.

Lemma max_column_empty ws : ws_cells ws = ∅ -> max_column ws = 1.
Proof. intros H. unfold max_column, cell_cols. by rewrite H, map_to_list_empty. Qed.

(** Writing a cell inside the current extent keeps the extent. *)
Lemma max_column_insert_inside ws (r c : nat) (x : Cell) :
  c <= max_column ws ->
  max_column (with_cells ws (<[(r, c) := x]> (ws_cells ws))) = max_column ws.
Proof.
  intros Hc. apply Nat.le_antisymm.
  - apply max_column_le; [apply max_column_pos |]. intros r' c' x'. simpl.
    destruct (decide ((r, c) = (r', c'))) as [[= <- <-]|Hne].
    + done.
    + rewrite lookup_insert_ne by done. apply max_column_ge.
  - apply max_column_le; [apply max_column_pos |]. intros r' c' x' H.
    destruct (decide ((r, c) = (r', c'))) as [[= <- <-]|Hne].
    + eapply (max_column_ge _ r c). simpl. apply lookup_insert_eq.
    + eapply (max_column_ge _ r' c'). simpl. by rewrite lookup_insert_ne.
Qed.

Lemma get_cell_update ws (r c r' c' : nat) (f : Cell -> Cell) :
  get_cell (update_cell ws r c f) r' c'
  = if decide ((r, c) = (r', c')) then f (get_cell ws r c) else get_cell ws r' c'.
Proof.
  unfold get_cell, update_cell. simpl. case_decide as H.
  - injection H as <- <-. by rewrite lookup_insert_eq.
  - by rewrite lookup_insert_ne.
Qed.

Lemma get_cell_touch ws (r c r' c' : nat) :
  get_cell (touch ws r c) r' c' = get_cell ws r' c'.
Proof.
  unfold touch. change (with_cells ws _) with (update_cell ws r c id).
  rewrite get_cell_update. case_decide as H; [by injection H as <- <- | done].
Qed.

Lemma sheet_wf_insert ws (r c : nat) (x : Cell) :
  1 <= r -> 1 <= c -> sheet_wf ws ->
  sheet_wf (with_cells ws (<[(r, c) := x]> (ws_cells ws))).
Proof.
  intros Hr Hc Hwf r' c'. simpl.
  destruct (decide ((r, c) = (r', c'))) as [[= <- <-]|Hne]; [done |].
  rewrite lookup_insert_ne by done. apply Hwf.
Qed.

(** Deleting all rows of a sheet leaves no cell. *)
Lemma delete_all_rows ws :
  sheet_wf ws ->
  delete_rows ws 1 (max_row ws)
  = mkSheet ∅ (row_dimensions ws) (column_dimensions ws) 0.
Proof.
  intros Hwf. unfold delete_rows.
  assert (omap (shift_row 1 (max_row ws)) (map_to_list (ws_cells ws)) = []) as ->.
  { assert (Forall (fun kv => shift_row 1 (max_row ws) kv = None)
              (map_to_list (ws_cells ws))) as Hall.
    { apply Forall_forall. intros [[r c] x] H%elem_of_map_to_list.
      pose proof (max_row_ge _ _ _ _ H).
      destruct (Hwf r c) as [? _]; [eauto |].
      unfold shift_row. cbn [fst snd].
      rewrite (proj2 (Nat.ltb_ge r 1)) by lia.
      by rewrite (proj2 (Nat.ltb_lt r (1 + max_row ws))) by lia. }
    induction Hall as [|kv l Hkv _ IH]; simpl; [done | by rewrite Hkv]. }
  simpl. rewrite decide_True by done. done.
Qed.

Lemma delete_cols_empty ws (idx amount : nat) :
  ws_cells ws = ∅ -> delete_cols ws idx amount = ws.
Proof.
  intros H. unfold delete_cols. rewrite H, map_to_list_empty. simpl.
  destruct ws; simpl in *. by subst.
Qed.

End SheetFacts.

Section Writing.

Implicit Types (ws : Worksheet) (m : gmap (nat * nat) Cell).

Lemma append_cells_lookup (r c0 : nat) (l : list value) m (r' c' : nat) :
  append_cells r c0 l m !! (r', c')
  = if decide (r' = r /\ c0 <= c' < c0 + length l)
    then new_cell <$> l !! (c' - c0)
    else m !! (r', c').
Proof.
  revert c0 m. induction l as [|v l IH]; intros c0 m; simpl.
  - rewrite decide_False by lia. done.
  - rewrite IH. destruct (decide (r' = r /\ S c0 <= c' < S c0 + length l)) as [[-> H]|H].
    + rewrite decide_True by lia.
      replace (c' - c0) with (S (c' - S c0)) by lia. done.
    + destruct (decide ((r, c0) = (r', c'))) as [[= <- <-]|Hne].
      * rewrite lookup_insert_eq, decide_True by lia.
        by replace (c0 - c0) with 0 by lia.
      * rewrite lookup_insert_ne by done.
        rewrite decide_False; [done |]. intros [-> ?].
        assert (c' <> c0) by congruence. lia.
Qed.

(** What the sheet holds after appending rows, one below the other. *)
Lemma write_rows (rows : list (list value)) ws :
  let ws' := fold_left append rows ws in
  (forall r c,
     ws_cells ws' !! (r, c)
     = match written_value rows (current_row ws) r c with
       | Some v => Some (new_cell v)
       | None => ws_cells ws !! (r, c)
       end) /\
  current_row ws' = current_row ws + length rows /\
  row_dimensions ws' = row_dimensions ws /\
  column_dimensions ws' = column_dimensions ws.
Proof.
  revert ws. induction rows as [|row rows IH]; intros ws; simpl.
  - split_and!; [|lia|done|done]. intros r c. unfold written_value.
    case_decide; [by rewrite lookup_nil | done].
  - destruct (IH (append ws row)) as (Hc & Hk & Hr & Hd). split_and!.
    + intros r c. rewrite Hc. unfold written_value. simpl.
      rewrite append_cells_lookup.
      set (k := current_row ws).
      destruct (decide (k + 1 < r /\ 1 <= c)) as [[? ?]|H1].
      * rewrite (decide_True (P := k < r /\ 1 <= c)) by lia.
        replace (r - k - 1) with (S (r - (k + 1) - 1)) by lia.
        simpl.
        destruct (rows !! (r - (k + 1) - 1) ≫= _) eqn:E; [done |].
        rewrite (decide_False (P := r = k + 1 /\ _)) by lia. done.
      * destruct (decide (k < r /\ 1 <= c)) as [[? ?]|H2].
        -- assert (r = k + 1) as -> by lia.
           replace (k + 1 - k - 1) with 0 by lia.
           simpl. destruct (row !! (c - 1)) as [v|] eqn:E.
           ++ apply lookup_lt_Some in E as Hlt.
              rewrite decide_True by lia. done.
           ++ apply lookup_ge_None in E as Hge.
              rewrite decide_False by lia. done.
        -- rewrite decide_False by lia. done.
    + rewrite Hk. simpl. lia.
    + by rewrite Hr.
    + by rewrite Hd.
Qed.

Lemma dataframe_to_rows_length (df : DataFrame) :
  length (dataframe_to_rows df) = frame_len df + 1.
Proof. unfold dataframe_to_rows. simpl. rewrite length_map, length_seq. lia. Qed.

(** The rows of a frame, appended to an empty sheet, put every value of
    the frame at its position. *)
Lemma written_frame_value (df : DataFrame) (r c : nat) :
  written_value (dataframe_to_rows df) 0 r c = frame_value df r c.
Proof.
  unfold written_value, frame_value, dataframe_to_rows, columns.
  destruct (decide (1 <= c)) as [Hc|Hc]; [|by rewrite decide_False by lia].
  destruct (decide (0 < r)) as [Hr|Hr].
  2: { rewrite decide_False by lia. destruct (frame_cols df !! (c - 1)); simpl;
       [|done]. by rewrite !decide_False by lia. }
  rewrite decide_True by lia.
  destruct (decide (r = 1)) as [->|Hr1].
  - simpl. rewrite !list_lookup_fmap.
    by destruct (frame_cols df !! (c - 1)).
  - replace (r - 0 - 1) with (S (r - 2)) by lia. simpl.
    rewrite list_lookup_fmap.
    destruct (decide (r - 2 < frame_len df)) as [Hlt|Hge].
    + rewrite lookup_seq_lt by done. simpl. rewrite list_lookup_fmap.
      destruct (frame_cols df !! (c - 1)); simpl; [|done].
      by rewrite (decide_True (P := 2 <= r <= frame_len df + 1)) by lia.
    + rewrite lookup_seq_ge by lia. simpl.
      destruct (frame_cols df !! (c - 1)); simpl; [|done].
      by rewrite (decide_False (P := 2 <= r <= frame_len df + 1)) by lia.
Qed.

End Writing.

Section Restoring.

Implicit Types (ws : Worksheet) (styles : gmap (nat * nat) Style)
  (heights : gmap nat (option Z)) (widths : gmap string (option Z)).

Lemma fold_left_seq_S {A} (f : A -> nat -> A) (a : A) (start n : nat) :
  fold_left f (seq start (S n)) a = f (fold_left f (seq start n) a) (start + n).
Proof. by rewrite seq_S, fold_left_app. Qed.

Lemma restore_cells styles (row C : nat) ws :
  let ws' := fold_left (restore_cell styles row) (seq 1 C) ws in
  (forall r c,
     get_cell ws' r c
     = if decide (r = row /\ 1 <= c <= C)
       then restored styles r c (get_cell ws r c)
       else get_cell ws r c) /\
  row_dimensions ws' = row_dimensions ws /\
  column_dimensions ws' = column_dimensions ws.
Proof.
  cbv zeta. induction C as [|C IH].
  - simpl. split_and!; [|done|done]. intros r c. by cases.
  - rewrite fold_left_seq_S.
    destruct IH as (Hc & Hr & Hd).
    set (ws1 := fold_left (restore_cell styles row) (seq 1 C) ws) in *.
    replace (1 + C) with (S C) by lia. unfold restore_cell.
    destruct (styles !! (row, S C)) as [st|] eqn:Hst.
    + split_and!; [|done|done]. intros r c.
      rewrite get_cell_update, !Hc. cases.
      unfold restored. by rewrite Hst.
    + split_and!; [|done|done]. intros r c. rewrite Hc. cases.
      destruct H0 as [-> ?]. assert (c = S C) as -> by lia.
      unfold restored. by rewrite Hst.
Qed.

Lemma restore_rows styles heights (C R : nat) ws :
  let ws' := fold_left (restore_row styles heights C) (seq 1 R) ws in
  (forall r c,
     get_cell ws' r c
     = if decide (1 <= r <= R /\ 1 <= c <= C)
       then restored styles r c (get_cell ws r c)
       else get_cell ws r c) /\
  (forall r,
     row_dimensions ws' !! r
     = if decide (1 <= r <= R)
       then restored_height heights r (row_dimensions ws !! r)
       else row_dimensions ws !! r) /\
  column_dimensions ws' = column_dimensions ws.
Proof.
  cbv zeta. induction R as [|R IH].
  - simpl. split_and!; [| |done]; intros; by cases.
  - rewrite fold_left_seq_S. replace (1 + R) with (S R) by lia.
    destruct IH as (Hc & Hr & Hd).
    set (ws1 := fold_left (restore_row styles heights C) (seq 1 R) ws) in *.
    unfold restore_row.
    set (ws2 := match heights !! S R with
                | Some h => if truthy h
                            then with_row_dimensions ws1 (<[S R := h]> (row_dimensions ws1))
                            else ws1
                | None => ws1
                end).
    assert (forall r c, get_cell ws2 r c = get_cell ws1 r c) as Hc2.
    { intros. unfold ws2. destruct (heights !! S R) as [h|]; [|done].
      by destruct (truthy h). }
    assert (column_dimensions ws2 = column_dimensions ws1) as Hd2.
    { unfold ws2. destruct (heights !! S R) as [h|]; [|done].
      by destruct (truthy h). }
    assert (forall r, row_dimensions ws2 !! r
                      = if decide (r = S R)
                        then restored_height heights r (row_dimensions ws1 !! r)
                        else row_dimensions ws1 !! r) as Hr2.
    { intros r. unfold ws2, restored_height.
      destruct (decide (r = S R)) as [->|Hne].
      - destruct (heights !! S R) as [h|]; [|done].
        destruct (truthy h); [|done]. simpl. by rewrite lookup_insert_eq.
      - destruct (heights !! S R) as [h|]; [|done].
        destruct (truthy h); [|done]. simpl. by rewrite lookup_insert_ne. }
    destruct (restore_cells styles (S R) C ws2) as (Hc3 & Hr3 & Hd3).
    split_and!.
    + intros r c. rewrite Hc3, Hc2, Hc. by cases.
    + intros r. rewrite Hr3, Hr2, Hr. by cases.
    + by rewrite Hd3, Hd2.
Qed.

Lemma restore_widths widths (dims : gmap string (option Z)) (letter : string) :
  map_fold restore_width dims widths !! letter
  = match widths !! letter with
    | Some w => if truthy w then Some w else dims !! letter
    | None => dims !! letter
    end.
Proof.
  revert letter.
  apply (map_fold_weak_ind
    (fun r m => forall letter,
       r !! letter = match m !! letter with
                     | Some w => if truthy w then Some w else dims !! letter
                     | None => dims !! letter
                     end)).
  - intros letter. by rewrite lookup_empty.
  - intros k w m r Hk IH letter. unfold restore_width.
    destruct (decide (k = letter)) as [->|Hne].
    + rewrite lookup_insert_eq. destruct (truthy w).
      * by rewrite lookup_insert_eq.
      * by rewrite IH, Hk.
    + rewrite (lookup_insert_ne m) by done. destruct (truthy w).
      * rewrite lookup_insert_ne by done. apply IH.
      * apply IH.
Qed.

End Restoring.

Section Colouring.

Implicit Types (ws : Worksheet).

Lemma format_data_cell_get (col_idx row_idx : nat) ws (r c : nat) :
  get_cell (format_data_cell col_idx ws row_idx) r c
  = if decide ((row_idx, col_idx) = (r, c)) then paint (get_cell ws r c)
    else get_cell ws r c.
Proof.
  unfold format_data_cell, paint. rewrite !get_cell_touch.
  destruct (py_eq (cell_value (get_cell ws row_idx col_idx)) (VNum 1)) eqn:E1.
  - rewrite get_cell_update. case_decide; simplify_eq;
      rewrite ?get_cell_touch, ?E1; done.
  - destruct (py_eq (cell_value (get_cell ws row_idx col_idx)) (VNum 0)) eqn:E0.
    + rewrite get_cell_update. case_decide; simplify_eq;
        rewrite ?get_cell_touch, ?E1, ?E0; done.
    + rewrite get_cell_touch. case_decide; simplify_eq; rewrite ?E1, ?E0; done.
Qed.

Lemma format_data_cell_dims (col_idx row_idx : nat) ws :
  row_dimensions (format_data_cell col_idx ws row_idx) = row_dimensions ws /\
  column_dimensions (format_data_cell col_idx ws row_idx) = column_dimensions ws.
Proof.
  unfold format_data_cell.
  destruct (py_eq _ (VNum 1)); [done |]. by destruct (py_eq _ (VNum 0)).
Qed.

Lemma format_data_cells (col_idx n : nat) ws :
  let ws' := fold_left (format_data_cell col_idx) (seq 2 n) ws in
  (forall r c,
     get_cell ws' r c
     = if decide (c = col_idx /\ 2 <= r < 2 + n) then paint (get_cell ws r c)
       else get_cell ws r c) /\
  row_dimensions ws' = row_dimensions ws /\
  column_dimensions ws' = column_dimensions ws.
Proof.
  cbv zeta. induction n as [|n IH].
  - simpl. split_and!; [|done|done]. intros r c. by cases.
  - rewrite fold_left_seq_S. destruct IH as (Hc & Hr & Hd).
    set (ws1 := fold_left (format_data_cell col_idx) (seq 2 n) ws) in *.
    destruct (format_data_cell_dims col_idx (2 + n) ws1) as [Hr1 Hd1].
    split_and!; [|congruence|congruence].
    intros r c. rewrite format_data_cell_get, !Hc. by cases.
Qed.

Lemma format_binary_col_get (n col_idx : nat) ws :
  let ws' := format_binary_col n ws col_idx in
  (forall r c,
     get_cell ws' r c
     = if decide (c = col_idx) then formatted n r (get_cell ws r c)
       else get_cell ws r c) /\
  row_dimensions ws' = row_dimensions ws /\
  column_dimensions ws' = column_dimensions ws.
Proof.
  cbv zeta. unfold format_binary_col.
  destruct (format_data_cells col_idx n
              (update_cell ws 1 col_idx (set_font bold_font)))
    as (Hc & Hr & Hd).
  split_and!; [|by rewrite Hr|by rewrite Hd].
  intros r c. rewrite Hc, !get_cell_update. unfold formatted. by cases.
Qed.

(** The effect of the colouring on every cell of the sheet. *)
Lemma format_binary_cols (n start k : nat) ws :
  let ws' := fold_left (format_binary_col n) (seq start k) ws in
  (forall r c,
     get_cell ws' r c
     = if decide (start <= c < start + k) then formatted n r (get_cell ws r c)
       else get_cell ws r c) /\
  row_dimensions ws' = row_dimensions ws /\
  column_dimensions ws' = column_dimensions ws.
Proof.
  cbv zeta. induction k as [|k IH].
  - simpl. split_and!; [|done|done]. intros r c. by cases.
  - rewrite fold_left_seq_S. destruct IH as (Hc & Hr & Hd).
    set (ws1 := fold_left (format_binary_col n) (seq start k) ws) in *.
    destruct (format_binary_col_get n (start + k) ws1) as (Hc1 & Hr1 & Hd1).
    split_and!; [|congruence|congruence].
    intros r c. rewrite Hc1, !Hc. by cases.
Qed.

End Colouring.

Section Rewriting.

Implicit Types (ws : Worksheet) (styles : gmap (nat * nat) Style)
  (heights : gmap nat (option Z)) (widths : gmap string (option Z)).

(** The sheet right after the frame is written to it. *)
Lemma written_sheet ws (df : DataFrame) :
  sheet_wf ws ->
  let ws' := fold_left append (dataframe_to_rows df)
               (delete_cols (delete_rows ws 1 (max_row ws)) 1
                  (max_column (delete_rows ws 1 (max_row ws)))) in
  (forall r c, ws_cells ws' !! (r, c) = new_cell <$> frame_value df r c) /\
  row_dimensions ws' = row_dimensions ws /\
  column_dimensions ws' = column_dimensions ws.
Proof.
  intros Hwf. cbv zeta. rewrite delete_all_rows by done.
  rewrite delete_cols_empty by done.
  destruct (write_rows (dataframe_to_rows df)
              (mkSheet ∅ (row_dimensions ws) (column_dimensions ws) 0))
    as (Hc & _ & Hr & Hd).
  split_and!; [|done|done].
  intros r c. rewrite Hc. simpl. rewrite written_frame_value, lookup_empty.
  by destruct (frame_value df r c).
Qed.

Lemma frame_value_row (df : DataFrame) (r c : nat) (v : value) :
  frame_value df r c = Some v -> 1 <= r <= frame_len df + 1.
Proof.
  unfold frame_value. case_decide; [|done].
  destruct (frame_cols df !! (c - 1)); simpl; [|done].
  repeat case_decide; try done; lia.
Qed.

Lemma frame_value_last_row (df : DataFrame) :
  frame_cols df <> [] -> is_Some (frame_value df (frame_len df + 1) 1).
Proof.
  intros Hne. unfold frame_value. simpl.
  destruct (frame_cols df) as [|col cols]; [done |]. simpl.
  repeat case_decide; eauto; lia.
Qed.

(** The written sheet ends at the last row of the frame. *)
Lemma written_sheet_max_row ws (df : DataFrame) :
  frame_cols df <> [] ->
  (forall r c, ws_cells ws !! (r, c) = new_cell <$> frame_value df r c) ->
  max_row ws = frame_len df + 1.
Proof.
  intros Hne Hc. apply Nat.le_antisymm.
  - apply max_row_le; [lia |]. intros r c x. rewrite Hc.
    destruct (frame_value df r c) as [v|] eqn:E; [|done].
    intros _. apply frame_value_row in E. lia.
  - destruct (frame_value_last_row df Hne) as [v Hv].
    eapply (max_row_ge ws _ 1). rewrite Hc, Hv. done.
Qed.

Lemma get_cell_lookup ws (r c : nat) (o : option Cell) :
  ws_cells ws !! (r, c) = o -> get_cell ws r c = default (new_cell VNull) o.
Proof. intros H. unfold get_cell. by rewrite H. Qed.

(** Every cell, row height and column width of the rewritten sheet. *)
Lemma rewrite_sheet_spec ws (df : DataFrame) (bd : dict (list Z))
    styles heights widths :
  sheet_wf ws ->
  frame_cols (concat_binary df bd) <> [] ->
  let df' := concat_binary df bd in
  let C := length (columns df) in
  let n := frame_len df in
  let ws' := rewrite_sheet ws df bd styles heights widths in
  (forall r c,
     get_cell ws' r c
     = let written := default (new_cell VNull) (new_cell <$> frame_value df' r c) in
       let kept := if decide (1 <= r <= n + 1 /\ 1 <= c <= C)
                   then restored styles r c written else written in
       if decide (C + 1 <= c < C + 1 + length bd) then formatted n r kept
       else kept) /\
  (forall r,
     row_dimensions ws' !! r
     = if decide (1 <= r <= n + 1)
       then restored_height heights r (row_dimensions ws !! r)
       else row_dimensions ws !! r) /\
  (forall letter,
     column_dimensions ws' !! letter
     = match widths !! letter with
       | Some w => if truthy w then Some w else column_dimensions ws !! letter
       | None => column_dimensions ws !! letter
       end).
Proof.
  intros Hwf Hne. cbv zeta. unfold rewrite_sheet.
  destruct (written_sheet ws (concat_binary df bd) Hwf) as (Hw & Hwr & Hwd).
  set (w1 := fold_left append _ _) in *.
  pose proof (written_sheet_max_row w1 _ Hne Hw) as Hmax. simpl in Hmax.
  unfold restore_original_formatting, apply_binary_formatting.
  rewrite Hmax.
  destruct (restore_rows styles heights (length (columns df))
              (frame_len df + 1) w1) as (Hc2 & Hr2 & Hd2).
  set (w2 := fold_left (restore_row _ _ _) _ w1) in *.
  set (w3 := with_column_dimensions w2 _).
  destruct (format_binary_cols (frame_len (concat_binary df bd))
              (length (columns df) + 1) (length (dict_keys bd)) w3)
    as (Hc4 & Hr4 & Hd4).
  split_and!.
  - intros r c. rewrite Hc4.
    assert (get_cell w3 r c = get_cell w2 r c) as -> by done.
    rewrite Hc2, (get_cell_lookup w1 r c _ (Hw r c)).
    unfold dict_keys. rewrite length_map. done.
  - intros r. rewrite Hr4.
    assert (row_dimensions w3 = row_dimensions w2) as -> by done.
    by rewrite Hr2, Hwr.
  - intros letter. rewrite Hd4. unfold w3. simpl.
    by rewrite restore_widths, Hd2, Hwd.
Qed.

End Rewriting.

Section Capturing.

Implicit Types (ws : Worksheet) (styles : gmap (nat * nat) Style)
  (heights : gmap nat (option Z)).

Lemma max_column_touch ws (r c : nat) :
  c <= max_column ws -> max_column (touch ws r c) = max_column ws.
Proof. apply max_column_insert_inside. Qed.

Lemma sheet_wf_touch ws (r c : nat) :
  1 <= r -> 1 <= c -> sheet_wf ws -> sheet_wf (touch ws r c).
Proof. apply sheet_wf_insert. Qed.

Lemma capture_cells (row n : nat) ws styles :
  let acc := fold_left (capture_cell row) (seq 1 n) (ws, styles) in
  (forall r c, get_cell (fst acc) r c = get_cell ws r c) /\
  row_dimensions (fst acc) = row_dimensions ws /\
  column_dimensions (fst acc) = column_dimensions ws /\
  (forall r c,
     snd acc !! (r, c)
     = if decide (r = row /\ 1 <= c <= n)
       then Some (style_of (get_cell ws r c))
       else styles !! (r, c)) /\
  (n <= max_column ws -> max_column (fst acc) = max_column ws) /\
  (1 <= row -> sheet_wf ws -> sheet_wf (fst acc)).
Proof.
  cbv zeta. induction n as [|n IH].
  - simpl. split_and!; try done. intros r c. by cases.
  - rewrite fold_left_seq_S. replace (1 + n) with (S n) by lia.
    destruct IH as (Hc & Hr & Hd & Hs & Hm & Hwf).
    set (acc := fold_left (capture_cell row) (seq 1 n) (ws, styles)) in *.
    unfold capture_cell. simpl. split_and!.
    + intros r c. by rewrite get_cell_touch, Hc.
    + done.
    + done.
    + intros r c. rewrite get_cell_touch.
      destruct (decide ((row, S n) = (r, c))) as [[= <- <-]|Hne].
      * rewrite lookup_insert_eq, Hc. by cases.
      * rewrite lookup_insert_ne by done. rewrite Hs. by cases.
    + intros Hn. rewrite max_column_touch; [apply Hm; lia |].
      rewrite Hm by lia. done.
    + intros Hrow Hws. apply sheet_wf_touch; [done | lia | auto].
Qed.

Lemma row_height_insert ws (row r : nat) :
  row_height
    (with_row_dimensions ws (<[row := row_height ws row]> (row_dimensions ws))) r
  = row_height ws r.
Proof.
  unfold row_height at 1. simpl.
  destruct (decide (row = r)) as [->|Hne].
  - by rewrite lookup_insert_eq.
  - by rewrite lookup_insert_ne.
Qed.

Lemma capture_rows (R : nat) ws styles heights :
  let acc := fold_left capture_row (seq 1 R) (ws, styles, heights) in
  let ws' := fst (fst acc) in
  (forall r c, get_cell ws' r c = get_cell ws r c) /\
  (forall r, row_height ws' r = row_height ws r) /\
  column_dimensions ws' = column_dimensions ws /\
  max_column ws' = max_column ws /\
  (sheet_wf ws -> sheet_wf ws') /\
  (forall r c,
     snd (fst acc) !! (r, c)
     = if decide (1 <= r <= R /\ 1 <= c <= max_column ws)
       then Some (style_of (get_cell ws r c))
       else styles !! (r, c)) /\
  (forall r,
     snd acc !! r
     = if decide (1 <= r <= R) then Some (row_height ws r) else heights !! r).
Proof.
  cbv zeta. induction R as [|R IH].
  - simpl. split_and!; try done; intros; by cases.
  - rewrite fold_left_seq_S. replace (1 + R) with (S R) by lia.
    destruct IH as (Hc & Hh & Hd & Hm & Hwf & Hs & Hhs).
    destruct (fold_left capture_row (seq 1 R) (ws, styles, heights))
      as [[ws1 st1] hs1]. simpl in *.
    set (ws2 := with_row_dimensions ws1
                  (<[S R := row_height ws1 (S R)]> (row_dimensions ws1))).
    assert (max_column ws2 = max_column ws1) as Hm2 by done.
    destruct (capture_cells (S R) (max_column ws2) ws2 st1)
      as (Hc3 & Hr3 & Hd3 & Hs3 & Hm3 & Hwf3).
    destruct (fold_left (capture_cell (S R)) (seq 1 (max_column ws2)) (ws2, st1))
      as [ws3 st3]. simpl in *.
    split_and!.
    + intros r c. rewrite Hc3. unfold ws2. unfold get_cell. simpl. apply Hc.
    + intros r. transitivity (row_height ws2 r).
      * unfold row_height. by rewrite Hr3.
      * unfold ws2. rewrite row_height_insert. apply Hh.
    + by rewrite Hd3.
    + rewrite Hm3 by done. congruence.
    + intros Hws. apply Hwf3; [lia |]. intros r c. apply (Hwf Hws r c).
    + intros r c. rewrite Hs3, Hs, Hm2, Hm.
      assert (get_cell ws2 r c = get_cell ws r c) as ->.
      { unfold get_cell. simpl. apply Hc. }
      by cases.
    + intros r. destruct (decide (S R = r)) as [<-|Hne].
      * rewrite lookup_insert_eq, decide_True by lia. by rewrite Hh.
      * rewrite lookup_insert_ne by done. rewrite Hhs. by cases.
Qed.

(** What [capture_original_styling] returns: the style of every position
    of the sheet's extent, the height of every row of it, the widths of
    the column dimensions; the sheet reads as before. *)
Lemma capture_original_styling_spec ws :
  let '(ws', (styles, heights, widths)) := capture_original_styling ws in
  (forall r c, get_cell ws' r c = get_cell ws r c) /\
  (forall r, row_height ws' r = row_height ws r) /\
  column_dimensions ws' = column_dimensions ws /\
  (sheet_wf ws -> sheet_wf ws') /\
  (forall r c,
     styles !! (r, c)
     = if decide (1 <= r <= max_row ws /\ 1 <= c <= max_column ws)
       then Some (style_of (get_cell ws r c))
       else None) /\
  (forall r,
     heights !! r
     = if decide (1 <= r <= max_row ws) then Some (row_height ws r) else None) /\
  widths = column_dimensions ws.
Proof.
  unfold capture_original_styling.
  destruct (capture_rows (max_row ws) ws ∅ ∅)
    as (Hc & Hh & Hd & Hm & Hwf & Hs & Hhs).
  destruct (fold_left capture_row (seq 1 (max_row ws)) (ws, ∅, ∅))
    as [[ws1 st1] hs1]. simpl in *.
  split_and!; done.
Qed.

End Capturing.

(* ===================================================================== *)
(** * The rewritten sheet (C4, C5, C6)                                    *)
(* ===================================================================== *)

Lemma sheet_wfb_spec (ws : Worksheet) : sheet_wfb ws = true -> sheet_wf ws.
Proof.
  unfold sheet_wfb. rewrite forallb_forall. intros H r c [x Hx].
  assert (In ((r, c), x) (map_to_list (ws_cells ws))) as Hin
    by (by apply list_elem_of_In, elem_of_map_to_list).
  apply H in Hin. cbn [fst snd] in Hin.
  apply andb_true_iff in Hin as [?%Nat.leb_le ?%Nat.leb_le]. done.
Qed.

Lemma cell_value_restored styles (r c : nat) (cell : Cell) :
  cell_value (restored styles r c cell) = cell_value cell.
Proof. unfold restored. by destruct (styles !! (r, c)). Qed.

Lemma cell_value_paint (cell : Cell) : cell_value (paint cell) = cell_value cell.
Proof.
  unfold paint. destruct (py_eq _ (VNum 1)); [done |].
  by destruct (py_eq _ (VNum 0)).
Qed.

Lemma cell_value_formatted (n r : nat) (cell : Cell) :
  cell_value (formatted n r cell) = cell_value cell.
Proof. unfold formatted. repeat case_decide; try done. apply cell_value_paint. Qed.

Lemma concat_binary_nonempty (df : DataFrame) (bd : dict (list Z)) :
  bd <> [] -> frame_cols (concat_binary df bd) <> [].
Proof. destruct bd; [done |]. simpl. by destruct (frame_cols df). Qed.

(** The value of every cell of the rewritten sheet. *)
Lemma rewrite_sheet_value ws df bd styles heights widths (r c : nat) :
  sheet_wf ws -> bd <> [] ->
  cell_value (get_cell (rewrite_sheet ws df bd styles heights widths) r c)
  = default VNull (frame_value (concat_binary df bd) r c).
Proof.
  intros Hwf Hbd.
  destruct (rewrite_sheet_spec ws df bd styles heights widths Hwf
              (concat_binary_nonempty df bd Hbd)) as (Hc & _ & _).
  rewrite Hc. cbv zeta.
  set (written := default (new_cell VNull) _).
  transitivity (cell_value written).
  - repeat case_decide;
      rewrite ?cell_value_formatted, ?cell_value_restored; done.
  - unfold written. by destruct (frame_value _ r c).
Qed.

Lemma lookup_app_add {A} (l1 l2 : list A) (k : nat) :
  (l1 ++ l2) !! (length l1 + k) = l2 !! k.
Proof. rewrite lookup_app_r by lia. f_equal. lia. Qed.

Lemma frame_value_lookup (df : DataFrame) (r j : nat) (col : string * Series) :
  frame_cols df !! j = Some col ->
  frame_value df r (j + 1)
  = if decide (r = 1) then Some (VStr (fst col))
    else if decide (2 <= r <= frame_len df + 1)
         then Some (at_row (snd col) (r - 2))
         else None.
Proof.
  intros H. unfold frame_value. rewrite decide_True by lia.
  replace (j + 1 - 1) with j by lia. by rewrite H.
Qed.

Lemma columns_length (df : DataFrame) :
  length (columns df) = length (frame_cols df).
Proof. unfold columns. by rewrite length_map. Qed.

(** C4: in the sheet rewritten for a frame that gains indicator columns,
    the labels of the original columns are in row 1 in their order, every
    value of an original column is in the row of its index and the column
    of its label, the new columns follow the last original column in the
    order of the mapping, and no cell beyond these has a value. *)
Theorem rewritten_sheet_keeps_columns
    (ws : Worksheet) (df : DataFrame) (binary_data : dict (list Z))
    (styles : gmap (nat * nat) Style) (heights : gmap nat (option Z))
    (widths : gmap string (option Z)) :
  sheet_wf ws -> binary_data <> [] ->
  let ws' := rewrite_sheet ws df binary_data styles heights widths in
  let original_col_count := length (columns df) in
  (forall j name, columns df !! j = Some name ->
     cell_value (get_cell ws' 1 (j + 1)) = VStr name) /\
  (forall i j col, i < frame_len df -> frame_cols df !! j = Some col ->
     cell_value (get_cell ws' (i + 2) (j + 1)) = at_row (snd col) i) /\
  (forall k name series, binary_data !! k = Some (name, series) ->
     cell_value (get_cell ws' 1 (original_col_count + k + 1)) = VStr name /\
     forall i, i < frame_len df ->
       cell_value (get_cell ws' (i + 2) (original_col_count + k + 1))
       = at_row (map VNum series) i) /\
  (forall r c,
     frame_len df + 1 < r \/ original_col_count + length binary_data < c ->
     cell_value (get_cell ws' r c) = VNull).
Proof.
  intros Hwf Hbd. cbv zeta. split_and!.
  - intros j name Hj. rewrite rewrite_sheet_value by done.
    unfold columns in Hj. rewrite list_lookup_fmap in Hj.
    destruct (frame_cols df !! j) as [col|] eqn:E; [|done].
    injection Hj as <-.
    by rewrite (frame_value_lookup (concat_binary df binary_data) 1 j col
                  (lookup_app_l_Some _ _ _ _ E)).
  - intros i j col Hi Hj. rewrite rewrite_sheet_value by done.
    rewrite (frame_value_lookup (concat_binary df binary_data) _ j col
               (lookup_app_l_Some _ _ _ _ Hj)).
    simpl. cases. by replace (i + 2 - 2) with i by lia.
  - intros k name series Hk.
    assert (frame_cols (concat_binary df binary_data)
              !! (length (columns df) + k) = Some (name, map VNum series)) as E.
    { simpl. rewrite columns_length, lookup_app_add.
      change (map ?f ?l) with (f <$> l).
      rewrite list_lookup_fmap. unfold dict in *. by rewrite Hk. }
    split.
    + rewrite rewrite_sheet_value by done.
      by rewrite (frame_value_lookup _ 1 _ _ E).
    + intros i Hi. rewrite rewrite_sheet_value by done.
      rewrite (frame_value_lookup _ _ _ _ E).
      simpl. cases. by replace (i + 2 - 2) with i by lia.
  - intros r c Hout. rewrite rewrite_sheet_value by done.
    unfold frame_value. case_decide; [|done].
    destruct (frame_cols (concat_binary df binary_data) !! (c - 1)) as [col|] eqn:E;
      [|done].
    apply lookup_lt_Some in E. simpl in E.
    rewrite length_app, length_map, <- columns_length in E. simpl.
    destruct Hout as [Hr|Hc]; [|lia]. by cases.
Qed.

Lemma rewritten_sheet_keeps_columns_witness :
  cell_value
    (get_cell (rewrite_sheet Sample.sheet Sample.events Sample.new_columns ∅ ∅ ∅)
       1 (1 + 1))
  = VStr "Device Problem 1".
Proof.
  apply (proj1 (rewritten_sheet_keeps_columns Sample.sheet Sample.events
                  Sample.new_columns ∅ ∅ ∅
                  (sheet_wfb_spec Sample.sheet eq_refl)
                  ltac:(discriminate)) 1 "Device Problem 1").
  reflexivity.
Defined.


Lemma style_of_new_cell (v : value) : style_of (new_cell v) = style_of (new_cell VNull).
Proof. done. Qed.









(* ===================================================================== *)
(** * Further properties: what processing may change                      *)
(* ===================================================================== *)

Section Outcomes.

Context (read_sheet : Worksheet -> result RawFrame).

(** Validation always returns, and returns the world it was given. *)
Lemma validate_returns (path : string) (w : World) :
  exists verdict reason,
    validate_maude_file read_sheet path w = (Ok (verdict, reason), w).
Proof.
  destruct (fs w !! path) as [f|] eqn:Hf.
  2: { rewrite validate_missing by done. eauto. }
  assert (file_exists w path) as Hex by (unfold file_exists; eauto).
  destruct (PyStr.endswith (PyStr.lower path) ".xlsx") eqn:Hext.
  2: { rewrite validate_wrong_extension; [eauto | done |].
       unfold has_xlsx_extension. congruence. }
  destruct f as [|book].
  { rewrite validate_unreadable by done. eauto. }
  destruct (assoc "Events" book) as [ws|] eqn:Hws.
  2: { rewrite (validate_no_sheet _ _ _ book) by done. eauto. }
  destruct (read_sheet ws) as [raw|e] eqn:Hdf.
  2: { rewrite (validate_unparsed _ _ _ book ws e) by done. eauto. }
  rewrite (validate_read _ _ _ book ws raw) by done.
  destruct (text_labels raw) as [df|e]; [|eauto].
  destruct (forallb _ (columns df)); eauto.
Qed.

Lemma process_invalid (path : string) (w : World) (reason : string) :
  validate_maude_file read_sheet path w = (Ok (false, reason), w) ->
  process_maude_file read_sheet path w = (Ok false, w).
Proof.
  intros H. unfold process_maude_file. unfold mbind at 1. unfold IO_bind.
  by rewrite H.
Qed.

(** The outcomes of a run: nothing changes; or the backup is saved and
    the file after it; or the backup is saved and the save to the file is
    refused. *)
Lemma process_outcome (path : string) (w : World) :
  exists (b : bool) (w' : World),
    process_maude_file read_sheet path w = (Ok b, w') /\
    (w' = w \/
     is_Some (fs w !! path) /\
     writable w (backup_path_of path (strftime (clock w))) = true /\
     exists book',
       b = writable w path /\
       w' = mkWorld
              (if writable w path
               then <[path := Xlsx book']>
                      (<[backup_path_of path (strftime (clock w)) := Xlsx book']>
                         (fs w))
               else <[backup_path_of path (strftime (clock w)) := Xlsx book']>
                      (fs w))
              (writable w) (clock w)).
Proof.
  destruct (validate_returns path w) as (verdict & reason & Hval).
  destruct verdict.
  - destruct (validate_pass read_sheet path w w reason Hval)
      as (Hext & book & ws & df & col & Hf & Hws & Hdf & Hcol & Hsrc).
    rewrite (process_valid_file read_sheet path w book ws df col) by done.
    destruct (plan_binary_columns df) as [[[|kv bd]|]|e]; eauto.
    destruct (capture_original_styling ws) as [ws1 [[st hs] wd]]. cbv zeta.
    destruct (writable w (backup_path_of path (strftime (clock w)))) eqn:Hb;
      [|eauto].
    destruct (writable w path) eqn:Hp.
    + eexists true, _. split; [done |]. right.
      split_and!; [eauto | done |]. by eexists.
    + eexists false, _. split; [done |]. right.
      split_and!; [eauto | done |]. by eexists.
  - rewrite (process_invalid path w reason Hval). eauto.
Qed.


End Outcomes.


Section BatchRun.

Context (read_sheet : Worksheet -> result RawFrame).



End BatchRun.


(* ===================================================================== *)
(** * Further properties: extensions, discovery and backup paths          *)
(* ===================================================================== *)

Section PathFacts.




Lemma endswith_split (s p : string) :
  PyStr.endswith s p = true <-> exists stem, s = stem +:+ p.
Proof.
  split.
  - induction s as [|c s IH]; cbn [PyStr.endswith].
    + rewrite orb_false_r. intros H. apply String.eqb_eq in H. by exists "".
    + intros [H|H]%orb_true_iff.
      * apply String.eqb_eq in H. by exists "".
      * destruct (IH H) as [stem ->]. by exists (String c stem).
  - intros [stem ->]. induction stem as [|c stem IH].
    + rewrite append_nil. destruct p; cbn [PyStr.endswith];
        by rewrite String.eqb_refl.
    + rewrite append_cons. cbn [PyStr.endswith]. rewrite IH. apply orb_true_r.
Qed.

Lemma lower_append (a b : string) :
  PyStr.lower (a +:+ b) = PyStr.lower a +:+ PyStr.lower b.
Proof.
  induction a as [|c a IH]; [done |].
  rewrite append_cons. simpl. rewrite IH. by rewrite append_cons.
Qed.

Lemma append_length (a b : string) :
  String.length (a +:+ b) = String.length a + String.length b.
Proof.
  induction a as [|c a IH]; [done |]. rewrite append_cons. simpl. by rewrite IH.
Qed.



End PathFacts.



Section Workbooks.

Lemma set_sheet_titles (book : Workbook) (title : string) (ws : Worksheet) :
  map fst (set_sheet book title ws) = map fst book.
Proof.
  induction book as [|[t w] book IH]; simpl; [done |].
  destruct (String.eqb_spec title t); simpl; [done | by rewrite IH].
Qed.

Lemma assoc_set_sheet_eq (book : Workbook) (title : string) (ws ws0 : Worksheet) :
  assoc title book = Some ws0 -> assoc title (set_sheet book title ws) = Some ws.
Proof.
  induction book as [|[t w] book IH]; simpl; [done |].
  destruct (String.eqb_spec title t) as [->|Hne]; simpl.
  - by rewrite String.eqb_refl.
  - destruct (String.eqb_spec title t); [done | auto].
Qed.

Lemma assoc_set_sheet_ne (book : Workbook) (title other : string) (ws : Worksheet) :
  other <> title -> assoc other (set_sheet book title ws) = assoc other book.
Proof.
  intros Hne. induction book as [|[t w] book IH]; simpl; [done |].
  destruct (String.eqb_spec title t) as [->|Hne']; simpl.
  - by destruct (String.eqb_spec other t).
  - by rewrite IH.
Qed.

Lemma xlsx_extension_any_case (stem ext : string) :
  PyStr.lower ext = ".xlsx" -> has_xlsx_extension (stem +:+ ext).
Proof.
  intros H. unfold has_xlsx_extension. rewrite lower_append, H.
  apply endswith_split. eauto.
Qed.

End Workbooks.

(** X4: validation accepts the extension in any letter case: a readable
    workbook with an Events sheet whose labels are all texts, one of them a
    category column, passes under a name that ends in [.xlsx], [.XLSX],
    [.Xlsx], ... alike. *)
Theorem validation_ignores_extension_case
    (read_sheet : Worksheet -> result RawFrame) (w : World)
    (stem ext : string) (book : Workbook) (ws : Worksheet) (df : RawFrame)
    (col : string) :
  PyStr.lower ext = ".xlsx" ->
  fs w !! (stem +:+ ext) = Some (Xlsx book) ->
  assoc "Events" book = Some ws ->
  read_sheet ws = Ok df ->
  Forall (fun c => is_text_label c = true) (raw_labels df) ->
  LStr col ∈ raw_labels df -> is_source_col col = true ->
  validate_maude_file read_sheet (stem +:+ ext) w
  = (Ok (true, "File validated successfully"), w).
Proof.
  intros Hext Hf Hws Hdf Hall Hcol Hsrc.
  destruct (proj1 (text_labels_spec df) Hall) as [tdf Htext].
  apply text_labels_Ok in Htext. subst df.
  rewrite (validate_parsed read_sheet _ w book ws tdf);
    [| done | by apply xlsx_extension_any_case | done | done].
  assert (forallb (fun c => negb (is_source_col c)) (columns tdf) = false) as ->;
    [|done].
  apply some_category_column. apply raw_category_column. eauto.
Qed.

Lemma validation_ignores_extension_case_witness :
  validate_maude_file Sample.read_plain ("MAUDE_2024" +:+ ".XlsX")
    (Sample.world "MAUDE_2024.XlsX")
  = (Ok (true, "File validated successfully"), Sample.world "MAUDE_2024.XlsX").
Proof.
  eapply (validation_ignores_extension_case Sample.read_plain
            (Sample.world "MAUDE_2024.XlsX") "MAUDE_2024" ".XlsX" _ _ _
            "Device Problem 1").
  - reflexivity.
  - vm_compute. reflexivity.
  - vm_compute. reflexivity.
  - vm_compute. reflexivity.
  - vm_compute. by repeat constructor.
  - vm_compute. apply elem_of_cons. right. apply elem_of_cons. by left.
  - reflexivity.
Defined.

(** X5: when [.xlsx] does not occur in the path in lower case, processing
    creates no file: whatever it does to the file, the paths that exist
    afterwards are those that existed before, so a file it overwrites has no
    backup. *)
Theorem no_backup_without_lowercase_extension
    (read_sheet : Worksheet -> result RawFrame) (path : string) (w : World) :
  PyStr.contains ".xlsx" path = false ->
  exists (b : bool) (w' : World),
    process_maude_file read_sheet path w = (Ok b, w') /\
    forall p, is_Some (fs w' !! p) <-> is_Some (fs w !! p).
Proof.
  intros Hno.
  destruct (process_outcome read_sheet path w)
    as (b & w' & Hrun & [->|(Hex & Hb & book' & -> & ->)]).
  - by exists b, w.
  - eexists _, _. split; [done |]. intros p. simpl.
    rewrite (backup_path_without_match path _ Hno) in Hb |- *. rewrite Hb.
    destruct (decide (path = p)) as [->|?].
    + rewrite lookup_insert_eq. split; eauto.
    + by rewrite !lookup_insert_ne.
Qed.

Lemma no_backup_without_lowercase_extension_witness :
  exists (b : bool) (w' : World),
    process_maude_file Sample.read_plain "MAUDE_2024.XLSX"
      (Sample.world "MAUDE_2024.XLSX") = (Ok b, w') /\
    forall p, is_Some (fs w' !! p)
              <-> is_Some (fs (Sample.world "MAUDE_2024.XLSX") !! p).
Proof.
  apply (no_backup_without_lowercase_extension Sample.read_plain
           "MAUDE_2024.XLSX" (Sample.world "MAUDE_2024.XLSX")).
  reflexivity.
Defined.

(** X6: for a file named by a dot-free stem followed by [.xlsx] that gains
    columns, when the file system lets both saves through, processing
    succeeds and leaves the same workbook under the path and under
    [<stem>_backup_<timestamp>.xlsx], a different path: the workbook as
    loaded, with its sheets in the same order, every sheet other than
    Events as it was, and Events rewritten.  No other file changes. *)
Theorem processing_saves_backup_and_file
    (read_sheet : Worksheet -> result RawFrame) (w : World) (stem : string)
    (book : Workbook) (ws ws1 : Worksheet) (df : DataFrame) (col : string)
    (binary_data : dict (list Z)) (styles : gmap (nat * nat) Style)
    (heights : gmap nat (option Z)) (widths : gmap string (option Z)) :
  let path := stem +:+ ".xlsx" in
  let backup := stem +:+ "_backup_" +:+ strftime (clock w) +:+ ".xlsx" in
  let book' := set_sheet book "Events"
                 (rewrite_sheet ws1 df binary_data styles heights widths) in
  PyStr.contains "." stem = false ->
  fs w !! path = Some (Xlsx book) ->
  assoc "Events" book = Some ws ->
  read_sheet ws = Ok (raw_of df) ->
  col ∈ columns df -> is_source_col col = true ->
  plan_binary_columns df = Ok (Some binary_data) -> binary_data <> [] ->
  capture_original_styling ws = (ws1, (styles, heights, widths)) ->
  writable w backup = true -> writable w path = true ->
  exists w',
    process_maude_file read_sheet path w = (Ok true, w') /\
    backup <> path /\
    fs w' !! path = Some (Xlsx book') /\
    fs w' !! backup = Some (Xlsx book') /\
    (forall p, p <> path -> p <> backup -> fs w' !! p = fs w !! p) /\
    map fst book' = map fst book /\
    (forall title, title <> "Events" -> assoc title book' = assoc title book) /\
    assoc "Events" book'
    = Some (rewrite_sheet ws1 df binary_data styles heights widths).
Proof.
  intros path backup book' Hstem Hf Hws Hdf Hcol Hsrc Hplan Hbd Hcap Hwb Hwp.
  assert (has_xlsx_extension path) as Hext
    by (by apply xlsx_extension_any_case).
  assert (backup_path_of path (strftime (clock w)) = backup) as Hbackup
    by (by apply backup_path_plain_name).
  assert (backup <> path) as Hne.
  { intros Heq. apply (f_equal String.length) in Heq.
    unfold backup, path in Heq. rewrite !append_length in Heq. simpl in Heq. lia. }
  rewrite (process_valid_file read_sheet path w book ws df col) by done.
  rewrite Hplan, Hcap, Hbackup.
  destruct binary_data as [|kv bd]; [done |].
  cbv zeta. rewrite Hwb, Hwp.
  eexists. split; [done |]. simpl. split_and!.
  - done.
  - by rewrite lookup_insert_eq.
  - rewrite lookup_insert_ne by done. by rewrite lookup_insert_eq.
  - intros p Hp Hb. by rewrite !lookup_insert_ne.
  - apply set_sheet_titles.
  - intros title Ht. by apply assoc_set_sheet_ne.
  - by eapply assoc_set_sheet_eq.
Qed.

Lemma processing_saves_backup_and_file_witness :
  exists w',
    process_maude_file Sample.read_plain ("MAUDE_2024" +:+ ".xlsx")
      (Sample.world "MAUDE_2024.xlsx") = (Ok true, w') /\
    "MAUDE_2024" +:+ "_backup_" +:+
      strftime (clock (Sample.world "MAUDE_2024.xlsx")) +:+ ".xlsx"
    <> "MAUDE_2024" +:+ ".xlsx".
Proof.
  destruct (capture_original_styling Sample.sheet)
    as [ws1 [[styles heights] widths]] eqn:Hcap.
  destruct (processing_saves_backup_and_file Sample.read_plain
              (Sample.world "MAUDE_2024.xlsx") "MAUDE_2024"
              [("Events", Sample.sheet)] Sample.sheet ws1 Sample.events
              "Device Problem 1" Sample.new_columns styles heights widths)
    as (w' & Hrun & Hne & _).
  - reflexivity.
  - vm_compute. reflexivity.
  - reflexivity.
  - vm_compute. reflexivity.
  - apply elem_of_cons. right. apply elem_of_cons. by left.
  - reflexivity.
  - vm_compute. reflexivity.
  - discriminate.
  - exact Hcap.
  - reflexivity.
  - reflexivity.
  - exists w'. by split.
Defined.

(** X7: running the processing twice: when the file system lets the saves
    of the first run through and the sheet that run writes parses back to
    the frame with its new columns, a second run on the result succeeds and
    changes nothing, neither the file nor its backup. *)
Theorem second_processing_changes_nothing
    (read_sheet : Worksheet -> result RawFrame) (w : World) (path : string)
    (book : Workbook) (ws ws1 : Worksheet) (df : DataFrame) (col : string)
    (binary_data : dict (list Z)) (styles : gmap (nat * nat) Style)
    (heights : gmap nat (option Z)) (widths : gmap string (option Z)) :
  has_xlsx_extension path ->
  fs w !! path = Some (Xlsx book) ->
  assoc "Events" book = Some ws ->
  read_sheet ws = Ok (raw_of df) ->
  col ∈ columns df -> is_source_col col = true ->
  plan_binary_columns df = Ok (Some binary_data) ->
  capture_original_styling ws = (ws1, (styles, heights, widths)) ->
  read_sheet (rewrite_sheet ws1 df binary_data styles heights widths)
  = Ok (raw_of (concat_binary df binary_data)) ->
  writable w (backup_path_of path (strftime (clock w))) = true ->
  writable w path = true ->
  exists w',
    process_maude_file read_sheet path w = (Ok true, w') /\
    process_maude_file read_sheet path w' = (Ok true, w').
Proof.
  intros Hext Hf Hws Hdf Hcol Hsrc Hplan Hcap Hback Hwb Hwp.
  rewrite (process_valid_file read_sheet path w book ws df col) by done.
  rewrite Hplan, Hcap.
  destruct binary_data as [|kv bd].
  - exists w. split; [done |].
    rewrite (process_valid_file read_sheet path w book ws df col) by done.
    by rewrite Hplan.
  - cbv zeta. rewrite Hwb, Hwp. eexists. split; [done |].
    set (bd' := kv :: bd) in *.
    set (ws' := rewrite_sheet ws1 df bd' styles heights widths) in *.
    rewrite (process_valid_file read_sheet path _
               (set_sheet book "Events" ws') ws' (concat_binary df bd') col).
    + by rewrite (plan_after_run df bd' Hplan).
    + simpl. apply lookup_insert_eq.
    + done.
    + by eapply assoc_set_sheet_eq.
    + done.
    + rewrite columns_concat_binary. apply elem_of_app. by left.
    + done.
Qed.

Lemma second_processing_changes_nothing_witness :
  exists w',
    process_maude_file Sample.read_plain "MAUDE_2024.xlsx"
      (Sample.world "MAUDE_2024.xlsx") = (Ok true, w') /\
    process_maude_file Sample.read_plain "MAUDE_2024.xlsx" w' = (Ok true, w').
Proof.
  apply (second_processing_changes_nothing Sample.read_plain
           (Sample.world "MAUDE_2024.xlsx") "MAUDE_2024.xlsx"
           [("Events", Sample.sheet)] Sample.sheet
           (fst (capture_original_styling Sample.sheet))
           Sample.events "Device Problem 1" Sample.new_columns
           (fst (fst (snd (capture_original_styling Sample.sheet))))
           (snd (fst (snd (capture_original_styling Sample.sheet))))
           (snd (snd (capture_original_styling Sample.sheet)))).
  - reflexivity.
  - vm_compute. reflexivity.
  - reflexivity.
  - vm_compute. reflexivity.
  - apply elem_of_cons. right. apply elem_of_cons. by left.
  - reflexivity.
  - vm_compute. reflexivity.
  - by destruct (capture_original_styling Sample.sheet) as [? [[? ?] ?]].
  - vm_compute. reflexivity.
  - reflexivity.
  - reflexivity.
Defined.

(* ===================================================================== *)
(** * Further properties: names, the detector and the builder             *)
(* ===================================================================== *)

Section NameFacts.

Lemma has_char_append (a : ascii) (x y : string) :
  has_char a (x +:+ y) = has_char a x || has_char a y.
Proof.
  induction x as [|c x IH]; [done |].
  rewrite append_cons. simpl. by rewrite IH, orb_assoc.
Qed.

Lemma sanitize_by_char_append (x y : string) :
  sanitize_by_char (x +:+ y) = sanitize_by_char x +:+ sanitize_by_char y.
Proof.
  induction x as [|c x IH]; [done |].
  rewrite append_cons. simpl. by rewrite IH, append_assoc.
Qed.

Lemma sanitize_char_length (c : ascii) : String.length (sanitize_char c) <= 1.
Proof. destruct c as [[] [] [] [] [] [] [] []]; simpl; lia. Qed.

End NameFacts.

(** X8: a sanitized value contains no space, comma, parenthesis or slash; it
    is not longer than the value; and sanitizing it again changes nothing,
    so a value that is already clean names itself. *)
Theorem sanitized_value_is_clean (s : string) :
  has_char " " (sanitize s) = false /\
  has_char "," (sanitize s) = false /\
  has_char "(" (sanitize s) = false /\
  has_char ")" (sanitize s) = false /\
  has_char "/" (sanitize s) = false /\
  String.length (sanitize s) <= String.length s /\
  sanitize (sanitize s) = sanitize s.
Proof.
  rewrite !sanitize_by_char_eq.
  assert (forall a, In a [" "; ","; "("; ")"; "/"]%char ->
            has_char a (sanitize_by_char s) = false) as Hclean.
  { intros a Ha. induction s as [|c s IH]; [done |].
    simpl. rewrite has_char_append, IH, orb_false_r.
    simpl in Ha.
    destruct Ha as [<-|[<-|[<-|[<-|[<-|[]]]]]];
      destruct c as [[] [] [] [] [] [] [] []]; reflexivity. }
  split_and!; try (apply Hclean; simpl; tauto); clear Hclean.
  - induction s as [|c s IH]; [done |].
    cbn [sanitize_by_char].
    change (String.length (String c s)) with (S (String.length s)).
    rewrite append_length. pose proof (sanitize_char_length c). lia.
  - induction s as [|c s IH]; [done |].
    simpl. rewrite sanitize_by_char_append, IH. f_equal.
    destruct c as [[] [] [] [] [] [] [] []]; reflexivity.
Qed.

Section DetectorFacts.

Lemma check_existing_elem (df : DataFrame) (col : string) :
  col ∈ check_existing_binary_columns df <->
  col ∈ columns df /\ has_indicator_prefix col = true /\
  is_source_col col = false.
Proof.
  rewrite check_existing_alt, list_elem_of_In, filter_In, <- list_elem_of_In.
  rewrite andb_true_iff, negb_true_iff. tauto.
Qed.

End DetectorFacts.

(** X9: the detector reports, in column order, exactly the columns that start
    with one of the three prefixes and contain none of the three category
    substrings; so every column that bears a name the builder can make is
    reported, and a source column never is. *)
Theorem existing_indicators_are_detected (df : DataFrame) :
  (forall col,
     col ∈ check_existing_binary_columns df <->
     col ∈ columns df /\ has_indicator_prefix col = true /\
     is_source_col col = false) /\
  sublist (check_existing_binary_columns df) (columns df) /\
  (forall prefix s,
     prefix ∈ indicator_prefixes ->
     prefix +:+ sanitize s ∈ columns df ->
     prefix +:+ sanitize s ∈ check_existing_binary_columns df).
Proof.
  split_and!.
  - apply check_existing_elem.
  - unfold check_existing_binary_columns.
    induction (columns df) as [|c cols IH] at 2 3; simpl; [constructor |].
    destruct (_ && _); by constructor.
  - intros prefix s Hp Hin. apply check_existing_elem.
    assert (indicator_name (prefix +:+ sanitize s)) as Hname
      by (by exists prefix, s).
    split_and!; [done | by apply indicator_name_prefix
                | by apply indicator_name_not_source].
Qed.

Section BuilderEntries.

Lemma dict_set_entries {A} (d : dict A) (k : string) (a : A) (kv : string * A) :
  kv ∈ dict_set d k a -> kv = (k, a) \/ kv ∈ d.
Proof.
  induction d as [|[k' a'] d IH]; simpl.
  - intros ->%list_elem_of_singleton. by left.
  - destruct (String.eqb_spec k k') as [->|Hne].
    + intros [->|?]%elem_of_cons; [by left | right; by right].
    + intros [->|?]%elem_of_cons; [right; by left |].
      destruct IH as [?|?]; [done | by left | right; by right].
Qed.

Context (df : DataFrame) (prefix : string) (cols existing : list string).

(** Every entry of the result was there before or is the any-of column of
    a value, under the value's name, which no existing column has. *)
Lemma add_indicators_entries (values : list value) (d d' : dict (list Z)) :
  add_indicators df prefix values cols existing d = Ok d' ->
  forall kv, kv ∈ d' ->
    kv ∈ d \/
    exists s, VStr s ∈ values /\
      kv = (prefix +:+ sanitize s, any_eq df cols (VStr s)) /\
      prefix +:+ sanitize s ∉ existing.
Proof.
  revert d. induction values as [|v values IH]; intros d; simpl.
  - intros [= <-] kv Hkv. by left.
  - destruct v as [|s|n]; try done. intros H%add_indicators_step_inv kv Hkv.
    destruct (IH _ H kv Hkv) as [Hd|(s' & Hs' & -> & Hex)].
    + destruct (mem_str (prefix +:+ sanitize s) existing) eqn:Hm; simpl in Hd;
        [by left |].
      apply dict_set_entries in Hd as [->|Hd]; [|by left].
      right. exists s. split_and!; [set_solver | done | by apply mem_str_false].
    + right. exists s'. split_and!; [set_solver | done | done].
Qed.

(** With the source columns in the frame, a value that is not a text
    stops the loop with [AttributeError]. *)
Lemma add_indicators_raises (values : list value) (d : dict (list Z)) :
  has_cols df cols = true ->
  ~ Forall (fun v => is_str v = true) values ->
  add_indicators df prefix values cols existing d = Raise AttributeError.
Proof.
  intros Hcols. revert d. induction values as [|v values IH]; intros d Hv.
  - destruct Hv. constructor.
  - destruct v as [|s|n]; try done.
    rewrite add_indicators_step, Hcols.
    destruct (mem_str _ existing); apply IH; intros Hall; apply Hv;
      by constructor.
Qed.

(** The loop raises nothing but the two errors. *)
Lemma add_indicators_error (values : list value) (d : dict (list Z)) (e : exn) :
  add_indicators df prefix values cols existing d = Raise e ->
  e = AttributeError \/ e = KeyError.
Proof.
  revert d. induction values as [|v values IH]; intros d; [done |].
  destruct v as [|s|n]; [simpl; intros [= <-]; by left | |
                         simpl; intros [= <-]; by left].
  rewrite add_indicators_step.
  destruct (mem_str _ existing); [apply IH |].
  destruct (has_cols df cols); [apply IH |]. intros [= <-]. by right.
Qed.

(** On text values the loop returns when it can select its columns or has
    no column to compute, and raises [KeyError] otherwise. *)
Lemma add_indicators_on_text (values : list value) (d : dict (list Z)) :
  Forall (fun v => is_str v = true) values ->
  can_select df prefix values cols existing /\
    (exists d', add_indicators df prefix values cols existing d = Ok d') \/
  ~ can_select df prefix values cols existing /\
    add_indicators df prefix values cols existing d = Raise KeyError.
Proof.
  intros Hv. unfold can_select.
  destruct (has_cols df cols) eqn:Hcols.
  { left. split; [by left | by apply add_indicators_total]. }
  revert d. induction Hv as [|v values Hs _ IH]; intros d.
  - left. split; [|by eexists]. right. intros s Hin. by apply elem_of_nil in Hin.
  - destruct v as [|s|n]; try done.
    rewrite add_indicators_step, Hcols.
    destruct (mem_str (prefix +:+ sanitize s) existing) eqn:Hm.
    + apply mem_str_elem_of in Hm.
      destruct (IH d) as [[[?|Hcov] Hok]|[Hno Hraise]]; [done | |].
      * left. split; [|done]. right. intros s' [[= ->]|?]%elem_of_cons; auto.
      * right. split; [|done]. intros [?|Hcov]; [done |].
        apply Hno. right. intros s' Hs'. apply Hcov. set_solver.
    + right. split; [|done]. intros [?|Hcov]; [done |].
      apply mem_str_false in Hm. apply Hm, Hcov. set_solver.
Qed.

Lemma add_indicators_Ok_can_select (values : list value) (d d' : dict (list Z)) :
  add_indicators df prefix values cols existing d = Ok d' ->
  can_select df prefix values cols existing.
Proof.
  intros H.
  destruct (add_indicators_on_text values d) as [[? _]|[_ Hraise]];
    [by eapply add_indicators_text | done | congruence].
Qed.

End BuilderEntries.

Lemma create_binary_columns_entries df dv pv ov dc pc oc existing bd :
  create_binary_columns df dv pv ov dc pc oc existing = Ok bd ->
  forall name series, (name, series) ∈ bd ->
    exists prefix values cols s,
      (prefix, values, cols) ∈
        [("Device_", dv, dc); ("Patient_", pv, pc); ("Outcome_", ov, oc)] /\
      VStr s ∈ values /\ name = prefix +:+ sanitize s /\
      series = any_eq df cols (VStr s) /\ name ∉ existing.
Proof.
  unfold create_binary_columns. intros H name series Hin.
  destruct (add_indicators df "Device_" dv dc existing []) as [d1|] eqn:H1;
    [|done].
  simpl in H.
  destruct (add_indicators df "Patient_" pv pc existing d1) as [d2|] eqn:H2;
    [|done].
  simpl in H. rename H into H3.
  destruct (add_indicators_entries _ _ _ _ _ _ _ H3 _ Hin)
    as [Hin2|(s & Hs & [= -> ->] & Hex)].
  2: { exists "Outcome_", ov, oc, s. split_and!; try done. set_solver. }
  destruct (add_indicators_entries _ _ _ _ _ _ _ H2 _ Hin2)
    as [Hin1|(s & Hs & [= -> ->] & Hex)].
  2: { exists "Patient_", pv, pc, s. split_and!; try done. set_solver. }
  destruct (add_indicators_entries _ _ _ _ _ _ _ H1 _ Hin1)
    as [Hin0|(s & Hs & [= -> ->] & Hex)].
  { by apply elem_of_nil in Hin0. }
  exists "Device_", dv, dc, s. split_and!; try done. set_solver.
Qed.

Lemma any_eq_length (df : DataFrame) (cols : list string) (v : value) :
  length (any_eq df cols v) = frame_len df.
Proof. unfold any_eq. by rewrite length_map, length_seq. Qed.

(** X10: every column the builder returns has one entry per row of the frame,
    each 0 or 1, and is 0 in every row in which all source columns of its
    category are empty. *)
Theorem new_columns_are_binary df dv pv ov dc pc oc existing bd :
  create_binary_columns df dv pv ov dc pc oc existing = Ok bd ->
  forall name series, (name, series) ∈ bd ->
    length series = frame_len df /\
    Forall (fun z => z = 0%Z \/ z = 1%Z) series /\
    forall i, i < frame_len df ->
      (forall c, c ∈ dc ++ pc ++ oc -> at_row (getitem df c) i = VNull) ->
      series !! i = Some 0%Z.
Proof.
  intros H name series Hin.
  destruct (create_binary_columns_entries _ _ _ _ _ _ _ _ _ H _ _ Hin)
    as (prefix & values & cols & s & Hcat & Hs & -> & -> & _).
  split_and!.
  - apply any_eq_length.
  - apply Forall_forall. intros z Hz. unfold any_eq in Hz.
    apply list_elem_of_fmap in Hz as (i & -> & _).
    destruct (existsb _ cols); auto.
  - intros i Hi Hnull.
    destruct (any_eq_row df cols s i Hi) as (b & Hb & [->| ->] & Hiff); [|done].
    destruct (proj1 Hiff eq_refl) as (c & Hc & Hv).
    rewrite Hnull in Hv; [done |].
    repeat (apply elem_of_cons in Hcat as [[= -> -> ->]|Hcat]);
      [set_solver.. | by apply elem_of_nil in Hcat].
Qed.

Lemma new_columns_are_binary_witness :
  length [0; 1]%Z = frame_len Sample.events /\
  Forall (fun z => z = 0%Z \/ z = 1%Z) [0; 1]%Z.
Proof.
  destruct (new_columns_are_binary Sample.events
              [VStr "Corrosion"; VStr "Fracture"] [] []
              ["Device Problem 1"] [] [] [] Sample.new_columns eq_refl
              "Device_Corrosion" [0; 1]%Z) as (Hlen & Hbin & _).
  - apply elem_of_cons. by left.
  - by split.
Defined.

Section LastValue.

Context (df : DataFrame) (prefix : string) (cols existing : list string).

(** Of the values that get one name, the last one in the list fills the
    column. *)
Lemma add_indicators_last (before after : list value) (s : string)
    (d d' : dict (list Z)) :
  add_indicators df prefix (before ++ VStr s :: after) cols existing d = Ok d' ->
  prefix +:+ sanitize s ∉ existing ->
  (forall s', VStr s' ∈ after -> sanitize s' <> sanitize s) ->
  assoc (prefix +:+ sanitize s) d' = Some (any_eq df cols (VStr s)).
Proof.
  intros H Hex Hlast. revert d H.
  induction before as [|v before IH]; intros d H.
  - apply add_indicators_step_inv in H.
    apply mem_str_false in Hex. rewrite Hex in H. simpl in H.
    rewrite (add_indicators_other _ _ _ _ _ _ _ _ H).
    { apply assoc_dict_set_eq. }
    intros s' Hs' Heq. apply String.app_inj in Heq. by apply (Hlast s').
  - destruct v as [|s0|n]; try done.
    apply add_indicators_step_inv in H. by apply (IH _ H).
Qed.

End LastValue.

(** X11: when several values of a category are given one column name, the
    column holds the indicator of the last of them, in the order of the
    value list: 1 in the rows where a source column of the category has
    that value and 0 in the others. *)
Theorem last_value_fills_the_column
    df dv pv ov dc pc oc existing bd prefix before s after cols :
  create_binary_columns df dv pv ov dc pc oc existing = Ok bd ->
  (prefix, before ++ VStr s :: after, cols) ∈
    [("Device_", dv, dc); ("Patient_", pv, pc); ("Outcome_", ov, oc)] ->
  prefix +:+ sanitize s ∉ existing ->
  (forall s', VStr s' ∈ after -> sanitize s' <> sanitize s) ->
  exists series,
    assoc (prefix +:+ sanitize s) bd = Some series /\
    forall i, i < frame_len df ->
      (series !! i = Some 1%Z <->
         exists c, c ∈ cols /\ at_row (getitem df c) i = VStr s) /\
      (series !! i = Some 0%Z <->
         forall c, c ∈ cols -> at_row (getitem df c) i <> VStr s).
Proof.
  unfold create_binary_columns. intros H Hcat Hex Hlast.
  destruct (add_indicators df "Device_" dv dc existing []) as [d1|] eqn:H1;
    [|done].
  simpl in H.
  destruct (add_indicators df "Patient_" pv pc existing d1) as [d2|] eqn:H2;
    [|done].
  simpl in H. rename H into H3.
  exists (any_eq df cols (VStr s)). split.
  - repeat (apply elem_of_cons in Hcat as [[= -> <- ->]|Hcat]).
    + rewrite (add_indicators_other _ _ _ _ _ _ _ _ H3).
      2: { intros. apply indicator_prefix_distinct; set_solver. }
      rewrite (add_indicators_other _ _ _ _ _ _ _ _ H2).
      2: { intros. apply indicator_prefix_distinct; set_solver. }
      by apply (add_indicators_last _ _ _ _ _ _ _ _ _ H1).
    + rewrite (add_indicators_other _ _ _ _ _ _ _ _ H3).
      2: { intros. apply indicator_prefix_distinct; set_solver. }
      by apply (add_indicators_last _ _ _ _ _ _ _ _ _ H2).
    + by apply (add_indicators_last _ _ _ _ _ _ _ _ _ H3).
    + by apply elem_of_nil in Hcat.
  - intros i Hi.
    destruct (any_eq_row df cols s i Hi) as (b & Hb & Hbit & Hiff).
    rewrite Hb. split.
    + rewrite <- Hiff. split; [by intros [= ->] | by intros ->].
    + split.
      * intros [= ->] c Hc Hv.
        assert (0 = 1)%Z; [|done]. apply Hiff. eauto.
      * intros Hnone. destruct Hbit as [->| ->]; [|done].
        destruct (proj1 Hiff eq_refl) as (c & Hc & Hv). by destruct (Hnone c Hc).
Qed.

Lemma last_value_fills_the_column_witness :
  exists series,
    assoc "Device_Leak_Splash" [("Device_Leak_Splash", [1; 0]%Z)] = Some series /\
    series !! 0 = Some 1%Z.
Proof.
  destruct (last_value_fills_the_column Sample.colliding
              [VStr "Leak Splash"; VStr "Leak/Splash"] [] []
              ["Device Problem 1"] [] [] [] [("Device_Leak_Splash", [1; 0]%Z)]
              "Device_" [VStr "Leak Splash"] "Leak/Splash" []
              ["Device Problem 1"]) as (series & Hs & Hrows).
  - vm_compute. reflexivity.
  - apply elem_of_cons. by left.
  - vm_compute. intros H. by apply elem_of_nil in H.
  - intros s' H. by apply elem_of_nil in H.
  - exists series. split; [exact Hs |].
    apply (Hrows 0); [vm_compute; lia |].
    exists "Device Problem 1". split; [apply elem_of_cons; by left |].
    vm_compute. reflexivity.
Defined.

Lemma create_binary_columns_text df dv pv ov dc pc oc existing bd :
  create_binary_columns df dv pv ov dc pc oc existing = Ok bd ->
  Forall (fun v => is_str v = true) (dv ++ pv ++ ov).
Proof.
  unfold create_binary_columns. intros H.
  destruct (add_indicators df "Device_" dv dc existing []) as [d1|] eqn:H1;
    [|done].
  simpl in H.
  destruct (add_indicators df "Patient_" pv pc existing d1) as [d2|] eqn:H2;
    [|done].
  simpl in H. rewrite !Forall_app. split_and!.
  - by eapply add_indicators_text.
  - by eapply add_indicators_text.
  - by eapply add_indicators_text.
Qed.

(** X12: the builder returns its columns exactly when every value it is
    given is a text and each of its three loops can select its source
    columns in the frame or has no column to compute.  It raises nothing
    but [AttributeError], the failure of [.replace] on a value that is not
    a text, and [KeyError], the failure of [df[cols]] on a label that is
    not in the frame: the first when the source columns are all in the
    frame and some value is not a text, the second when the values are
    all texts and some loop has a column to compute from a label that is
    missing. *)
Theorem builder_needs_text_values df dv pv ov dc pc oc existing :
  ((exists bd, create_binary_columns df dv pv ov dc pc oc existing = Ok bd) <->
   Forall (fun v => is_str v = true) (dv ++ pv ++ ov) /\
   can_select df "Device_" dv dc existing /\
   can_select df "Patient_" pv pc existing /\
   can_select df "Outcome_" ov oc existing) /\
  (forall e, create_binary_columns df dv pv ov dc pc oc existing = Raise e ->
     e = AttributeError \/ e = KeyError) /\
  (has_cols df dc = true -> has_cols df pc = true -> has_cols df oc = true ->
   ~ Forall (fun v => is_str v = true) (dv ++ pv ++ ov) ->
   create_binary_columns df dv pv ov dc pc oc existing = Raise AttributeError) /\
  (Forall (fun v => is_str v = true) (dv ++ pv ++ ov) ->
   ~ (can_select df "Device_" dv dc existing /\
      can_select df "Patient_" pv pc existing /\
      can_select df "Outcome_" ov oc existing) ->
   create_binary_columns df dv pv ov dc pc oc existing = Raise KeyError).
Proof.
  split_and!.
  - split.
    + intros [bd H]. split; [by eapply create_binary_columns_text |].
      unfold create_binary_columns in H.
      destruct (add_indicators df "Device_" dv dc existing []) as [d1|] eqn:H1;
        [|done].
      simpl in H.
      destruct (add_indicators df "Patient_" pv pc existing d1) as [d2|] eqn:H2;
        [|done].
      simpl in H. split_and!; by eapply add_indicators_Ok_can_select.
    + rewrite !Forall_app. intros ((Hd & Hp & Ho) & Cd & Cp & Co).
      unfold create_binary_columns.
      destruct (add_indicators_on_text df "Device_" dc existing dv [] Hd)
        as [[_ [d1 ->]]|[? _]]; [|done]. simpl.
      destruct (add_indicators_on_text df "Patient_" pc existing pv d1 Hp)
        as [[_ [d2 ->]]|[? _]]; [|done]. simpl.
      by destruct (add_indicators_on_text df "Outcome_" oc existing ov d2 Ho)
        as [[_ ?]|[? _]].
  - intros e. unfold create_binary_columns.
    destruct (add_indicators df "Device_" dv dc existing []) as [d1|e1] eqn:H1.
    2: { simpl. intros [= <-]. by eapply add_indicators_error. }
    simpl.
    destruct (add_indicators df "Patient_" pv pc existing d1) as [d2|e2] eqn:H2.
    2: { simpl. intros [= <-]. by eapply add_indicators_error. }
    simpl. apply add_indicators_error.
  - intros Cd Cp Co Hn. unfold create_binary_columns.
    destruct (decide (Forall (fun v => is_str v = true) dv)) as [Hd|Hd].
    2: { by rewrite (add_indicators_raises df "Device_" dc existing dv [] Cd Hd). }
    destruct (add_indicators_total df "Device_" dc existing dv [] Cd Hd)
      as [d1 ->]. simpl.
    destruct (decide (Forall (fun v => is_str v = true) pv)) as [Hp|Hp].
    2: { by rewrite (add_indicators_raises df "Patient_" pc existing pv d1 Cp Hp). }
    destruct (add_indicators_total df "Patient_" pc existing pv d1 Cp Hp)
      as [d2 ->]. simpl.
    apply add_indicators_raises; [done |]. intros Ho. apply Hn.
    rewrite !Forall_app. done.
  - rewrite !Forall_app. intros (Hd & Hp & Ho) Hn.
    unfold create_binary_columns.
    destruct (add_indicators_on_text df "Device_" dc existing dv [] Hd)
      as [[Cd [d1 ->]]|[_ ->]]; [|done]. simpl.
    destruct (add_indicators_on_text df "Patient_" pc existing pv d1 Hp)
      as [[Cp [d2 ->]]|[_ ->]]; [|done]. simpl.
    destruct (add_indicators_on_text df "Outcome_" oc existing ov d2 Ho)
      as [[Co _]|[_ ->]]; [|done].
    by destruct Hn.
Qed.

Section PlanFacts.

Lemma get_unique_values_Ok_inv (df : DataFrame) (patterns : list string)
    (vs : list value) (m : list string) :
  get_unique_values df patterns = Ok (vs, m) ->
  forall v, v ∈ vs <->
    v <> VNull /\
    exists pattern col, pattern ∈ patterns /\ col ∈ columns df /\
      PyStr.contains pattern col = true /\ v ∈ getitem df col.
Proof.
  intros H v. destruct (collect_patterns_spec df patterns) as [Hu _].
  rewrite <- Hu. unfold get_unique_values in H.
  destruct (collect_patterns df patterns) as [u0 m0]. simpl in *.
  unfold sorted in H. destruct (comparable (elements u0)); [|done].
  simpl in H. injection H as <- <-.
  by rewrite merge_sort_Permutation, elem_of_elements.
Qed.

Lemma get_unique_values_none (df : DataFrame) (patterns : list string) :
  (forall pattern col v, pattern ∈ patterns -> col ∈ columns df ->
     PyStr.contains pattern col = true -> v ∈ getitem df col -> v = VNull) ->
  exists m, get_unique_values df patterns = Ok ([], m).
Proof.
  intros Hnull. destruct (collect_patterns_spec df patterns) as [Hu _].
  unfold get_unique_values.
  destruct (collect_patterns df patterns) as [u0 m0]. simpl in *.
  assert (u0 = ∅) as ->.
  { apply elem_of_equiv_empty_L. intros v [Hv (p & col & Hp & Hc & Hm & Hin)]%Hu.
    apply Hv. by apply (Hnull p col). }
  rewrite elements_empty. by exists m0.
Qed.

Lemma source_pattern_col (pattern col : string) :
  pattern ∈ ["Device Problem"; "Patient Problem"; "Patient Outcome"] ->
  PyStr.contains pattern col = true -> is_source_col col = true.
Proof.
  intros Hp Hc. unfold is_source_col.
  repeat (apply elem_of_cons in Hp as [->|Hp];
          [rewrite Hc; by rewrite ?orb_true_r |]).
  by apply elem_of_nil in Hp.
Qed.

(** With a value that is not a text in a category column, the plan is
    never reached: sorting or naming raises. *)
Lemma plan_raises_on_non_text (df : DataFrame) (pattern col : string)
    (v : value) :
  pattern ∈ ["Device Problem"; "Patient Problem"; "Patient Outcome"] ->
  col ∈ columns df -> PyStr.contains pattern col = true ->
  v ∈ getitem df col -> v <> VNull -> is_str v = false ->
  exists e, plan_binary_columns df = Raise e.
Proof.
  intros Hp Hcol Hc Hv Hnn Hnt.
  destruct (plan_binary_columns df) as [x|e] eqn:Hplan; [|by exists e].
  exfalso. unfold plan_binary_columns in Hplan.
  destruct (get_unique_values df ["Device Problem"]) as [[dv dc]|] eqn:Hd;
    [|done].
  destruct (get_unique_values df ["Patient Problem"]) as [[pv pc]|] eqn:Hpp;
    [|done].
  destruct (get_unique_values df ["Patient Outcome"]) as [[ov oc]|] eqn:Ho;
    [|done].
  simpl in Hplan.
  assert (v ∈ dv ++ pv ++ ov) as Hin.
  { rewrite !elem_of_app.
    repeat (apply elem_of_cons in Hp as [->|Hp]).
    - left. apply (get_unique_values_Ok_inv _ _ _ _ Hd).
      split; [done |]. exists "Device Problem", col. set_solver.
    - right. left. apply (get_unique_values_Ok_inv _ _ _ _ Hpp).
      split; [done |]. exists "Patient Problem", col. set_solver.
    - right. right. apply (get_unique_values_Ok_inv _ _ _ _ Ho).
      split; [done |]. exists "Patient Outcome", col. set_solver.
    - by apply elem_of_nil in Hp. }
  assert (exists bd, create_binary_columns df dv pv ov dc pc oc
                       (check_existing_binary_columns df) = Ok bd) as [bd Hbd].
  { destruct dv, pv, ov; simpl in Hplan;
      try (by apply elem_of_nil in Hin);
      match type of Hplan with
      | context [create_binary_columns ?a ?b ?c ?d ?e ?f ?g ?h] =>
          destruct (create_binary_columns a b c d e f g h) as [bd|] eqn:Hbd;
          [by exists bd | done]
      end. }
  apply create_binary_columns_text in Hbd.
  rewrite Forall_forall in Hbd. specialize (Hbd v Hin). congruence.
Qed.

Lemma plan_none_without_values (df : DataFrame) :
  (forall col v, col ∈ columns df -> is_source_col col = true ->
     v ∈ getitem df col -> v = VNull) ->
  plan_binary_columns df = Ok None.
Proof.
  intros Hnull. unfold plan_binary_columns.
  destruct (get_unique_values_none df ["Device Problem"]) as [dc ->].
  { intros p col v Hp Hcol Hc. apply Hnull; [done |].
    apply (source_pattern_col p); [set_solver | done]. }
  destruct (get_unique_values_none df ["Patient Problem"]) as [pc ->].
  { intros p col v Hp Hcol Hc. apply Hnull; [done |].
    apply (source_pattern_col p); [set_solver | done]. }
  destruct (get_unique_values_none df ["Patient Outcome"]) as [oc ->].
  { intros p col v Hp Hcol Hc. apply Hnull; [done |].
    apply (source_pattern_col p); [set_solver | done]. }
  done.
Qed.

End PlanFacts.

(** X13: no column of a plan has a label the frame already carries, and no two
    have the same label: appending them to a frame with distinct labels
    gives a frame with distinct labels. *)
Theorem new_columns_are_fresh (df : DataFrame) (bd : dict (list Z)) :
  plan_binary_columns df = Ok (Some bd) ->
  NoDup (dict_keys bd) /\
  (forall name, name ∈ dict_keys bd -> name ∉ columns df) /\
  (NoDup (columns df) -> NoDup (columns (concat_binary df bd))).
Proof.
  intros Hplan.
  destruct (plan_binary_columns_inv df bd Hplan)
    as (dv & dc & pv & pc & ov & oc & _ & _ & _ & _ & Hbd).
  assert (NoDup (dict_keys bd)) as Hnd
    by apply (create_binary_columns_any_of _ _ _ _ _ _ _ _ _ Hbd).
  assert (forall name, name ∈ dict_keys bd -> name ∉ columns df) as Hfresh.
  { intros name Hname Hcol.
    apply list_elem_of_fmap in Hname as ([name' series] & -> & Hin). simpl in *.
    destruct (create_binary_columns_entries _ _ _ _ _ _ _ _ _ Hbd _ _ Hin)
      as (prefix & values & cols & s & Hcat & Hs & -> & _ & Hex).
    apply Hex. apply check_existing_elem.
    assert (indicator_name (prefix +:+ sanitize s)) as Hind.
    { exists prefix, s. split; [|done].
      repeat (apply elem_of_cons in Hcat as [[= -> -> ->]|Hcat]);
        [set_solver.. | by apply elem_of_nil in Hcat]. }
    split_and!; [done | by apply indicator_name_prefix
                | by apply indicator_name_not_source]. }
  split_and!; [done | done |].
  intros Hcols. rewrite columns_concat_binary. apply NoDup_app.
  split_and!; [done | | done].
  intros name Hc Hk. by apply (Hfresh name).
Qed.

Lemma new_columns_are_fresh_witness :
  NoDup (dict_keys Sample.new_columns) /\
  NoDup (columns (concat_binary Sample.events Sample.new_columns)).
Proof.
  destruct (new_columns_are_fresh Sample.events Sample.new_columns)
    as (Hnd & _ & Hall).
  - vm_compute. reflexivity.
  - split; [exact Hnd |]. apply Hall. vm_compute.
    repeat (constructor; [set_solver |]). constructor.
Defined.

(** X14: a file that passes validation but whose category columns hold no
    value at all is reported as failed and nothing is written. *)
Theorem file_without_values_is_left_alone
    (read_sheet : Worksheet -> result RawFrame) (path : string) (w : World)
    (book : Workbook) (ws : Worksheet) (df : DataFrame) (col : string) :
  fs w !! path = Some (Xlsx book) ->
  has_xlsx_extension path ->
  assoc "Events" book = Some ws ->
  read_sheet ws = Ok (raw_of df) ->
  col ∈ columns df -> is_source_col col = true ->
  (forall c v, c ∈ columns df -> is_source_col c = true ->
     v ∈ getitem df c -> v = VNull) ->
  process_maude_file read_sheet path w = (Ok false, w).
Proof.
  intros Hf Hext Hws Hdf Hcol Hsrc Hnull.
  rewrite (process_valid_file read_sheet path w book ws df col) by done.
  by rewrite (plan_none_without_values df Hnull).
Qed.

Lemma file_without_values_is_left_alone_witness :
  let ws := mkSheet (list_to_map
                       [((1, 1), new_cell (VStr "Report"));
                        ((1, 2), new_cell (VStr "Device Problem 1"));
                        ((2, 1), new_cell (VNum 101))]) ∅ ∅ 2 in
  let w := mkWorld {[ "MAUDE_2024.xlsx" := Xlsx [("Events", ws)] ]}
                   (fun _ => true) Sample.noon in
  process_maude_file Sample.read_plain "MAUDE_2024.xlsx" w = (Ok false, w).
Proof.
  intros ws w.
  apply (file_without_values_is_left_alone Sample.read_plain "MAUDE_2024.xlsx"
           w [("Events", ws)] ws
           (mkFrame 1 [("Report", [VNum 101]); ("Device Problem 1", [VNull])])
           "Device Problem 1").
  - reflexivity.
  - vm_compute. reflexivity.
  - reflexivity.
  - vm_compute. reflexivity.
  - apply elem_of_cons. right. apply elem_of_cons. by left.
  - reflexivity.
  - intros c v Hc Hsrc Hv.
    apply elem_of_cons in Hc as [->|Hc]; [discriminate Hsrc |].
    apply elem_of_cons in Hc as [->|Hc]; [|by apply elem_of_nil in Hc].
    apply elem_of_cons in Hv as [->|Hv]; [done | by apply elem_of_nil in Hv].
Defined.

(** X15: a file that passes validation but has, in a category column, a value
    that is neither empty nor a text is reported as failed and nothing is
    written: sorting the values or naming the column raises, and the
    handler around the run catches it before any save. *)
Theorem non_text_value_aborts_the_run
    (read_sheet : Worksheet -> result RawFrame) (path : string) (w : World)
    (book : Workbook) (ws : Worksheet) (df : DataFrame)
    (pattern col : string) (v : value) :
  fs w !! path = Some (Xlsx book) ->
  has_xlsx_extension path ->
  assoc "Events" book = Some ws ->
  read_sheet ws = Ok (raw_of df) ->
  pattern ∈ ["Device Problem"; "Patient Problem"; "Patient Outcome"] ->
  col ∈ columns df -> PyStr.contains pattern col = true ->
  v ∈ getitem df col -> v <> VNull -> is_str v = false ->
  process_maude_file read_sheet path w = (Ok false, w).
Proof.
  intros Hf Hext Hws Hdf Hp Hcol Hc Hv Hnn Hnt.
  rewrite (process_valid_file read_sheet path w book ws df col);
    [| done.. | by apply (source_pattern_col pattern)].
  by destruct (plan_raises_on_non_text df pattern col v) as [e ->].
Qed.

Lemma non_text_value_aborts_the_run_witness :
  let ws := mkSheet (list_to_map
                       [((1, 1), new_cell (VStr "Device Problem 1"));
                        ((2, 1), new_cell (VNum 7))]) ∅ ∅ 2 in
  let w := mkWorld {[ "MAUDE_2024.xlsx" := Xlsx [("Events", ws)] ]}
                   (fun _ => true) Sample.noon in
  process_maude_file Sample.read_plain "MAUDE_2024.xlsx" w = (Ok false, w).
Proof.
  intros ws w.
  apply (non_text_value_aborts_the_run Sample.read_plain "MAUDE_2024.xlsx"
           w [("Events", ws)] ws
           (mkFrame 1 [("Device Problem 1", [VNum 7])])
           "Device Problem" "Device Problem 1" (VNum 7)).
  - reflexivity.
  - vm_compute. reflexivity.
  - reflexivity.
  - vm_compute. reflexivity.
  - apply elem_of_cons. by left.
  - apply elem_of_cons. by left.
  - vm_compute. reflexivity.
  - apply elem_of_cons. by left.
  - discriminate.
  - reflexivity.
Defined.

Section StylingFacts.

Lemma apply_style_of (cell : Cell) : apply_style (style_of cell) cell = cell.
Proof. by destruct cell. Qed.

Lemma cell_value_apply_style (st : Style) (cell : Cell) :
  cell_value (apply_style st cell) = cell_value cell.
Proof. done. Qed.

Lemma formatted_keeps (n r : nat) (cell : Cell) :
  cell_value (formatted n r cell) = cell_value cell /\
  cell_alignment (formatted n r cell) = cell_alignment cell /\
  cell_border (formatted n r cell) = cell_border cell /\
  cell_number_format (formatted n r cell) = cell_number_format cell /\
  (r <> 1 -> cell_font (formatted n r cell) = cell_font cell) /\
  (r = 1 -> cell_fill (formatted n r cell) = cell_fill cell).
Proof.
  unfold formatted, paint.
  repeat case_decide; repeat destruct (py_eq _ _); simpl; split_and!;
    done || lia.
Qed.

End StylingFacts.

(** X16: restoring right after capturing changes nothing that can be read from
    the sheet: every cell, every row height and every column width is as
    it was, for any number of columns to restore. *)
Theorem restore_after_capture_is_identity
    (ws : Worksheet) (original_col_count : nat) :
  let ws1 := fst (capture_original_styling ws) in
  let styles := fst (fst (snd (capture_original_styling ws))) in
  let heights := snd (fst (snd (capture_original_styling ws))) in
  let widths := snd (snd (capture_original_styling ws)) in
  let ws' := restore_original_formatting ws1 styles heights widths
               original_col_count in
  (forall r c, get_cell ws' r c = get_cell ws r c) /\
  (forall r, row_height ws' r = row_height ws r) /\
  (forall letter,
     column_dimensions ws' !! letter = column_dimensions ws !! letter).
Proof.
  pose proof (capture_original_styling_spec ws) as Hspec.
  destruct (capture_original_styling ws) as [ws1 [[styles heights] widths]].
  destruct Hspec as (Hc & Hh & Hd & _ & Hst & Hhs & ->).
  cbv zeta. simpl fst. simpl snd. unfold restore_original_formatting.
  destruct (restore_rows styles heights original_col_count (max_row ws1) ws1)
    as (Hc2 & Hr2 & Hd2).
  set (w2 := fold_left (restore_row _ _ _) _ ws1) in *.
  split_and!.
  - intros r c.
    assert (get_cell (with_column_dimensions w2
                        (map_fold restore_width (column_dimensions w2)
                           (column_dimensions ws))) r c = get_cell w2 r c)
      as -> by done.
    rewrite Hc2. case_decide; [|apply Hc].
    unfold restored. rewrite Hst. case_decide; [|apply Hc].
    rewrite Hc. apply apply_style_of.
  - intros r. unfold row_height at 1.
    assert (row_dimensions (with_column_dimensions w2
                        (map_fold restore_width (column_dimensions w2)
                           (column_dimensions ws))) = row_dimensions w2)
      as -> by done.
    rewrite Hr2. case_decide; [|apply Hh].
    unfold restored_height. rewrite Hhs. case_decide; [|apply Hh].
    destruct (truthy (row_height ws r)); [done | apply Hh].
  - intros letter. simpl. rewrite restore_widths, Hd2, Hd.
    destruct (column_dimensions ws !! letter) as [wd|] eqn:E; [|done].
    by destruct (truthy wd).
Qed.

(** X17: restoring never changes what a cell holds, and it leaves alone every
    cell to the right of the original columns, every cell without a
    captured style, every row without a captured height or with a height
    of zero, and every column without a captured width or with a width of
    zero. *)
Theorem restore_changes_styles_only
    (ws : Worksheet) (styles : gmap (nat * nat) Style)
    (heights : gmap nat (option Z)) (widths : gmap string (option Z))
    (original_col_count : nat) :
  let ws' := restore_original_formatting ws styles heights widths
               original_col_count in
  (forall r c, cell_value (get_cell ws' r c) = cell_value (get_cell ws r c)) /\
  (forall r c,
     original_col_count < c \/ max_row ws < r \/ styles !! (r, c) = None ->
     get_cell ws' r c = get_cell ws r c) /\
  (forall r,
     max_row ws < r \/ heights !! r = None \/ heights !! r = Some None \/
     heights !! r = Some (Some 0%Z) ->
     row_dimensions ws' !! r = row_dimensions ws !! r) /\
  (forall letter,
     widths !! letter = None \/ widths !! letter = Some None \/
     widths !! letter = Some (Some 0%Z) ->
     column_dimensions ws' !! letter = column_dimensions ws !! letter).
Proof.
  cbv zeta. unfold restore_original_formatting.
  destruct (restore_rows styles heights original_col_count (max_row ws) ws)
    as (Hc2 & Hr2 & Hd2).
  set (w2 := fold_left (restore_row _ _ _) _ ws) in *.
  assert (forall r c,
            get_cell (with_column_dimensions w2
                        (map_fold restore_width (column_dimensions w2) widths))
              r c = get_cell w2 r c) as Hg by done.
  split_and!.
  - intros r c. rewrite Hg, Hc2. case_decide; [|done].
    unfold restored. by destruct (styles !! (r, c)).
  - intros r c Hout. rewrite Hg, Hc2. case_decide as Hin; [|done].
    destruct Hout as [?|[?|Hs]]; [lia | lia |].
    unfold restored. by rewrite Hs.
  - intros r Hout.
    assert (row_dimensions (with_column_dimensions w2
                        (map_fold restore_width (column_dimensions w2) widths))
            = row_dimensions w2) as -> by done.
    rewrite Hr2. case_decide as Hin; [|done].
    unfold restored_height.
    destruct Hout as [?|[Hs|[Hs|Hs]]]; [lia | by rewrite Hs..].
  - intros letter Hout. simpl. rewrite restore_widths, Hd2.
    destruct Hout as [Hs|[Hs|Hs]]; by rewrite Hs.
Qed.

(** X18: colouring never changes what a cell holds, nor its alignment, border
    or number format; it changes no cell outside the block of the new
    columns and the rows of the frame, only the font in the header row and
    only the fill below it, and no row height or column width. *)
Theorem colouring_stays_in_the_new_columns
    (ws : Worksheet) (df_with_binary : DataFrame) (original_col_count : nat)
    (binary_data : dict (list Z)) :
  let ws' := apply_binary_formatting ws df_with_binary original_col_count
               binary_data in
  let n := frame_len df_with_binary in
  (forall r c,
     cell_value (get_cell ws' r c) = cell_value (get_cell ws r c) /\
     cell_alignment (get_cell ws' r c) = cell_alignment (get_cell ws r c) /\
     cell_border (get_cell ws' r c) = cell_border (get_cell ws r c) /\
     cell_number_format (get_cell ws' r c)
     = cell_number_format (get_cell ws r c) /\
     (r <> 1 -> cell_font (get_cell ws' r c) = cell_font (get_cell ws r c)) /\
     (r = 1 -> cell_fill (get_cell ws' r c) = cell_fill (get_cell ws r c))) /\
  (forall r c,
     c <= original_col_count \/
     original_col_count + length binary_data < c \/ r = 0 \/ n + 1 < r ->
     get_cell ws' r c = get_cell ws r c) /\
  row_dimensions ws' = row_dimensions ws /\
  column_dimensions ws' = column_dimensions ws.
Proof.
  cbv zeta. unfold apply_binary_formatting.
  destruct (format_binary_cols (frame_len df_with_binary)
              (original_col_count + 1) (length (dict_keys binary_data)) ws)
    as (Hc & Hr & Hd).
  unfold dict_keys in *. rewrite length_map in *.
  split_and!; [| | done | done].
  - intros r c. rewrite Hc. case_decide; [apply formatted_keeps | done].
  - intros r c Hout. rewrite Hc. case_decide as Hin; [|done].
    unfold formatted. repeat case_decide; try done; lia.
Qed.

Section DiscoveryFacts.

Lemma prefix_app_l (p a b : string) :
  String.prefix p a = true -> String.prefix p (a +:+ b) = true.
Proof.
  revert a. induction p as [|x p IH]; intros a; [intros _; apply prefix_empty |].
  destruct a as [|c a]; [done |].
  rewrite append_cons, !prefix_cons. destruct (ascii_dec x c); [apply IH | done].
Qed.

Lemma contains_app_l (p a b : string) :
  PyStr.contains p a = true -> PyStr.contains p (a +:+ b) = true.
Proof.
  induction a as [|c a IH].
  - cbn [PyStr.contains]. rewrite orb_false_r. intros H.
    destruct p; [|done]. rewrite append_nil.
    destruct b; cbn [PyStr.contains]; by rewrite prefix_empty.
  - rewrite append_cons. cbn [PyStr.contains].
    intros [H|H]%orb_true_iff; apply orb_true_iff.
    + left. rewrite <- append_cons. by apply prefix_app_l.
    + right. by apply IH.
Qed.

Lemma contains_char (x : ascii) (s : string) :
  PyStr.contains (String x "") s = has_char x s.
Proof.
  induction s as [|c s IH]; [done |].
  cbn [PyStr.contains has_char]. rewrite IH, prefix_cons, prefix_empty.
  f_equal. destruct (ascii_dec x c) as [->|Hne].
  - by rewrite Ascii.eqb_refl.
  - symmetry. apply Ascii.eqb_neq. congruence.
Qed.

Lemma upper_append (a b : string) :
  PyStr.upper (a +:+ b) = PyStr.upper a +:+ PyStr.upper b.
Proof.
  induction a as [|c a IH]; [done |].
  rewrite append_cons. simpl. rewrite IH. by rewrite append_cons.
Qed.

Lemma digits_no_slash (width n : nat) :
  has_char "/" (PyStr.digits width n) = false.
Proof.
  revert n. induction width as [|width IH]; intros n; [done |].
  cbn [PyStr.digits]. rewrite has_char_append, IH.
  cbn [has_char orb]. rewrite orb_false_r. unfold PyStr.digit.
  assert (n mod 10 < 10) as Hlt by (apply Nat.mod_upper_bound; lia).
  destruct (n mod 10) as [|[|[|[|[|[|[|[|[|[|k]]]]]]]]]]; try reflexivity. lia.
Qed.

Lemma strftime_no_slash (t : DateTime) : has_char "/" (strftime t) = false.
Proof.
  unfold strftime. rewrite !has_char_append, !digits_no_slash. reflexivity.
Qed.

Lemma find_maude_files_elem (w : World) (f : string) :
  f ∈ find_maude_files w <->
  is_Some (fs w !! f) /\
  PyStr.contains "/" f = false /\ PyStr.endswith f ".xlsx" = true /\
  PyStr.startswith f "." = false /\
  PyStr.contains "MAUDE" (PyStr.upper f) = true.
Proof.
  unfold find_maude_files, glob_xlsx.
  rewrite list_elem_of_In, !filter_In, <- list_elem_of_In.
  rewrite !andb_true_iff, !negb_true_iff.
  assert (f ∈ map fst (map_to_list (fs w)) <-> is_Some (fs w !! f)) as ->.
  { split.
    - intros ([p x] & -> & Hp%elem_of_map_to_list)%list_elem_of_fmap.
      simpl. eauto.
    - intros [x Hx]. apply list_elem_of_fmap. exists (f, x).
      split; [done | by apply elem_of_map_to_list]. }
  tauto.
Qed.

End DiscoveryFacts.

(** X19: a run that writes leaves a backup that the next search of the
    directory finds again: for a file named by a stem without dot or
    slash that contains MAUDE in some case, followed by [.xlsx], both the
    file and its backup are among the files found afterwards, so the next
    run without argument processes the backup as well.  Such a run reports
    success exactly when the save to the file itself was let through. *)
Theorem backup_is_found_by_the_next_search
    (read_sheet : Worksheet -> result RawFrame) (w w' : World)
    (stem : string) (b : bool) :
  let path := stem +:+ ".xlsx" in
  let backup := stem +:+ "_backup_" +:+ strftime (clock w) +:+ ".xlsx" in
  PyStr.contains "." stem = false ->
  PyStr.contains "/" stem = false ->
  PyStr.contains "MAUDE" (PyStr.upper stem) = true ->
  process_maude_file read_sheet path w = (Ok b, w') ->
  w' <> w ->
  b = writable w path /\ backup <> path /\
  path ∈ find_maude_files w /\
  path ∈ find_maude_files w' /\ backup ∈ find_maude_files w'.
Proof.
  intros path backup Hdot Hslash Hmaude Hrun Hne.
  destruct (process_outcome read_sheet path w) as (b0 & w0 & Hrun0 & Hout).
  rewrite Hrun in Hrun0. injection Hrun0 as <- <-.
  destruct Hout as [->|(Hfile & _ & book' & -> & ->)]; [done |].
  rewrite (backup_path_plain_name stem _ Hdot). fold backup.
  assert (backup <> path) as Hbp.
  { intros Heq. apply (f_equal String.length) in Heq.
    unfold backup, path in Heq. rewrite !append_length in Heq. simpl in Heq. lia. }
  assert (exists c rest, stem = String c rest /\ c <> "."%char)
    as (c & rest & Hstem & Hc).
  { destruct stem as [|c rest]; [done |]. exists c, rest. split; [done |].
    intros ->. cbn [PyStr.contains] in Hdot.
    rewrite prefix_cons, prefix_empty in Hdot. done. }
  assert (forall tail, PyStr.startswith (stem +:+ tail) "." = false) as Hhid.
  { intros tail. rewrite Hstem, append_cons. unfold PyStr.startswith.
    rewrite prefix_cons. destruct (ascii_dec "." c); [congruence | done]. }
  assert (forall tail, has_char "/" tail = false ->
            PyStr.contains "/" (stem +:+ tail) = false) as Hnos.
  { intros tail Ht. rewrite contains_char in *.
    by rewrite has_char_append, Hslash, Ht. }
  assert (forall tail, PyStr.contains "MAUDE" (PyStr.upper (stem +:+ tail)) = true)
    as Hm.
  { intros tail. rewrite upper_append. by apply contains_app_l. }
  assert (PyStr.endswith backup ".xlsx" = true) as Hend.
  { apply endswith_split. exists (stem +:+ "_backup_" +:+ strftime (clock w)).
    unfold backup. by rewrite !append_assoc. }
  assert (PyStr.endswith path ".xlsx" = true) as Hendp.
  { apply endswith_split. by exists stem. }
  split_and!; [done | done | ..].
  - apply find_maude_files_elem. split_and!; [done | | done | apply Hhid | apply Hm].
    by apply Hnos.
  - apply find_maude_files_elem.
    split_and!; [| | done | apply Hhid | apply Hm].
    + simpl. destruct (writable w path).
      * rewrite lookup_insert_eq. eauto.
      * by rewrite lookup_insert_ne.
    + by apply Hnos.
  - apply find_maude_files_elem.
    split_and!; [| | done | apply Hhid | apply Hm].
    + simpl. destruct (writable w path).
      * rewrite lookup_insert_ne by done. rewrite lookup_insert_eq. eauto.
      * rewrite lookup_insert_eq. eauto.
    + apply Hnos. rewrite !has_char_append, strftime_no_slash. reflexivity.
Qed.

Lemma backup_is_found_by_the_next_search_witness :
  "MAUDE_2024_backup_20261103_120000.xlsx"
    ∈ find_maude_files (Sample.processed "MAUDE_2024.xlsx").
Proof.
  destruct (backup_is_found_by_the_next_search Sample.read_plain
              (Sample.world "MAUDE_2024.xlsx")
              (Sample.processed "MAUDE_2024.xlsx") "MAUDE_2024" true)
    as (_ & _ & _ & _ & Hfound).
  - reflexivity.
  - reflexivity.
  - reflexivity.
  - vm_compute. reflexivity.
  - intros H.
    apply (f_equal (fun x => fs x !! "MAUDE_2024_backup_20261103_120000.xlsx"))
      in H.
    vm_compute in H. discriminate H.
  - exact Hfound.
Defined.

(* ===================================================================== *)
(** * Further properties: runs that end in an exception                   *)
(* ===================================================================== *)

(** X20: a run that has columns to add and meets a refused save reports
    failure.  When the backup path cannot be written, nothing is written
    at all.  When the backup is saved and the save to the file itself is
    refused, the backup stays, holding the rewritten workbook, and the
    file holds what it held. *)
Theorem refused_save_fails_the_run
    (read_sheet : Worksheet -> result RawFrame) (w : World) (path : string)
    (book : Workbook) (ws ws1 : Worksheet) (df : DataFrame) (col : string)
    (binary_data : dict (list Z)) (styles : gmap (nat * nat) Style)
    (heights : gmap nat (option Z)) (widths : gmap string (option Z)) :
  let backup := backup_path_of path (strftime (clock w)) in
  let book' := set_sheet book "Events"
                 (rewrite_sheet ws1 df binary_data styles heights widths) in
  has_xlsx_extension path ->
  fs w !! path = Some (Xlsx book) ->
  assoc "Events" book = Some ws ->
  read_sheet ws = Ok (raw_of df) ->
  col ∈ columns df -> is_source_col col = true ->
  plan_binary_columns df = Ok (Some binary_data) -> binary_data <> [] ->
  capture_original_styling ws = (ws1, (styles, heights, widths)) ->
  (writable w backup = false ->
   process_maude_file read_sheet path w = (Ok false, w)) /\
  (writable w backup = true -> writable w path = false ->
   backup <> path /\
   exists w',
     process_maude_file read_sheet path w = (Ok false, w') /\
     fs w' !! backup = Some (Xlsx book') /\
     fs w' !! path = Some (Xlsx book) /\
     forall p, p <> backup -> fs w' !! p = fs w !! p).
Proof.
  intros backup book' Hext Hf Hws Hdf Hcol Hsrc Hplan Hbd Hcap.
  rewrite (process_valid_file read_sheet path w book ws df col) by done.
  rewrite Hplan, Hcap. destruct binary_data as [|kv bd]; [done |].
  cbv zeta. fold backup. split.
  - by intros ->.
  - intros Hb Hp. rewrite Hb, Hp.
    assert (backup <> path) as Hne by (intros Heq; congruence).
    split; [done |]. eexists. split; [done |]. simpl. split_and!.
    + by rewrite lookup_insert_eq.
    + by rewrite lookup_insert_ne.
    + intros p Hpb. by rewrite lookup_insert_ne.
Qed.

Lemma refused_save_fails_the_run_witness :
  let w := mkWorld {[ "MAUDE_2024.xlsx" := Xlsx [("Events", Sample.sheet)] ]}
                   (fun p => negb (String.eqb p "MAUDE_2024.xlsx"))
                   Sample.noon in
  exists w',
    process_maude_file Sample.read_plain "MAUDE_2024.xlsx" w = (Ok false, w') /\
    fs w' !! "MAUDE_2024.xlsx" = Some (Xlsx [("Events", Sample.sheet)]) /\
    is_Some (fs w' !! "MAUDE_2024_backup_20261103_120000.xlsx").
Proof.
  intros w.
  destruct (refused_save_fails_the_run Sample.read_plain w "MAUDE_2024.xlsx"
              [("Events", Sample.sheet)] Sample.sheet
              (fst (capture_original_styling Sample.sheet))
              Sample.events "Device Problem 1" Sample.new_columns
              (fst (fst (snd (capture_original_styling Sample.sheet))))
              (snd (fst (snd (capture_original_styling Sample.sheet))))
              (snd (snd (capture_original_styling Sample.sheet))))
    as [_ Hpartial].
  - reflexivity.
  - reflexivity.
  - reflexivity.
  - vm_compute. reflexivity.
  - apply elem_of_cons. right. apply elem_of_cons. by left.
  - reflexivity.
  - vm_compute. reflexivity.
  - discriminate.
  - by destruct (capture_original_styling Sample.sheet) as [? [[? ?] ?]].
  - destruct Hpartial as (_ & w' & Hrun & Hb & Hp & _); [reflexivity.. |].
    exists w'. split_and!; [exact Hrun | exact Hp |].
    change "MAUDE_2024_backup_20261103_120000.xlsx"
      with (backup_path_of "MAUDE_2024.xlsx" (strftime (clock w))).
    by rewrite Hb.
Defined.

(** X21: a file with a header cell that holds a number is not processed:
    whatever else the Events sheet holds, the label test of validation
    raises, the run reports failure and nothing is written. *)
Theorem numeric_label_aborts_processing
    (read_sheet : Worksheet -> result RawFrame) (w : World) (path : string)
    (book : Workbook) (ws : Worksheet) (df : RawFrame) (n : Z) :
  fs w !! path = Some (Xlsx book) ->
  has_xlsx_extension path ->
  assoc "Events" book = Some ws ->
  read_sheet ws = Ok df ->
  LNum n ∈ raw_labels df ->
  validate_maude_file read_sheet path w
  = (Ok (false, "Error validating file: " +:+ exn_message LabelTypeError), w) /\
  process_maude_file read_sheet path w = (Ok false, w).
Proof.
  intros Hf Hext Hws Hdf Hn.
  assert (validate_maude_file read_sheet path w
          = (Ok (false, "Error validating file: "
                        +:+ exn_message LabelTypeError), w)) as Hval.
  { rewrite (validate_read read_sheet path w book ws df) by done.
    rewrite (proj2 (text_labels_spec df)); [done |].
    intros Hall. rewrite Forall_forall in Hall. by specialize (Hall _ Hn). }
  split; [done |]. by apply (process_invalid read_sheet path w _ Hval).
Qed.

Lemma numeric_label_aborts_processing_witness :
  process_maude_file Sample.read_plain "MAUDE_2024.xlsx" Sample.numbered_world
  = (Ok false, Sample.numbered_world).
Proof.
  apply (numeric_label_aborts_processing Sample.read_plain
           Sample.numbered_world "MAUDE_2024.xlsx"
           [("Events", Sample.numbered)] Sample.numbered
           (mkRaw 1 [(LNum 2024, [VNum 7]);
                     (LStr "Device Problem 1", [VStr "Fracture"])]) 2024).
  - reflexivity.
  - reflexivity.
  - reflexivity.
  - vm_compute. reflexivity.
  - apply elem_of_cons. by left.
Defined.
